(** * HerSphere-BE analytics core: a shallow embedding and its properties

    The development follows [services/analyticsService.js] and
    [services/streakService.js], with the routes of [routes/profile.js] and
    the controller of [controllers/analyticsController.js] that call them.

    JavaScript numbers are IEEE 754 binary64 values, modelled by the
    rationals ([Q]) they denote: [Js.fl] rounds a rational to the nearest
    binary64 value, ties to even, and [Js.add], [Js.sub], [Js.mul] and
    [Js.div] round their result as JavaScript's [+], [-], [*] and [/] do.
    The exponent has no upper bound in the model, so results beyond the
    largest binary64 value, NaN and the sign of zero are outside it; the one
    place of the code modelled here where a division by zero is reachable,
    [calculateStudyConsistencyPatterns], carries its infinite results
    explicitly.  Values that the code passes through [Math.round],
    [Math.floor], [parseInt] or a counter are integers ([Z]).  Sums and
    differences of integers and of instants are exact, and so is the
    quotient of two integers that goes straight to [Math.round],
    [Math.floor] or [Math.ceil]: for integers below 2^52 the rounding of
    such a quotient to binary64 does not change the integer it is rounded
    to.

    Calendar dates and instants are milliseconds since the epoch ([Z]) and
    the server clock is read in UTC.  Every reading of the clock
    ([new Date()]) and of CURRENT_TIMESTAMP is an explicit argument: an
    operation has one reading, [now]; the aggregations, which take their
    window from a first reading and then await operations that read the
    clock again, have a second one, [later].  A DATE column compared with a
    JavaScript Date is compared by calendar day, as PostgreSQL reads the
    parameter as a date.  Asynchronous functions run in a monad that threads
    the store and carries rejections, so that [await], [try] and [catch]
    read as in the source. *)

From stdpp Require Import gmap strings pretty.
From Stdlib Require Import ZArith QArith Qround Qpower Lqa List Lia Permutation Sorted.
Import ListNotations.

Local Open Scope Z_scope.

(** ** JavaScript arithmetic *)

Module Js.

(** *** Binary64 rounding *)

Definition pow2 (e : Z) : Q := (2 ^ e)%Q.

(** The binade of a positive rational: [pow2 (ilog2 q) <= q < pow2 (ilog2 q + 1)]. *)
Definition ilog2 (q : Q) : Z :=
  let k := Z.log2 (Qnum q) - Z.log2 (Zpos (Qden q)) in
  if Qle_bool (pow2 k) q then k else k - 1.

(** The nearest integer, ties to even. *)
Definition nearest_even (x : Q) : Z :=
  let f := Qfloor x in
  match (x - inject_Z f ?= 1 # 2)%Q with
  | Lt => f
  | Gt => f + 1
  | Eq => if Z.even f then f else f + 1
  end.

(** The exponent of the last place of a positive rational: 53 significant
    bits, and never below the subnormal exponent -1074. *)
Definition exponent (q : Q) : Z := Z.max (ilog2 q - 52) (-1074).

Definition fl_pos (q : Q) : Q :=
  let e := exponent q in
  Qred (inject_Z (nearest_even (q / pow2 e)) * pow2 e).

(** The binary64 value nearest to a rational, in lowest terms. *)
Definition fl (x : Q) : Q :=
  let q := Qred x in
  match Qnum q with
  | Z0 => 0%Q
  | Zpos _ => fl_pos q
  | Zneg _ => (- fl_pos (- q))%Q
  end.

(** [x + y], [x - y], [x * y] and [x / y] on numbers ([y] not zero); a
    rational that is not a binary64 value stands for the nearest one. *)
Definition add (x y : Q) : Q := fl (fl x + fl y).
Definition sub (x y : Q) : Q := fl (fl x - fl y).
Definition mul (x y : Q) : Q := fl (fl x * fl y).
Definition div (x y : Q) : Q := fl (fl x / fl y).

(** [parseFloat] on the decimal text of a rational. *)
Definition parseFloat (x : Q) : Q := fl x.

(** *** Math and arrays *)

(** [Math.round]: the nearest integer, ties going up. *)
Definition round (x : Q) : Z := Qfloor (x + (1 # 2)).

(** [Math.floor] and [Math.ceil]. *)
Definition floor (x : Q) : Z := Qfloor x.
Definition ceil (x : Q) : Z := Qceiling x.

(** [Math.min] and [Math.max] on numbers. *)
Definition min (x y : Q) : Q := if Qle_bool x y then x else y.
Definition max (x y : Q) : Q := if Qle_bool x y then y else x.

(** A JavaScript integer seen as a number. *)
Definition num (z : Z) : Q := inject_Z z.

(** [arr.length] as a number. *)
Definition len {A} (l : list A) : Q := inject_Z (Z.of_nat (length l)).

(** [x > y] and [x >= y] on numbers. *)
Definition gt (x y : Q) : bool := negb (Qle_bool x y).
Definition ge (x y : Q) : bool := Qle_bool y x.

(** [arr.reduce((sum, val) => sum + val, 0)]. *)
Definition sum (l : list Q) : Q := fold_left add l 0%Q.

(** [arr.slice(0, n)] and [arr.slice(n)] for [0 <= n]. *)
Definition slice_to {A} (n : nat) (l : list A) : list A := firstn n l.
Definition slice_from {A} (n : nat) (l : list A) : list A := skipn n l.

End Js.

(** The binary64 values: an integer of at most 53 bits times a power of two
    that is at least the smallest subnormal. *)
Definition F64 (b : Q) : Prop :=
  exists M E : Z, (b == inject_Z M * Js.pow2 E)%Q /\ Z.abs M <= 2 ^ 53 /\ -1074 <= E.

(** ** TrendAnalyzer: [calculateTrend] (analyticsService.js, 1114-1138) *)

Inductive Trend := increasing | decreasing | stable | insufficient_data.

Record TrendResult := { trend : Trend; percentage : Z }.

Definition calculateTrend (values : list Q) : TrendResult :=
  if (length values <? 2)%nat then
    {| trend := insufficient_data; percentage := 0 |}
  else
    let midPoint := (length values / 2)%nat in
    let firstHalf := Js.slice_to midPoint values in
    let secondHalf := Js.slice_from midPoint values in
    let firstHalfAvg := Js.div (Js.sum firstHalf) (Js.len firstHalf) in
    let secondHalfAvg := Js.div (Js.sum secondHalf) (Js.len secondHalf) in
    let percentageChange :=
      if Js.gt firstHalfAvg 0
      then Js.round (Js.mul (Js.div (Js.sub secondHalfAvg firstHalfAvg) firstHalfAvg) 100)
      else 0 in
    let trend :=
      if percentageChange >? 10 then increasing
      else if percentageChange <? -10 then decreasing
      else stable in
    {| trend := trend; percentage := percentageChange |}.

(** The description of the trend in the specification, with the condition
    under which the relative change is computed left as a parameter
    [baseline_ok]: the specification computes it unless the first-half
    average is zero.  Its arithmetic is JavaScript's: the average is the sum
    of the values, added in their order, over their number, and every
    operation is rounded to binary64. *)
Module TrendSpec.

Fixpoint total_from (acc : Q) (l : list Q) : Q :=
  match l with
  | [] => acc
  | v :: l' => total_from (Js.add acc v) l'
  end.

Definition total (l : list Q) : Q := total_from 0 l.

Definition avg (l : list Q) : Q :=
  Js.div (total l) (inject_Z (Z.of_nat (length l))).

(** ((later - earlier) / earlier) * 100 *)
Definition relative_change (earlier later : Q) : Q :=
  Js.mul (Js.div (Js.sub later earlier) earlier) 100.

Definition classify (p : Z) : Trend :=
  if 10 <? p then increasing else if p <? -10 then decreasing else stable.

Definition trend_of (baseline_ok : Q -> bool) (values : list Q) : TrendResult :=
  let n := length values in
  if (n <? 2)%nat then {| trend := insufficient_data; percentage := 0 |}
  else
    let firstHalf := firstn (n / 2) values in
    let secondHalf := skipn (n / 2) values in
    let p :=
      if baseline_ok (avg firstHalf)
      then Js.round (relative_change (avg firstHalf) (avg secondHalf))
      else 0 in
    {| trend := classify p; percentage := p |}.

(** As written in the specification: 0 only when the first-half average is 0. *)
Definition nonzero (a : Q) : bool := negb (Qeq_bool a 0).
Definition spec_calculateTrend := trend_of nonzero.

(** As guarded in the code: 0 whenever the first-half average is not positive. *)
Definition positive (a : Q) : bool := negb (Qle_bool a 0).

End TrendSpec.

(** ** [Array.prototype.sort] with a comparison function

    The sort of the engine is stable: an element moves in front of another
    only when the comparison function says that it comes strictly first.
    [sort] builds the result from the right, putting each element in front
    of the first element that does not come strictly before it. *)

Module JsArray.

Section Sort.

Context {A : Type} (compareFn : A -> A -> Z).

Fixpoint insert (x : A) (l : list A) : list A :=
  match l with
  | [] => [x]
  | y :: l' => if compareFn x y <=? 0 then x :: y :: l' else y :: insert x l'
  end.

Definition sort (l : list A) : list A := fold_right insert [] l.

End Sort.

(** [Math.max(...arr)] on a non-empty array of integers. *)
Definition max_of (l : list Z) : Z :=
  match l with
  | [] => 0
  | x :: l' => fold_left Z.max l' x
  end.

End JsArray.

(** ** The store *)

Definition msPerDay : Z := 1000 * 60 * 60 * 24.

(** [d.setHours(0, 0, 0, 0)], and the value a DATE column keeps of an instant. *)
Definition startOfDay (t : Z) : Z := t - t mod msPerDay.

(** [d.setDate(d.getDate() - n)]. *)
Definition minusDays (t : Z) (n : Z) : Z := t - n * msPerDay.

(** [date >= $n] and [date <= $n] on a DATE column with a JavaScript Date as
    the parameter: PostgreSQL reads the parameter as a date, so a row
    matches when its day is not before, or not after, the day of the
    parameter, whatever the parameter's time of day. *)
Definition on_or_after (param date : Z) : bool := startOfDay param <=? date.
Definition on_or_before (param date : Z) : bool := date <? startOfDay param + msPerDay.

Record WaterRow := { w_user_id : Z; w_date : Z; amount_ml : Z }.

Record ExerciseRow :=
  { e_user_id : Z; e_date : Z; activity_type : string; footsteps : Z }.

Record PeriodRow := { p_user_id : Z; pain_start_date : Z }.

Record ConstipationRow := { c_user_id : Z; c_date : Z; c_status : bool }.

Record KriyaRow := { k_user_id : Z; k_date : Z }.

Record TypingRow := { t_user_id : Z; t_date : Z; t_completed : bool }.

Record StudyLogRow := { s_user_id : Z; s_date : Z; hours : Q }.

Record SubjectRow := { subj_id : Z; subj_code : string; subj_name : string }.

Record UnitRow := { unit_id : Z; unit_subject_id : Z }.

Record TaskRow :=
  { task_id : Z; task_user_id : Z; task_unit_id : Z;
    task_completed : bool; task_updated_at : Z }.

Record NptelTaskRow :=
  { nptel_id : Z; nptel_user_id : Z; nptel_subject_id : Z;
    nptel_completed : bool; nptel_updated_at : Z }.

Inductive GoalStatus := active | completed | paused.

Record GoalRow :=
  { g_id : Z; g_user_id : Z; g_type : string; g_metric : string;
    g_target : Q; g_description : string; g_status : GoalStatus;
    g_created_at : Z; g_updated_at : Z }.

Record AchievementRow :=
  { a_user_id : Z; a_goal_id : Z; achieved_value : Z; achieved_at : Z }.

(** A row of [user_streaks]; the table has one row for each
    (user_id, activity_type), which is the key of the map below. *)
Record StreakRow :=
  { current_streak : Z; longest_streak : Z; last_activity_date : option Z;
    streak_updated_at : Z }.

Record Tables :=
  { water_intake : list WaterRow;
    exercise_tracker : list ExerciseRow;
    period_tracker : list PeriodRow;
    constipation_tracker : list ConstipationRow;
    shambhavi_kriya : list KriyaRow;
    typing_practice : list TypingRow;
    study_logs : list StudyLogRow;
    subjects : list SubjectRow;
    units : list UnitRow;
    tasks : list TaskRow;
    nptel_tasks : list NptelTaskRow;
    user_goals : list GoalRow;
    goal_achievements : list AchievementRow;
    user_streaks : gmap (Z * string) StreakRow }.

(** The store with its pending faults: each query takes the head of
    [faults], and is rejected when it is [true]; [rejected] counts the
    queries rejected so far. *)
Record Db := { tables : Tables; faults : list bool; rejected : nat }.

(** ** Asynchronous operations

    An [async] function either resolves to a value or rejects with an error;
    the store is threaded through, and keeps what was written before a
    rejection. *)

Inductive Outcome (A : Type) :=
| Resolved (a : A)
| Rejected (error : string).

Arguments Resolved {A} a.
Arguments Rejected {A} error.

Definition Async (A : Type) : Type := Db -> Outcome A * Db.

Definition ret {A} (a : A) : Async A := fun db => (Resolved a, db).

Definition bind {A B} (m : Async A) (k : A -> Async B) : Async B :=
  fun db =>
    match m db with
    | (Resolved a, db') => k a db'
    | (Rejected e, db') => (Rejected e, db')
    end.

(** [try { m } catch (error) { h error }]. *)
Definition try_catch {A} (m : Async A) (h : string -> Async A) : Async A :=
  fun db =>
    match m db with
    | (Resolved a, db') => (Resolved a, db')
    | (Rejected e, db') => h e db'
    end.

Declare Scope async_scope.
Delimit Scope async_scope with async.

Notation "'let*' x ':=' m 'in' k" := (bind m (fun x => k))
  (at level 10, x name, m at level 100, k at level 200) : async_scope.

Definition queryError : string := "query failed".

(** [await pool.query(...)]: [q] is the effect of the statement on the
    tables together with what it returns. *)
Definition pool_query {A} (q : Tables -> A * Tables) : Async A :=
  fun db =>
    match faults db with
    | true :: fs =>
        (Rejected queryError,
         {| tables := tables db; faults := fs; rejected := S (rejected db) |})
    | _ :: fs =>
        let (a, t) := q (tables db) in
        (Resolved a, {| tables := t; faults := fs; rejected := rejected db |})
    | [] =>
        let (a, t) := q (tables db) in
        (Resolved a, {| tables := t; faults := []; rejected := rejected db |})
    end.

(** A statement that only reads, and one that only writes. *)
Definition select {A} (q : Tables -> A) : Async A :=
  pool_query (fun t => (q t, t)).

Definition execute (f : Tables -> Tables) : Async unit :=
  pool_query (fun t => (tt, f t)).

(** SQL aggregates: [AVG] is NULL on no rows, [COUNT] is a number. *)
Definition sql_avg (l : list Q) : option Q :=
  match l with
  | [] => None
  | _ => Some (fold_left Qplus l 0 / inject_Z (Z.of_nat (length l)))%Q
  end.

Definition sql_count {A} (l : list A) : Z := Z.of_nat (length l).

(** [ORDER BY key ASC] and [ORDER BY key DESC]; rows with equal keys keep the
    order of the table. *)
Definition order_by_asc {A} (key : A -> Z) (l : list A) : list A :=
  JsArray.sort (fun a b => key a - key b) l.

Definition order_by_desc {A} (key : A -> Z) (l : list A) : list A :=
  JsArray.sort (fun a b => key b - key a) l.

(** [avg ? Math.round(parseFloat(avg)) : 0] on the result of an [AVG]. *)
Definition rounded_or_zero (avg : option Q) : Z :=
  match avg with
  | Some v => Js.round (Js.parseFloat v)
  | None => 0
  end.

Local Open Scope async_scope.

(** ** GoalTracker (analyticsService.js) *)

(** [getCurrentMetricValue] (717-774). *)
Definition getCurrentMetricValue (now : Z) (userId : Z) (metric type : string)
  : Async Z :=
  let last30Days := minusDays now 30 in
  if String.eqb metric "water_intake" then
    let* avg_value := select (fun t =>
      sql_avg (map (fun r => inject_Z (amount_ml r))
        (filter (fun r => (w_user_id r =? userId) && on_or_after last30Days (w_date r))
           (water_intake t)))) in
    ret (rounded_or_zero avg_value)
  else if String.eqb metric "exercise_steps" then
    let* avg_value := select (fun t =>
      sql_avg (map (fun r => inject_Z (footsteps r))
        (filter (fun r => (e_user_id r =? userId) && on_or_after last30Days (e_date r))
           (exercise_tracker t)))) in
    ret (rounded_or_zero avg_value)
  else if String.eqb metric "study_hours" then
    let* avg_value := select (fun t =>
      sql_avg (map hours
        (filter (fun r => (s_user_id r =? userId) && on_or_after last30Days (s_date r))
           (study_logs t)))) in
    ret (rounded_or_zero avg_value)
  else if String.eqb metric "kriya_sessions" then
    let* total := select (fun t =>
      sql_count
        (filter (fun r => (k_user_id r =? userId) && on_or_after last30Days (k_date r))
           (shambhavi_kriya t))) in
    ret total
  else if String.eqb metric "typing_completion_rate" then
    let* avg_rate := select (fun t =>
      sql_avg (map (fun r => if t_completed r then 100%Q else 0%Q)
        (filter (fun r => (t_user_id r =? userId) && on_or_after last30Days (t_date r))
           (typing_practice t)))) in
    ret (rounded_or_zero avg_rate)
  else if String.eqb metric "constipation_positive_rate" then
    let* avg_rate := select (fun t =>
      sql_avg (map (fun r => if c_status r then 100%Q else 0%Q)
        (filter (fun r => (c_user_id r =? userId) && on_or_after last30Days (c_date r))
           (constipation_tracker t)))) in
    ret (rounded_or_zero avg_rate)
  else if String.eqb metric "task_completion_rate" then
    let* avg_rate := select (fun t =>
      sql_avg (map (fun r => if task_completed r then 100%Q else 0%Q)
        (filter (fun r => (task_user_id r =? userId) && (last30Days <=? task_updated_at r))
           (tasks t)))) in
    ret (rounded_or_zero avg_rate)
  else ret 0.

(** [getGoalTrend] (783-819). *)
Definition getGoalTrend (now : Z) (userId : Z) (metric type : string)
  : Async TrendResult :=
  let last7Days := minusDays now 7 in
  let* values :=
    if String.eqb metric "water_intake" then
      let* rows := select (fun t =>
        order_by_asc w_date
          (filter (fun r => (w_user_id r =? userId) && on_or_after last7Days (w_date r))
             (water_intake t))) in
      ret (map (fun row => inject_Z (amount_ml row)) rows)
    else if String.eqb metric "exercise_steps" then
      let* rows := select (fun t =>
        order_by_asc e_date
          (filter (fun r => (e_user_id r =? userId) && on_or_after last7Days (e_date r))
             (exercise_tracker t))) in
      ret (map (fun row => inject_Z (footsteps row)) rows)
    else if String.eqb metric "study_hours" then
      let* rows := select (fun t =>
        order_by_asc s_date
          (filter (fun r => (s_user_id r =? userId) && on_or_after last7Days (s_date r))
             (study_logs t))) in
      ret (map (fun row => Js.parseFloat (hours row)) rows)
    else ret [] in
  ret (calculateTrend values).

Inductive ProgressStatus := needs_attention | behind | on_track | achieved.

Record DetailedGoalProgress :=
  { dp_currentValue : Z;
    dp_progress : Z;
    dp_progressStatus : ProgressStatus;
    dp_trend : Trend;
    dp_trendPercentage : Z;
    dp_daysSinceCreation : Z;
    dp_lastUpdated : Z }.

(** [calculateDetailedGoalProgress] (682-708). *)
Definition calculateDetailedGoalProgress (now : Z) (userId : Z) (goal : GoalRow)
  : Async DetailedGoalProgress :=
  let* currentValue := getCurrentMetricValue now userId (g_metric goal) (g_type goal) in
  let target := Js.parseFloat (g_target goal) in
  let progress :=
    if Js.gt target 0
    then Js.round (Js.mul (Js.div (Js.num currentValue) target) 100) else 0 in
  let progressStatus :=
    if progress >=? 100 then achieved
    else if progress >=? 80 then on_track
    else if progress >=? 50 then behind
    else needs_attention in
  let* trendData := getGoalTrend now userId (g_metric goal) (g_type goal) in
  let daysSinceCreation :=
    Js.ceil (Js.num (now - g_created_at goal) / Js.num msPerDay) in
  ret {| dp_currentValue := currentValue;
         dp_progress := Z.min progress 100;
         dp_progressStatus := progressStatus;
         dp_trend := trend trendData;
         dp_trendPercentage := percentage trendData;
         dp_daysSinceCreation := daysSinceCreation;
         dp_lastUpdated := now |}.

Record GoalProgress :=
  { gp_goalId : Z;
    gp_target : Q;
    gp_current : Q;
    gp_progress : Z;
    gp_status : ProgressStatus }.

(** [calculateGoalProgress] (1222-1243); [null] is [None]. *)
Definition calculateGoalProgress (userId : Z) (metric : string) (currentValue : Q)
  : Async (option GoalProgress) :=
  let* rows := select (fun t =>
    firstn 1
      (order_by_desc g_created_at
         (filter (fun g => (g_user_id g =? userId) && String.eqb (g_metric g) metric
                           && match g_status g with active => true | _ => false end)
            (user_goals t)))) in
  match rows with
  | [] => ret None
  | goal :: _ =>
      let target := Js.parseFloat (g_target goal) in
      let progress :=
        if Js.gt target 0
        then Js.round (Js.mul (Js.div currentValue target) 100) else 0 in
      ret (Some {| gp_goalId := g_id goal;
                   gp_target := target;
                   gp_current := currentValue;
                   gp_progress := Z.min progress 100;
                   gp_status :=
                     if progress >=? 100 then achieved
                     else if progress >=? 80 then on_track
                     else if progress >=? 50 then behind
                     else needs_attention |})
  end.

Definition set_user_goals (goals : list GoalRow) (t : Tables) : Tables :=
  {| water_intake := water_intake t;
     exercise_tracker := exercise_tracker t;
     period_tracker := period_tracker t;
     constipation_tracker := constipation_tracker t;
     shambhavi_kriya := shambhavi_kriya t;
     typing_practice := typing_practice t;
     study_logs := study_logs t;
     subjects := subjects t;
     units := units t;
     tasks := tasks t;
     nptel_tasks := nptel_tasks t;
     user_goals := goals;
     goal_achievements := goal_achievements t;
     user_streaks := user_streaks t |}.

Definition set_goal_achievements (rows : list AchievementRow) (t : Tables) : Tables :=
  {| water_intake := water_intake t;
     exercise_tracker := exercise_tracker t;
     period_tracker := period_tracker t;
     constipation_tracker := constipation_tracker t;
     shambhavi_kriya := shambhavi_kriya t;
     typing_practice := typing_practice t;
     study_logs := study_logs t;
     subjects := subjects t;
     units := units t;
     tasks := tasks t;
     nptel_tasks := nptel_tasks t;
     user_goals := user_goals t;
     goal_achievements := rows;
     user_streaks := user_streaks t |}.

Definition set_user_streaks (m : gmap (Z * string) StreakRow) (t : Tables) : Tables :=
  {| water_intake := water_intake t;
     exercise_tracker := exercise_tracker t;
     period_tracker := period_tracker t;
     constipation_tracker := constipation_tracker t;
     shambhavi_kriya := shambhavi_kriya t;
     typing_practice := typing_practice t;
     study_logs := study_logs t;
     subjects := subjects t;
     units := units t;
     tasks := tasks t;
     nptel_tasks := nptel_tasks t;
     user_goals := user_goals t;
     goal_achievements := goal_achievements t;
     user_streaks := m |}.

Definition is_active (g : GoalRow) : bool :=
  match g_status g with active => true | _ => false end.

(** [UPDATE user_goals SET status = $1, updated_at = CURRENT_TIMESTAMP WHERE id = $2]. *)
Definition update_goal_status (now : Z) (status : GoalStatus) (id : Z) (t : Tables)
  : Tables :=
  set_user_goals
    (map (fun g =>
            if g_id g =? id then
              {| g_id := g_id g; g_user_id := g_user_id g; g_type := g_type g;
                 g_metric := g_metric g; g_target := g_target g;
                 g_description := g_description g; g_status := status;
                 g_created_at := g_created_at g; g_updated_at := now |}
            else g)
       (user_goals t)) t.

(** [recordGoalAchievement] (865-871). *)
Definition recordGoalAchievement (now : Z) (userId goalId achievedValue : Z)
  : Async unit :=
  execute (fun t =>
    set_goal_achievements
      (goal_achievements t ++
         [{| a_user_id := userId; a_goal_id := goalId;
             achieved_value := achievedValue; achieved_at := now |}]) t).

(** An element of the result of [checkGoalAchievements]:
    [{...goal, achievedValue, achievedAt}]. *)
Record AchievedGoal :=
  { ag_goal : GoalRow; ag_achievedValue : Z; ag_achievedAt : Z }.

(** The body of [for (const goal of activeGoals.rows)] in
    [checkGoalAchievements]. *)
Fixpoint checkGoalAchievements_loop (now userId : Z) (goals : list GoalRow)
  (achievedGoals : list AchievedGoal) : Async (list AchievedGoal) :=
  match goals with
  | [] => ret achievedGoals
  | goal :: rest =>
      let* currentValue :=
        getCurrentMetricValue now userId (g_metric goal) (g_type goal) in
      let target := Js.parseFloat (g_target goal) in
      if Js.ge (Js.num currentValue) target then
        let* _ := execute (update_goal_status now completed (g_id goal)) in
        let* _ := recordGoalAchievement now userId (g_id goal) currentValue in
        checkGoalAchievements_loop now userId rest
          (achievedGoals ++
             [{| ag_goal := goal; ag_achievedValue := currentValue;
                 ag_achievedAt := now |}])
      else checkGoalAchievements_loop now userId rest achievedGoals
  end.

(** [checkGoalAchievements] (826-857). *)
Definition checkGoalAchievements (now userId : Z) : Async (list AchievedGoal) :=
  let* activeGoals := select (fun t =>
    filter (fun g => (g_user_id g =? userId) && is_active g) (user_goals t)) in
  checkGoalAchievements_loop now userId activeGoals [].

Record DailyValue := { dv_date : Z; dv_value : Q }.

(** [SELECT DATE(date) as date, COUNT( * ) as value ... GROUP BY DATE(date)
    ORDER BY date ASC] over the dates of the selected rows. *)
Definition group_count_by_date (dates : list Z) : list DailyValue :=
  let sorted := order_by_asc (fun d => d) dates in
  map (fun d => {| dv_date := d;
                   dv_value := inject_Z (Z.of_nat (count_occ Z.eq_dec sorted d)) |})
    (nodup Z.eq_dec sorted).

(** [getDailyMetricValues] (939-968); [parseFloat(row.value) || 0] is the
    value itself on the integer columns and on counts. *)
Definition getDailyMetricValues (now : Z) (userId : Z) (metric : string) (days : Z)
  : Async (list DailyValue) :=
  let startDate := minusDays now days in
  if String.eqb metric "water_intake" then
    select (fun t =>
      map (fun r => {| dv_date := w_date r; dv_value := inject_Z (amount_ml r) |})
        (order_by_asc w_date
           (filter (fun r => (w_user_id r =? userId) && on_or_after startDate (w_date r))
              (water_intake t))))
  else if String.eqb metric "exercise_steps" then
    select (fun t =>
      map (fun r => {| dv_date := e_date r; dv_value := inject_Z (footsteps r) |})
        (order_by_asc e_date
           (filter (fun r => (e_user_id r =? userId) && on_or_after startDate (e_date r))
              (exercise_tracker t))))
  else if String.eqb metric "study_hours" then
    select (fun t =>
      map (fun r => {| dv_date := s_date r; dv_value := Js.parseFloat (hours r) |})
        (order_by_asc s_date
           (filter (fun r => (s_user_id r =? userId) && on_or_after startDate (s_date r))
              (study_logs t))))
  else if String.eqb metric "kriya_sessions" then
    select (fun t =>
      group_count_by_date
        (map k_date
           (filter (fun r => (k_user_id r =? userId) && on_or_after startDate (k_date r))
              (shambhavi_kriya t))))
  else ret [].

Record GoalStreak :=
  { gs_currentStreak : Z; gs_longestStreak : Z; gs_lastAchievedDate : option Z }.

(** The variables of the loop of [calculateGoalStreak]. *)
Record GoalStreakVars :=
  { sv_currentStreak : Z; sv_longestStreak : Z; sv_tempStreak : Z;
    sv_lastAchievedDate : option Z }.

(** The body of the loop at index [i]. *)
Definition goalStreak_body (dailyValues : list DailyValue) (target : Q) (i : nat)
  (dailyValue : DailyValue) (v : GoalStreakVars) : GoalStreakVars :=
  if Js.ge (dv_value dailyValue) target then
    let tempStreak := sv_tempStreak v + 1 in
    {| sv_currentStreak :=
         if (i =? length dailyValues - 1)%nat then tempStreak else sv_currentStreak v;
       sv_longestStreak := sv_longestStreak v;
       sv_tempStreak := tempStreak;
       sv_lastAchievedDate :=
         match sv_lastAchievedDate v with
         | None => Some (dv_date dailyValue)
         | Some d => Some d
         end |}
  else
    {| sv_currentStreak :=
         if (i =? length dailyValues - 1)%nat then 0 else sv_currentStreak v;
       sv_longestStreak :=
         if sv_tempStreak v >? sv_longestStreak v then sv_tempStreak v
         else sv_longestStreak v;
       sv_tempStreak := 0;
       sv_lastAchievedDate := sv_lastAchievedDate v |}.

(** [for (let i = dailyValues.length - 1; i >= 0; i--)]: [n] is [i + 1]. *)
Fixpoint goalStreak_loop (dailyValues : list DailyValue) (target : Q) (n : nat)
  (v : GoalStreakVars) : GoalStreakVars :=
  match n with
  | O => v
  | S i =>
      match nth_error dailyValues i with
      | Some dailyValue =>
          goalStreak_loop dailyValues target i
            (goalStreak_body dailyValues target i dailyValue v)
      | None => v
      end
  end.

(** [calculateGoalStreak] (880-930). *)
Definition calculateGoalStreak (now : Z) (userId : Z) (metric type : string)
  : Async GoalStreak :=
  let* goal := select (fun t =>
    firstn 1
      (order_by_desc g_created_at
         (filter (fun g => (g_user_id g =? userId) && String.eqb (g_metric g) metric
                           && String.eqb (g_type g) type)
            (user_goals t)))) in
  match goal with
  | [] => ret {| gs_currentStreak := 0; gs_longestStreak := 0;
                 gs_lastAchievedDate := None |}
  | goal0 :: _ =>
      let target := Js.parseFloat (g_target goal0) in
      let* dailyValues := getDailyMetricValues now userId metric 30 in
      let v := goalStreak_loop dailyValues target (length dailyValues)
                 {| sv_currentStreak := 0; sv_longestStreak := 0;
                    sv_tempStreak := 0; sv_lastAchievedDate := None |} in
      let longestStreak :=
        if sv_tempStreak v >? sv_longestStreak v then sv_tempStreak v
        else sv_longestStreak v in
      ret {| gs_currentStreak := sv_currentStreak v;
             gs_longestStreak := longestStreak;
             gs_lastAchievedDate := sv_lastAchievedDate v |}
  end.

(** ** ConsistencyAnalyzer: [calculateStudyConsistencyPatterns] (1735-1808) *)

Record ConsistencyPatterns :=
  { totalStreaks : Z; averageStreakLength : Z; totalGaps : Z; longestGap : Z }.

(** The field [patterns] is the empty array when there is no study day, and
    an object otherwise. *)
Inductive PatternsField :=
| patterns_none
| patterns_of (p : ConsistencyPatterns).

(** The result of [Math.round] on a number that may be infinite. *)
Inductive RoundedNumber :=
| finite (z : Z)
| plus_infinity
| minus_infinity.

Record StudyConsistency :=
  { sc_totalDays : Z;
    sc_studyDays : Z;
    sc_consistencyRate : RoundedNumber;
    sc_longestStreak : Z;
    sc_currentStreak : Z;
    sc_averageGapBetweenSessions : Z;
    sc_patterns : PatternsField }.

Record ConsistencyVars :=
  { cv_streaks : list Z; cv_gaps : list Z;
    cv_currentStreak : Z; cv_longestStreak : Z }.

(** [for (let i = 1; i < studyDays.length; i++)]: [prev] is the date at
    [i - 1] and the list holds the dates from [i] on. *)
Fixpoint consistency_loop (prev : Z) (dates : list Z) (v : ConsistencyVars)
  : ConsistencyVars :=
  match dates with
  | [] => v
  | curr :: rest =>
      let daysDiff := Js.round (Js.num (curr - prev) / Js.num msPerDay) in
      consistency_loop curr rest
        (if daysDiff =? 1 then
           {| cv_streaks := cv_streaks v; cv_gaps := cv_gaps v;
              cv_currentStreak := cv_currentStreak v + 1;
              cv_longestStreak := cv_longestStreak v |}
         else
           {| cv_streaks := cv_streaks v ++ [cv_currentStreak v];
              cv_gaps := cv_gaps v ++ [daysDiff - 1];
              cv_currentStreak := 1;
              cv_longestStreak := Z.max (cv_longestStreak v) (cv_currentStreak v) |})
  end.

Definition sum_z (l : list Z) : Z := fold_left Z.add l 0.

(** [totalDays] is 0 when [startDate] is the instant of the clock reading,
    and -0 when it is less than a day after it: the quotient of
    [consistencyRate], whose numerator is positive there, is then Infinity
    or -Infinity, and so are its product with 100 and the rounded value. *)
Definition calculateStudyConsistencyPatterns (now : Z) (userId : Z) (startDate : Z)
  : Async StudyConsistency :=
  let* studyDays := select (fun t =>
    order_by_asc s_date
      (filter (fun r => (s_user_id r =? userId) && on_or_after startDate (s_date r))
         (study_logs t))) in
  let totalDays := Js.ceil (Js.num (now - startDate) / Js.num msPerDay) in
  match map s_date studyDays with
  | [] =>
      ret {| sc_totalDays := totalDays; sc_studyDays := 0;
             sc_consistencyRate := finite 0;
             sc_longestStreak := 0; sc_currentStreak := 0;
             sc_averageGapBetweenSessions := 0; sc_patterns := patterns_none |}
  | first :: rest =>
      let v := consistency_loop first rest
                 {| cv_streaks := []; cv_gaps := [];
                    cv_currentStreak := 1; cv_longestStreak := 1 |} in
      let streaks := cv_streaks v ++ [cv_currentStreak v] in
      let gaps := cv_gaps v in
      let currentStreak := cv_currentStreak v in
      let longestStreak := Z.max (cv_longestStreak v) currentStreak in
      let lastStudyDate := last rest first in
      let today := now in
      let daysSinceLastStudy :=
        Js.round (Js.num (today - lastStudyDate) / Js.num msPerDay) in
      let currentActiveStreak := if daysSinceLastStudy <=? 1 then currentStreak else 0 in
      let averageGap :=
        if (0 <? length gaps)%nat
        then Js.round (Js.num (sum_z gaps) / Js.len gaps) else 0 in
      let consistencyRate :=
        if totalDays =? 0 then
          if now - startDate <? 0 then minus_infinity else plus_infinity
        else finite (Js.round (Js.mul (Js.div (Js.len studyDays) (Js.num totalDays)) 100)) in
      ret {| sc_totalDays := totalDays;
             sc_studyDays := Z.of_nat (length studyDays);
             sc_consistencyRate := consistencyRate;
             sc_longestStreak := longestStreak;
             sc_currentStreak := currentActiveStreak;
             sc_averageGapBetweenSessions := averageGap;
             sc_patterns := patterns_of
               {| totalStreaks := Z.of_nat (length streaks);
                  averageStreakLength :=
                    if (0 <? length streaks)%nat
                    then Js.round (Js.num (sum_z streaks) / Js.len streaks) else 0;
                  totalGaps := Z.of_nat (length gaps);
                  longestGap :=
                    if (0 <? length gaps)%nat then JsArray.max_of gaps else 0 |} |}
  end.

(** ** Streak service (streakService.js) *)

Record StreakData :=
  { sd_currentStreak : Z; sd_longestStreak : Z; sd_lastActivityDate : option Z }.

(** [{success: true, ...}] with its payload, or [{success: false, error}]. *)
Inductive ServiceResult (A : Type) :=
| Success (payload : A)
| Failure (error : string).

Arguments Success {A} payload.
Arguments Failure {A} error.

(** [UPDATE user_streaks SET current_streak = $1, longest_streak = $2,
    last_activity_date = $3, updated_at = CURRENT_TIMESTAMP WHERE ...] and the
    [INSERT] of a new row; the DATE column keeps the day of [date]. *)
Definition write_streak (now : Z) (key : Z * string) (currentStreak longestStreak date : Z)
  (t : Tables) : Tables :=
  set_user_streaks
    (<[key := {| current_streak := currentStreak;
                 longest_streak := longestStreak;
                 last_activity_date := Some (startOfDay date);
                 streak_updated_at := now |}]> (user_streaks t)) t.

(** [UPDATE user_streaks SET current_streak = $1, updated_at =
    CURRENT_TIMESTAMP WHERE user_id = $2 AND activity_type = $3]. *)
Definition write_current_streak (now : Z) (key : Z * string) (currentStreak : Z)
  (t : Tables) : Tables :=
  set_user_streaks
    (alter (fun r => {| current_streak := currentStreak;
                        longest_streak := longest_streak r;
                        last_activity_date := last_activity_date r;
                        streak_updated_at := now |}) key (user_streaks t)) t.

(** [Math.floor((activityDate - lastActivityDate) / (1000 * 60 * 60 * 24))]. *)
Definition daysBetween (lastActivityDate activityDate : Z) : Z :=
  Js.floor (Js.num (activityDate - lastActivityDate) / Js.num msPerDay).

(** [updateUserStreak] (11-107); [date] is the instant [new Date(date)]. *)
Definition updateUserStreak (now : Z) (userId : Z) (activityType : string) (date : Z)
  (isCompleted : bool) : Async (ServiceResult StreakData) :=
  try_catch
    (let activityDate := startOfDay date in
     let* streakResult := select (fun t => user_streaks t !! (userId, activityType)) in
     let currentStreak :=
       match streakResult with Some streak => current_streak streak | None => 0 end in
     let longestStreak :=
       match streakResult with Some streak => longest_streak streak | None => 0 end in
     let lastActivityDate :=
       match streakResult with Some streak => last_activity_date streak | None => None end in
     if isCompleted then
       let currentStreak :=
         match lastActivityDate with
         | Some lastActivityDate =>
             let daysDiff := daysBetween (startOfDay lastActivityDate) activityDate in
             if daysDiff =? 1 then currentStreak + 1
             else if daysDiff =? 0 then currentStreak
             else 1
         | None => 1
         end in
       let longestStreak :=
         if currentStreak >? longestStreak then currentStreak else longestStreak in
       let* _ :=
         execute (write_streak now (userId, activityType) currentStreak longestStreak date) in
       ret (Success {| sd_currentStreak := currentStreak;
                       sd_longestStreak := longestStreak;
                       sd_lastActivityDate := Some date |})
     else
       match lastActivityDate with
       | Some lastActivityDate =>
           let daysDiff := daysBetween (startOfDay lastActivityDate) activityDate in
           if daysDiff >? 1 then
             let currentStreak := 0 in
             let* _ :=
               match streakResult with
               | Some _ =>
                   execute (write_current_streak now (userId, activityType) currentStreak)
               | None => ret tt
               end in
             ret (Success {| sd_currentStreak := currentStreak;
                             sd_longestStreak := longestStreak;
                             sd_lastActivityDate := Some date |})
           else
             ret (Success {| sd_currentStreak := currentStreak;
                             sd_longestStreak := longestStreak;
                             sd_lastActivityDate := Some date |})
       | None =>
           ret (Success {| sd_currentStreak := currentStreak;
                           sd_longestStreak := longestStreak;
                           sd_lastActivityDate := Some date |})
       end)
    (fun error => ret (Failure "Failed to update streak")).

(** [getUserStreak] (115-149). *)
Definition getUserStreak (userId : Z) (activityType : string)
  : Async (ServiceResult StreakData) :=
  try_catch
    (let* result := select (fun t => user_streaks t !! (userId, activityType)) in
     match result with
     | Some streak =>
         ret (Success {| sd_currentStreak := current_streak streak;
                         sd_longestStreak := longest_streak streak;
                         sd_lastActivityDate := last_activity_date streak |})
     | None =>
         ret (Success {| sd_currentStreak := 0; sd_longestStreak := 0;
                         sd_lastActivityDate := None |})
     end)
    (fun error => ret (Failure "Failed to get streak")).

(** [resetUserStreak] (157-175); the payload is the message. *)
Definition resetUserStreak (now : Z) (userId : Z) (activityType : string)
  : Async (ServiceResult string) :=
  try_catch
    (let* _ := execute (write_current_streak now (userId, activityType) 0) in
     ret (Success "Streak reset successfully"))
    (fun error => ret (Failure "Failed to reset streak")).

(** ** InsightRanker (analyticsService.js, 2722-2763) *)

Inductive Severity := critical | warning | info | positive.

Inductive Level := high | medium | low.

Record Insight :=
  { i_type : string; i_category : string; i_message : string;
    i_severity : Severity; i_actionable : bool; i_icon : string;
    i_timestamp : Z }.

Record Recommendation :=
  { r_type : string; r_category : string; r_message : string;
    r_actionable : bool; r_priority : Level; r_estimatedImpact : Level;
    r_icon : string }.

Record Milestone :=
  { m_type : string; m_category : string; m_message : string;
    m_icon : string; m_timestamp : Z }.

Definition severityOrder (s : Severity) : Z :=
  match s with critical => 0 | warning => 1 | info => 2 | positive => 3 end.

Definition priorityOrder (p : Level) : Z :=
  match p with high => 0 | medium => 1 | low => 2 end.

Definition impactOrder (p : Level) : Z :=
  match p with high => 0 | medium => 1 | low => 2 end.

(** The comparison function of [sortInsightsBySeverity]. *)
Definition compareInsights (a b : Insight) : Z :=
  let severityDiff := severityOrder (i_severity a) - severityOrder (i_severity b) in
  if negb (severityDiff =? 0) then severityDiff
  else if i_actionable a && negb (i_actionable b) then -1
  else if negb (i_actionable a) && i_actionable b then 1
  else i_timestamp b - i_timestamp a.

Definition sortInsightsBySeverity (insights : list Insight) : list Insight :=
  JsArray.sort compareInsights insights.

(** The comparison function of [prioritizeRecommendations]. *)
Definition compareRecommendations (a b : Recommendation) : Z :=
  let priorityDiff := priorityOrder (r_priority a) - priorityOrder (r_priority b) in
  if negb (priorityDiff =? 0) then priorityDiff
  else
    let impactDiff :=
      impactOrder (r_estimatedImpact a) - impactOrder (r_estimatedImpact b) in
    if negb (impactDiff =? 0) then impactDiff
    else if r_actionable a && negb (r_actionable b) then -1
    else if negb (r_actionable a) && r_actionable b then 1
    else 0.

Definition prioritizeRecommendations (recommendations : list Recommendation)
  : list Recommendation :=
  JsArray.sort compareRecommendations recommendations.

(** The sort keys named in the specification, in lexicographic order. *)
Module RankSpec.

Definition insightKey (i : Insight) : Z * Z * Z :=
  (severityOrder (i_severity i), if i_actionable i then 0 else 1, - i_timestamp i).

Definition recommendationKey (r : Recommendation) : Z * Z * Z :=
  (priorityOrder (r_priority r), impactOrder (r_estimatedImpact r),
   if r_actionable r then 0 else 1).

Definition lex_le (x y : Z * Z * Z) : Prop :=
  let '(x1, x2, x3) := x in
  let '(y1, y2, y3) := y in
  x1 < y1 \/ (x1 = y1 /\ (x2 < y2 \/ (x2 = y2 /\ x3 <= y3))).

(** [out] is [l] sorted by [key] without exchanging elements of equal keys:
    [out] holds the elements of [l], the keys ascend along [out], and for
    each key the elements of [out] with that key are those of [l], in the
    order of [l]. *)
Definition stable_sort_of {A} (key : A -> Z * Z * Z) (l out : list A) : Prop :=
  Permutation l out /\
  StronglySorted (fun a b => lex_le (key a) (key b)) out /\
  forall k : Z * Z * Z,
    filter (fun a => bool_decide (key a = k)) out =
    filter (fun a => bool_decide (key a = k)) l.

End RankSpec.

(** ** PeriodAggregator (analyticsService.js, 12-431 and 1148-1458)

    The aggregates keep the fields that the insight stages read, the counts
    and the goal progress; the lists [daily] and [weeklyBreakdown], which no
    operation below reads, are left out.  A query whose rows are left out is
    still issued. *)

Record PreviousPeriod :=
  { previousAverage : Z; previousCount : Z; periodStart : Z; periodEnd : Z }.

(** A table seen through the column that is aggregated: user, date, value. *)
Definition Column : Type := Tables -> list (Z * Z * Q).

Definition water_amounts : Column := fun t =>
  map (fun r => (w_user_id r, w_date r, inject_Z (amount_ml r))) (water_intake t).

Definition exercise_footsteps : Column := fun t =>
  map (fun r => (e_user_id r, e_date r, inject_Z (footsteps r))) (exercise_tracker t).

Definition constipation_status : Column := fun t =>
  map (fun r => (c_user_id r, c_date r, if c_status r then 1%Q else 0%Q))
    (constipation_tracker t).

Definition kriya_sessions : Column := fun t =>
  map (fun r => (k_user_id r, k_date r, 1%Q)) (shambhavi_kriya t).

Definition typing_completed : Column := fun t =>
  map (fun r => (t_user_id r, t_date r, if t_completed r then 1%Q else 0%Q))
    (typing_practice t).

Definition study_hours : Column := fun t =>
  map (fun r => (s_user_id r, s_date r, hours r)) (study_logs t).

Definition period_dates : Column := fun t =>
  map (fun r => (p_user_id r, pain_start_date r, 1%Q)) (period_tracker t).

(** The rows of a user from a date on. *)
Definition rows_since (userId startDate : Z) (rows : list (Z * Z * Q))
  : list (Z * Z * Q) :=
  filter (fun '(u, d, _) => (u =? userId) && on_or_after startDate d) rows.

(** [getPreviousPeriodComparison] (1148-1177). *)
Definition getPreviousPeriodComparison (now userId : Z) (column : Column)
  (currentStartDate : Z) : Async PreviousPeriod :=
  let daysDiff := Js.ceil (Js.num (now - currentStartDate) / Js.num msPerDay) in
  let previousStartDate := minusDays currentStartDate daysDiff in
  let previousEndDate := minusDays currentStartDate 1 in
  let* result := select (fun t =>
    let rows :=
      filter (fun '(u, d, _) =>
                (u =? userId) && on_or_after previousStartDate d
                && on_or_before previousEndDate d)
        (column t) in
    (sql_avg (map snd rows), sql_count rows)) in
  ret {| previousAverage := rounded_or_zero (fst result);
         previousCount := snd result;
         periodStart := startOfDay previousStartDate;
         periodEnd := startOfDay previousEndDate |}.

(** [calculateConsistencyRate] (1252-1267). *)
Definition calculateConsistencyRate (now userId : Z) (column : Column) (startDate : Z)
  : Async Z :=
  let daysDiff := Js.ceil (Js.num (now - startDate) / Js.num msPerDay) in
  let* activeDays := select (fun t =>
    sql_count (nodup Z.eq_dec
      (map (fun '(_, d, _) => d) (rows_since userId startDate (column t))))) in
  ret (if daysDiff >? 0
       then Js.round (Js.mul (Js.div (Js.num activeDays) (Js.num daysDiff)) 100) else 0).

Record WaterIntakeAnalytics :=
  { wi_average : Z; wi_total : Z; wi_trend : Trend; wi_trendPercentage : Z;
    wi_daysTracked : Z; wi_comparison : PreviousPeriod;
    wi_goalProgress : option GoalProgress }.

(** [getWaterIntakeAnalytics] (67-105). *)
Definition getWaterIntakeAnalytics (now userId startDate : Z)
  : Async WaterIntakeAnalytics :=
  let* daily := select (fun t =>
    order_by_asc w_date
      (filter (fun r => (w_user_id r =? userId) && on_or_after startDate (w_date r))
         (water_intake t))) in
  let totalAmount := sum_z (map amount_ml daily) in
  let average :=
    if (0 <? length daily)%nat
    then Js.round (Js.num totalAmount / Js.len daily) else 0 in
  let trendData := calculateTrend (map (fun d => inject_Z (amount_ml d)) daily) in
  let* previousPeriodData :=
    getPreviousPeriodComparison now userId water_amounts startDate in
  let* goalProgress := calculateGoalProgress userId "water_intake" (Js.num average) in
  ret {| wi_average := average; wi_total := totalAmount;
         wi_trend := trend trendData; wi_trendPercentage := percentage trendData;
         wi_daysTracked := Z.of_nat (length daily);
         wi_comparison := previousPeriodData;
         wi_goalProgress := goalProgress |}.

Record ExerciseAnalytics :=
  { ex_totalSteps : Z; ex_averageSteps : Z; ex_trend : Trend;
    ex_trendPercentage : Z; ex_activityTypes : list string;
    ex_comparison : PreviousPeriod; ex_daysTracked : Z;
    ex_goalProgress : option GoalProgress }.

(** [getExerciseAnalytics] (110-156); [activityTypes] keeps the keys of the
    distribution, in the order of their first entry. *)
Definition getExerciseAnalytics (now userId startDate : Z)
  : Async ExerciseAnalytics :=
  let* daily := select (fun t =>
    order_by_asc e_date
      (filter (fun r => (e_user_id r =? userId) && on_or_after startDate (e_date r))
         (exercise_tracker t))) in
  let totalSteps := sum_z (map footsteps daily) in
  let averageSteps :=
    if (0 <? length daily)%nat
    then Js.round (Js.num totalSteps / Js.len daily) else 0 in
  let trendData := calculateTrend (map (fun d => inject_Z (footsteps d)) daily) in
  let* previousPeriodData :=
    getPreviousPeriodComparison now userId exercise_footsteps startDate in
  let activityTypes :=
    rev (nodup String.string_dec (rev (map activity_type daily))) in
  let* goalProgress :=
    calculateGoalProgress userId "exercise_steps" (Js.num averageSteps) in
  ret {| ex_totalSteps := totalSteps; ex_averageSteps := averageSteps;
         ex_trend := trend trendData; ex_trendPercentage := percentage trendData;
         ex_activityTypes := activityTypes;
         ex_comparison := previousPeriodData;
         ex_daysTracked := Z.of_nat (length daily);
         ex_goalProgress := goalProgress |}.

Record PeriodAnalytics := { pe_entries : list Z; pe_totalEntries : Z }.

(** [getPeriodAnalytics] (161-177). *)
Definition getPeriodAnalytics (userId startDate : Z) : Async PeriodAnalytics :=
  let* rows := select (fun t =>
    order_by_asc (fun d => d)
      (map pain_start_date
         (filter (fun r => (p_user_id r =? userId) && on_or_after startDate (pain_start_date r))
            (period_tracker t)))) in
  ret {| pe_entries := rows; pe_totalEntries := Z.of_nat (length rows) |}.

Record ConstipationAnalytics :=
  { co_positiveCount : Z; co_negativeCount : Z; co_positiveRate : Z;
    co_trend : Trend; co_trendPercentage : Z; co_comparison : PreviousPeriod;
    co_daysTracked : Z; co_goalProgress : option GoalProgress }.

(** [getConstipationAnalytics] (182-226). *)
Definition getConstipationAnalytics (now userId startDate : Z)
  : Async ConstipationAnalytics :=
  let* daily := select (fun t =>
    order_by_asc c_date
      (filter (fun r => (c_user_id r =? userId) && on_or_after startDate (c_date r))
         (constipation_tracker t))) in
  let positiveCount := Z.of_nat (length (filter (fun e => c_status e) daily)) in
  let negativeCount := Z.of_nat (length (filter (fun e => negb (c_status e)) daily)) in
  let positiveRate :=
    if (0 <? length daily)%nat
    then Js.round (Js.mul (Js.div (Js.num positiveCount) (Js.len daily)) 100) else 0 in
  let positiveValues := map (fun e => if c_status e then 1%Q else 0%Q) daily in
  let trendData := calculateTrend positiveValues in
  let* previousPeriodData :=
    getPreviousPeriodComparison now userId constipation_status startDate in
  let* goalProgress :=
    calculateGoalProgress userId "constipation_positive_rate" (Js.num positiveRate) in
  ret {| co_positiveCount := positiveCount; co_negativeCount := negativeCount;
         co_positiveRate := positiveRate;
         co_trend := trend trendData; co_trendPercentage := percentage trendData;
         co_comparison := previousPeriodData;
         co_daysTracked := Z.of_nat (length daily);
         co_goalProgress := goalProgress |}.

Record KriyaAnalytics :=
  { kr_totalSessions : Z; kr_daysTracked : Z; kr_comparison : PreviousPeriod;
    kr_consistencyRate : Z; kr_goalProgress : option GoalProgress }.

(** [getKriyaAnalytics] (231-266). *)
Definition getKriyaAnalytics (now userId startDate : Z) : Async KriyaAnalytics :=
  let* daily := select (fun t =>
    order_by_asc k_date
      (filter (fun r => (k_user_id r =? userId) && on_or_after startDate (k_date r))
         (shambhavi_kriya t))) in
  let totalSessions := Z.of_nat (length daily) in
  let* previousPeriodData :=
    getPreviousPeriodComparison now userId kriya_sessions startDate in
  let* consistencyRate :=
    calculateConsistencyRate now userId kriya_sessions startDate in
  let* goalProgress :=
    calculateGoalProgress userId "kriya_sessions" (Js.num totalSessions) in
  ret {| kr_totalSessions := totalSessions;
         kr_daysTracked := Z.of_nat (length daily);
         kr_comparison := previousPeriodData;
         kr_consistencyRate := consistencyRate;
         kr_goalProgress := goalProgress |}.

Record TypingAnalytics :=
  { ty_completedCount : Z; ty_totalDays : Z; ty_completionRate : Z;
    ty_trend : Trend; ty_trendPercentage : Z; ty_comparison : PreviousPeriod;
    ty_daysTracked : Z; ty_goalProgress : option GoalProgress }.

(** [getTypingAnalytics] (271-314). *)
Definition getTypingAnalytics (now userId startDate : Z) : Async TypingAnalytics :=
  let* daily := select (fun t =>
    order_by_asc t_date
      (filter (fun r => (t_user_id r =? userId) && on_or_after startDate (t_date r))
         (typing_practice t))) in
  let completedCount := Z.of_nat (length (filter (fun e => t_completed e) daily)) in
  let completionRate :=
    if (0 <? length daily)%nat
    then Js.round (Js.mul (Js.div (Js.num completedCount) (Js.len daily)) 100) else 0 in
  let completionValues := map (fun e => if t_completed e then 1%Q else 0%Q) daily in
  let trendData := calculateTrend completionValues in
  let* previousPeriodData :=
    getPreviousPeriodComparison now userId typing_completed startDate in
  let* goalProgress :=
    calculateGoalProgress userId "typing_completion_rate" (Js.num completionRate) in
  ret {| ty_completedCount := completedCount;
         ty_totalDays := Z.of_nat (length daily);
         ty_completionRate := completionRate;
         ty_trend := trend trendData; ty_trendPercentage := percentage trendData;
         ty_comparison := previousPeriodData;
         ty_daysTracked := Z.of_nat (length daily);
         ty_goalProgress := goalProgress |}.

Record HealthSummary :=
  { totalDataPoints : Z; metricsTracked : Z; consistencyScore : Z; activeDays : Z }.

(** The table counted for a metric in [getHealthSummary]; an unknown name is
    skipped. *)
Definition summary_column (metric : string) : option Column :=
  if String.eqb metric "water" then Some water_amounts
  else if String.eqb metric "exercise" then Some exercise_footsteps
  else if String.eqb metric "period" then Some period_dates
  else if String.eqb metric "constipation" then Some constipation_status
  else if String.eqb metric "kriya" then Some kriya_sessions
  else if String.eqb metric "typing" then Some typing_completed
  else None.

(** [for (const metric of requestedMetrics)] in [getHealthSummary]. *)
Fixpoint countDataPoints (userId startDate : Z) (requestedMetrics : list string)
  (totalDataPoints : Z) : Async Z :=
  match requestedMetrics with
  | [] => ret totalDataPoints
  | metric :: rest =>
      match summary_column metric with
      | Some column =>
          let* count := select (fun t =>
            sql_count (rows_since userId startDate (column t))) in
          countDataPoints userId startDate rest (totalDataPoints + count)
      | None => countDataPoints userId startDate rest totalDataPoints
      end
  end.

(** [getHealthSummary] (323-392). *)
Definition getHealthSummary (now userId startDate : Z) (requestedMetrics : list string)
  : Async HealthSummary :=
  let daysDiff := Js.ceil (Js.num (now - startDate) / Js.num msPerDay) in
  let* activeDaysResult := select (fun t =>
    nodup Z.eq_dec
      (map (fun '(_, d, _) => d)
         (rows_since userId startDate
            (water_amounts t ++ exercise_footsteps t ++ constipation_status t ++
             kriya_sessions t ++ typing_completed t ++ period_dates t)))) in
  let activeDays := Z.of_nat (length activeDaysResult) in
  let consistencyScore :=
    if daysDiff >? 0
    then Js.round (Js.mul (Js.div (Js.num activeDays) (Js.num daysDiff)) 100) else 0 in
  let* totalDataPoints := countDataPoints userId startDate requestedMetrics 0 in
  ret {| totalDataPoints := totalDataPoints;
         metricsTracked := Z.of_nat (length requestedMetrics);
         consistencyScore := consistencyScore;
         activeDays := activeDays |}.

(** The object built by [aggregateHealthData]; a key that is not set is
    [None]. *)
Record HealthData :=
  { hd_timeRange : option Z;
    hd_startDate : option Z;
    hd_endDate : option Z;
    hd_waterIntake : option WaterIntakeAnalytics;
    hd_exercise : option ExerciseAnalytics;
    hd_periodTracking : option PeriodAnalytics;
    hd_constipation : option ConstipationAnalytics;
    hd_kriya : option KriyaAnalytics;
    hd_typing : option TypingAnalytics;
    hd_summary : option HealthSummary }.

(** [if (requestedMetrics.includes(name)) { ... = await get(...) }]. *)
Definition when_requested {A} (requestedMetrics : list string) (name : string)
  (get : Async A) : Async (option A) :=
  if existsb (String.eqb name) requestedMetrics
  then let* a := get in ret (Some a)
  else ret None.

Definition allHealthMetrics : list string :=
  ["water"; "exercise"; "period"; "constipation"; "kriya"; "typing"].

(** [aggregateHealthData] (12-62); [days] is [parseInt(timeRange)] and
    [metrics] is [None] for ['all'], else the names between the commas.
    [now] is the reading of the clock from which the operation takes
    [startDate] and [endDate]; the operations that it awaits read the clock
    again, and [later] is their reading. *)
Definition aggregateHealthData (now later userId : Z) (days : Z)
  (metrics : option (list string)) : Async HealthData :=
  let startDate := minusDays now days in
  let requestedMetrics :=
    match metrics with None => allHealthMetrics | Some l => l end in
  let* waterIntake :=
    when_requested requestedMetrics "water" (getWaterIntakeAnalytics later userId startDate) in
  let* exercise :=
    when_requested requestedMetrics "exercise" (getExerciseAnalytics later userId startDate) in
  let* periodTracking :=
    when_requested requestedMetrics "period" (getPeriodAnalytics userId startDate) in
  let* constipation :=
    when_requested requestedMetrics "constipation"
      (getConstipationAnalytics later userId startDate) in
  let* kriya :=
    when_requested requestedMetrics "kriya" (getKriyaAnalytics later userId startDate) in
  let* typing :=
    when_requested requestedMetrics "typing" (getTypingAnalytics later userId startDate) in
  let* summary := getHealthSummary later userId startDate requestedMetrics in
  ret {| hd_timeRange := Some days;
         hd_startDate := Some (startOfDay startDate);
         hd_endDate := Some (startOfDay now);
         hd_waterIntake := waterIntake;
         hd_exercise := exercise;
         hd_periodTracking := periodTracking;
         hd_constipation := constipation;
         hd_kriya := kriya;
         hd_typing := typing;
         hd_summary := Some summary |}.

(** [parseFloat(x.toFixed(2))]: the two-digit decimal nearest to the value
    of the number, ties away from zero, read back as a number. *)
Definition toFixed2 (x : Q) : Q :=
  let x := Js.fl x in
  let digits (y : Q) := (inject_Z (Js.round (y * 100)) / 100)%Q in
  Js.parseFloat (if Qle_bool 0 x then digits x else (- digits (- x))%Q).

Record SubjectProgress :=
  { sp_subjectId : Z; sp_subjectCode : string; sp_subjectName : string;
    sp_totalUnits : Z; sp_totalTasks : Z; sp_completedTasks : Z;
    sp_taskCompletionRate : Z; sp_totalNptelTasks : Z;
    sp_completedNptelTasks : Z; sp_nptelCompletionRate : Z }.

(** The subject filter: [None] is ['all']. *)
Definition subject_selected (subjectCodes : option (list string)) (s : SubjectRow)
  : bool :=
  match subjectCodes with
  | None => true
  | Some codes => existsb (String.eqb (subj_code s)) codes
  end.

Definition units_of (s : SubjectRow) (t : Tables) : list UnitRow :=
  filter (fun u => unit_subject_id u =? subj_id s) (units t).

(** The tasks of the user joined to the subject through its units. *)
Definition tasks_of (userId : Z) (s : SubjectRow) (t : Tables) : list TaskRow :=
  filter (fun k => (task_user_id k =? userId)
                   && existsb (fun u => unit_id u =? task_unit_id k) (units_of s t))
    (tasks t).

Definition nptel_of (userId : Z) (s : SubjectRow) (t : Tables) : list NptelTaskRow :=
  filter (fun n => (nptel_user_id n =? userId) && (nptel_subject_id n =? subj_id s))
    (nptel_tasks t).

(** [COUNT(DISTINCT id)]. *)
Definition count_distinct (ids : list Z) : Z :=
  Z.of_nat (length (nodup Z.eq_dec ids)).

(** [total > 0 ? Math.round((done / total) * 100) : 0]. *)
Definition rate (done total : Z) : Z :=
  if total >? 0 then Js.round (Js.mul (Js.div (Js.num done) (Js.num total)) 100) else 0.

Definition compare_codes (a b : SubjectRow) : Z :=
  match String.compare (subj_code a) (subj_code b) with
  | Lt => -1
  | Eq => 0
  | Gt => 1
  end.

(** [getSubjectProgress] (1276-1325); the research projects and the study
    hours joined to every subject are left out. *)
Definition getSubjectProgress (userId startDate : Z) (subjectCodes : option (list string))
  : Async (list SubjectProgress) :=
  select (fun t =>
    map (fun s =>
           let total_tasks := count_distinct (map task_id (tasks_of userId s t)) in
           let completed_tasks :=
             count_distinct
               (map task_id (filter (fun k => task_completed k) (tasks_of userId s t))) in
           let total_nptel_tasks := count_distinct (map nptel_id (nptel_of userId s t)) in
           let completed_nptel_tasks :=
             count_distinct
               (map nptel_id (filter (fun n => nptel_completed n) (nptel_of userId s t))) in
           {| sp_subjectId := subj_id s;
              sp_subjectCode := subj_code s;
              sp_subjectName := subj_name s;
              sp_totalUnits := count_distinct (map unit_id (units_of s t));
              sp_totalTasks := total_tasks;
              sp_completedTasks := completed_tasks;
              sp_taskCompletionRate := rate completed_tasks total_tasks;
              sp_totalNptelTasks := total_nptel_tasks;
              sp_completedNptelTasks := completed_nptel_tasks;
              sp_nptelCompletionRate := rate completed_nptel_tasks total_nptel_tasks |})
      (JsArray.sort compare_codes (filter (subject_selected subjectCodes) (subjects t)))).

Record StudyHoursAnalytics :=
  { sh_totalHours : Q; sh_averageHours : Q; sh_trend : Trend;
    sh_trendPercentage : Z; sh_comparison : PreviousPeriod; sh_daysStudied : Z;
    sh_consistencyRate : Z; sh_goalProgress : option GoalProgress }.

(** [getStudyHoursAnalytics] (1333-1378). *)
Definition getStudyHoursAnalytics (now userId startDate : Z)
  : Async StudyHoursAnalytics :=
  let* daily := select (fun t =>
    order_by_asc s_date
      (filter (fun r => (s_user_id r =? userId) && on_or_after startDate (s_date r))
         (study_logs t))) in
  let totalHours := Js.sum (map (fun entry => Js.parseFloat (hours entry)) daily) in
  let averageHours :=
    if (0 <? length daily)%nat then toFixed2 (Js.div totalHours (Js.len daily)) else 0%Q in
  let trendData := calculateTrend (map (fun d => Js.parseFloat (hours d)) daily) in
  let* previousPeriodData :=
    getPreviousPeriodComparison now userId study_hours startDate in
  let daysDiff := Js.ceil (Js.num (now - startDate) / Js.num msPerDay) in
  let consistencyRate :=
    if daysDiff >? 0
    then Js.round (Js.mul (Js.div (Js.len daily) (Js.num daysDiff)) 100) else 0 in
  let* goalProgress := calculateGoalProgress userId "daily_study_hours" averageHours in
  ret {| sh_totalHours := toFixed2 totalHours;
         sh_averageHours := averageHours;
         sh_trend := trend trendData; sh_trendPercentage := percentage trendData;
         sh_comparison := previousPeriodData;
         sh_daysStudied := Z.of_nat (length daily);
         sh_consistencyRate := consistencyRate;
         sh_goalProgress := goalProgress |}.

Record TaskCompletionAnalytics :=
  { tc_totalTasks : Z; tc_completedTasks : Z; tc_overallCompletionRate : Z;
    tc_regularTasksCompletionRate : Z; tc_nptelTasksCompletionRate : Z }.

(** A query whose rows are not kept. *)
Definition query_unread : Async unit := select (fun _ => tt).

(** [getTaskCompletionAnalytics] (1387-1458); the two queries of the daily
    completions come first. *)
Definition getTaskCompletionAnalytics (userId startDate : Z)
  (subjectCodes : option (list string)) : Async TaskCompletionAnalytics :=
  let* _ := query_unread in
  let* _ := query_unread in
  let* stats := select (fun t =>
    let selected := filter (subject_selected subjectCodes) (subjects t) in
    let joined_tasks := flat_map (fun s => tasks_of userId s t) selected in
    let joined_nptel := flat_map (fun s => nptel_of userId s t) selected in
    (count_distinct (map task_id joined_tasks),
     count_distinct (map task_id (filter (fun k => task_completed k) joined_tasks)),
     count_distinct (map nptel_id joined_nptel),
     count_distinct (map nptel_id (filter (fun n => nptel_completed n) joined_nptel)))) in
  let '(total_tasks, completed_tasks, total_nptel_tasks, completed_nptel_tasks) := stats in
  let totalTasks := total_tasks + total_nptel_tasks in
  let completedTasks := completed_tasks + completed_nptel_tasks in
  ret {| tc_totalTasks := totalTasks;
         tc_completedTasks := completedTasks;
         tc_overallCompletionRate := rate completedTasks totalTasks;
         tc_regularTasksCompletionRate := rate completed_tasks total_tasks;
         tc_nptelTasksCompletionRate := rate completed_nptel_tasks total_nptel_tasks |}.

(** A sub-object whose content no operation of this development reads. *)
Inductive Unread := unread.

(** [getUnitProgress] (1467-1507) and [getEducationSummary] (1516-1570): one
    query each. *)
Definition getUnitProgress : Async Unread :=
  let* _ := query_unread in ret unread.

Definition getEducationSummary : Async Unread :=
  let* _ := query_unread in ret unread.

Record StudyPatterns := { consistencyPatterns : StudyConsistency }.

(** [getStudyPatternAnalysis] (1577-1624): the query of the daily patterns,
    the query of [getSubjectPerformanceComparison], then the consistency
    patterns. *)
Definition getStudyPatternAnalysis (now userId startDate : Z) : Async StudyPatterns :=
  let* _ := query_unread in
  let* _ := query_unread in
  let* consistency := calculateStudyConsistencyPatterns now userId startDate in
  ret {| consistencyPatterns := consistency |}.

Record EducationData :=
  { ed_timeRange : option Z;
    ed_startDate : option Z;
    ed_endDate : option Z;
    ed_subjectProgress : option (list SubjectProgress);
    ed_studyHours : option StudyHoursAnalytics;
    ed_taskCompletion : option TaskCompletionAnalytics;
    ed_unitProgress : option Unread;
    ed_studyPatterns : option StudyPatterns;
    ed_summary : option Unread }.

(** [calculateEducationProgress] (401-431); [now] is the reading of the
    clock from which the operation takes [startDate] and [endDate], and
    [later] the reading of the operations that it awaits. *)
Definition calculateEducationProgress (now later userId : Z) (days : Z)
  (subjectCodes : option (list string)) : Async EducationData :=
  let startDate := minusDays now days in
  let* subjectProgress := getSubjectProgress userId startDate subjectCodes in
  let* studyHours := getStudyHoursAnalytics later userId startDate in
  let* taskCompletion := getTaskCompletionAnalytics userId startDate subjectCodes in
  let* unitProgress := getUnitProgress in
  let* studyPatterns := getStudyPatternAnalysis later userId startDate in
  let* summary := getEducationSummary in
  ret {| ed_timeRange := Some days;
         ed_startDate := Some (startOfDay startDate);
         ed_endDate := Some (startOfDay now);
         ed_subjectProgress := Some subjectProgress;
         ed_studyHours := Some studyHours;
         ed_taskCompletion := Some taskCompletion;
         ed_unitProgress := Some unitProgress;
         ed_studyPatterns := Some studyPatterns;
         ed_summary := Some summary |}.

(** ** InsightEngine (analyticsService.js, 438-636 and 2553-2715) *)

Record Analysis :=
  { an_insights : list Insight;
    an_recommendations : list Recommendation;
    an_milestones : list Milestone }.

(** The per-domain analyzers, methods of the service reached through [this];
    each reads the clock for the timestamps it writes. *)
Record DomainAnalyzers :=
  { analyzeWaterIntakePatterns : Z -> WaterIntakeAnalytics -> Analysis;
    analyzeExercisePatterns : Z -> ExerciseAnalytics -> Analysis;
    analyzeConstipationPatterns : Z -> ConstipationAnalytics -> Analysis;
    analyzeKriyaPatterns : Z -> KriyaAnalytics -> Analysis;
    analyzeTypingPatterns : Z -> TypingAnalytics -> Analysis;
    analyzeStudyHoursPatterns : Z -> StudyHoursAnalytics -> Analysis;
    analyzeSubjectProgressPatterns : Z -> list SubjectProgress -> Analysis;
    analyzeTaskCompletionPatterns : Z -> TaskCompletionAnalytics -> Analysis;
    analyzeStudyPatternEfficiency : Z -> StudyPatterns -> Analysis }.

Record Correlation :=
  { cor_insight : Insight; cor_recommendation : option Recommendation }.

(** [analyzeHealthStudyCorrelation] (2553-2602), on the field [trend] of its
    two metrics; [null] is [None]. *)
Definition analyzeHealthStudyCorrelation (now : Z) (healthTrend studyTrend : Trend)
  (healthType studyType : string) : option Correlation :=
  match healthTrend, studyTrend with
  | increasing, increasing =>
      Some {| cor_insight :=
                {| i_type := "correlation"; i_category := "health_study";
                   i_message := "Your improving " +:+ healthType +:+
                                " appears to correlate with better " +:+ studyType;
                   i_severity := positive; i_actionable := false;
                   i_icon := "🔗"; i_timestamp := now |};
              cor_recommendation :=
                Some {| r_type := "correlation"; r_category := "health_study";
                        r_message := "Continue maintaining good " +:+ healthType +:+
                                     " habits to support your academic performance";
                        r_actionable := true; r_priority := medium;
                        r_estimatedImpact := medium; r_icon := "💪" |} |}
  | decreasing, decreasing =>
      Some {| cor_insight :=
                {| i_type := "correlation"; i_category := "health_study";
                   i_message := "Declining " +:+ healthType +:+
                                " may be impacting your " +:+ studyType;
                   i_severity := warning; i_actionable := true;
                   i_icon := "⚠️"; i_timestamp := now |};
              cor_recommendation :=
                Some {| r_type := "correlation"; r_category := "health_study";
                        r_message := "Focus on improving " +:+ healthType +:+
                                     " habits to potentially boost academic performance";
                        r_actionable := true; r_priority := high;
                        r_estimatedImpact := high; r_icon := "🎯" |} |}
  | _, _ => None
  end.

(** [if (x) { score += v; metrics++ }] on the pair (score, metrics). *)
Definition add_metric {A} (x : option A) (v : A -> Q) (acc : Q * Z) : Q * Z :=
  match x with
  | Some a => (Js.add (fst acc) (v a), snd acc + 1)
  | None => acc
  end.

Definition score_of (acc : Q * Z) : Z :=
  if snd acc >? 0 then Js.round (Js.div (fst acc) (Js.num (snd acc))) else 0.

(** [calculateOverallHealthScore] (2657-2687). *)
Definition calculateOverallHealthScore (healthData : HealthData) : Z :=
  let acc := (0%Q, 0) in
  let acc := add_metric (hd_waterIntake healthData)
    (fun w => Js.min (Js.mul (Js.div (Js.num (wi_average w)) 2000) 100) 100) acc in
  let acc := add_metric (hd_exercise healthData)
    (fun e => Js.min (Js.mul (Js.div (Js.num (ex_averageSteps e)) 8000) 100) 100) acc in
  let acc := add_metric (hd_constipation healthData)
    (fun c => Js.num (co_positiveRate c)) acc in
  let acc := add_metric (hd_kriya healthData)
    (fun k => Js.num (kr_consistencyRate k)) acc in
  let acc := add_metric (hd_typing healthData)
    (fun y => Js.num (ty_completionRate y)) acc in
  score_of acc.

(** [calculateOverallProductivityScore] (2694-2715); the completion rates
    are integers and their sum is an integer sum. *)
Definition calculateOverallProductivityScore (educationData : EducationData) : Z :=
  let acc := (0%Q, 0) in
  let acc := add_metric (ed_studyHours educationData)
    (fun s => Js.min (Js.mul (Js.div (sh_averageHours s) 4) 100) 100) acc in
  let acc := add_metric (ed_taskCompletion educationData)
    (fun c => Js.num (tc_overallCompletionRate c)) acc in
  let acc :=
    match ed_subjectProgress educationData with
    | Some subjectProgress =>
        if (0 <? length subjectProgress)%nat then
          let avgCompletion :=
            Js.div (Js.num (sum_z (map sp_taskCompletionRate subjectProgress)))
              (Js.len subjectProgress) in
          (Js.add (fst acc) avgCompletion, snd acc + 1)
        else acc
    | None => acc
    end in
  score_of acc.

(** [analyzeOverallWellnessProductivity] (2610-2650). *)
Definition analyzeOverallWellnessProductivity (now : Z) (healthData : HealthData)
  (educationData : EducationData) : option Correlation :=
  let healthScore := calculateOverallHealthScore healthData in
  let productivityScore := calculateOverallProductivityScore educationData in
  if (healthScore >=? 70) && (productivityScore >=? 70) then
    Some {| cor_insight :=
              {| i_type := "correlation"; i_category := "overall_wellness";
                 i_message :=
                   "Your strong health habits are supporting excellent academic performance";
                 i_severity := positive; i_actionable := false;
                 i_icon := "🌟"; i_timestamp := now |};
            cor_recommendation := None |}
  else if (healthScore <? 50) && (productivityScore <? 50) then
    Some {| cor_insight :=
              {| i_type := "correlation"; i_category := "overall_wellness";
                 i_message :=
                   "Both health and academic metrics need attention - they often influence each other";
                 i_severity := warning; i_actionable := true;
                 i_icon := "⚠️"; i_timestamp := now |};
            cor_recommendation :=
              Some {| r_type := "correlation"; r_category := "overall_wellness";
                      r_message :=
                        "Focus on improving one area at a time - start with health habits to build momentum";
                      r_actionable := true; r_priority := high;
                      r_estimatedImpact := high; r_icon := "🎯" |} |}
  else None.

Definition count_key {A} (x : option A) : nat :=
  match x with Some _ => 1 | None => 0 end.

(** [Object.keys(healthData).length] and [Object.keys(educationData).length]. *)
Definition healthData_keys (h : HealthData) : nat :=
  count_key (hd_timeRange h) + count_key (hd_startDate h) + count_key (hd_endDate h) +
  count_key (hd_waterIntake h) + count_key (hd_exercise h) +
  count_key (hd_periodTracking h) + count_key (hd_constipation h) +
  count_key (hd_kriya h) + count_key (hd_typing h) + count_key (hd_summary h).

Definition educationData_keys (e : EducationData) : nat :=
  count_key (ed_timeRange e) + count_key (ed_startDate e) + count_key (ed_endDate e) +
  count_key (ed_subjectProgress e) + count_key (ed_studyHours e) +
  count_key (ed_taskCompletion e) + count_key (ed_unitProgress e) +
  count_key (ed_studyPatterns e) + count_key (ed_summary e).

Record CrossDomain :=
  { cd_insights : list Insight; cd_recommendations : list Recommendation }.

(** [insights.push(c.insight); if (c.recommendation) recommendations.push(...)]
    when [c] is not [null]. *)
Definition push_correlation (c : option Correlation) (acc : CrossDomain) : CrossDomain :=
  match c with
  | Some c =>
      {| cd_insights := cd_insights acc ++ [cor_insight c];
         cd_recommendations :=
           match cor_recommendation c with
           | Some r => cd_recommendations acc ++ [r]
           | None => cd_recommendations acc
           end |}
  | None => acc
  end.

(** [generateCrossDomainInsights] (582-636); the function awaits nothing. *)
Definition generateCrossDomainInsights (now : Z) (healthData : HealthData)
  (educationData : EducationData) : CrossDomain :=
  let acc := {| cd_insights := []; cd_recommendations := [] |} in
  let hasHealthData := (0 <? healthData_keys healthData)%nat in
  let hasEducationData := (0 <? educationData_keys educationData)%nat in
  if negb hasHealthData || negb hasEducationData then acc
  else
    let acc :=
      match hd_waterIntake healthData, ed_studyHours educationData with
      | Some waterIntake, Some studyHours =>
          push_correlation
            (analyzeHealthStudyCorrelation now (wi_trend waterIntake) (sh_trend studyHours)
               "water_intake" "study_performance") acc
      | _, _ => acc
      end in
    let acc :=
      match hd_exercise healthData, ed_studyHours educationData with
      | Some exercise, Some studyHours =>
          push_correlation
            (analyzeHealthStudyCorrelation now (ex_trend exercise) (sh_trend studyHours)
               "exercise" "study_consistency") acc
      | _, _ => acc
      end in
    push_correlation
      (analyzeOverallWellnessProductivity now healthData educationData) acc.

Definition no_analysis : Analysis :=
  {| an_insights := []; an_recommendations := []; an_milestones := [] |}.

(** [if (x) { const r = analyze(x); insights.push(...r.insights); ... }];
    [milestones] tells whether the milestones of the analysis are pushed. *)
Definition push_analysis {A} (x : option A) (analyze : A -> Analysis)
  (milestones : bool) (acc : Analysis) : Analysis :=
  match x with
  | Some a =>
      {| an_insights := an_insights acc ++ an_insights (analyze a);
         an_recommendations := an_recommendations acc ++ an_recommendations (analyze a);
         an_milestones :=
           if milestones then an_milestones acc ++ an_milestones (analyze a)
           else an_milestones acc |}
  | None => acc
  end.

(** [generateHealthInsights] (484-529). *)
Definition generateHealthInsights (this : DomainAnalyzers) (now : Z)
  (healthData : HealthData) : Analysis :=
  let acc := no_analysis in
  let acc := push_analysis (hd_waterIntake healthData)
               (analyzeWaterIntakePatterns this now) true acc in
  let acc := push_analysis (hd_exercise healthData)
               (analyzeExercisePatterns this now) true acc in
  let acc := push_analysis (hd_constipation healthData)
               (analyzeConstipationPatterns this now) false acc in
  let acc := push_analysis (hd_kriya healthData)
               (analyzeKriyaPatterns this now) true acc in
  push_analysis (hd_typing healthData) (analyzeTypingPatterns this now) true acc.

(** [generateEducationInsights] (537-573). *)
Definition generateEducationInsights (this : DomainAnalyzers) (now : Z)
  (educationData : EducationData) : Analysis :=
  let acc := no_analysis in
  let acc := push_analysis (ed_studyHours educationData)
               (analyzeStudyHoursPatterns this now) true acc in
  let acc := push_analysis (ed_subjectProgress educationData)
               (analyzeSubjectProgressPatterns this now) true acc in
  let acc := push_analysis (ed_taskCompletion educationData)
               (analyzeTaskCompletionPatterns this now) false acc in
  push_analysis (ed_studyPatterns educationData)
    (analyzeStudyPatternEfficiency this now) false acc.

Record Insights :=
  { insights : list Insight;
    recommendations : list Recommendation;
    milestones : list Milestone;
    generatedAt : Z;
    totalInsights : Z;
    actionableRecommendations : Z }.

(** The readings of the clock of [generateInsights], in their order: those
    of the health aggregation and of the operations it awaits, those of the
    education aggregation and of the operations it awaits, and the one that
    stamps the insights and the result. *)
Record Readings :=
  { health_start : Z; health_later : Z;
    education_start : Z; education_later : Z;
    stamp : Z }.

(** [generateInsights] (438-476). *)
Definition generateInsights (this : DomainAnalyzers) (clock : Readings) (userId : Z)
  : Async Insights :=
  let* healthData :=
    aggregateHealthData (health_start clock) (health_later clock) userId 30 None in
  let* educationData :=
    calculateEducationProgress (education_start clock) (education_later clock)
      userId 30 None in
  let now := stamp clock in
  let healthInsights := generateHealthInsights this now healthData in
  let educationInsights := generateEducationInsights this now educationData in
  let crossDomainInsights := generateCrossDomainInsights now healthData educationData in
  let sortedInsights :=
    sortInsightsBySeverity
      (an_insights healthInsights ++ an_insights educationInsights ++
       cd_insights crossDomainInsights) in
  let sortedRecommendations :=
    prioritizeRecommendations
      (an_recommendations healthInsights ++ an_recommendations educationInsights ++
       cd_recommendations crossDomainInsights) in
  ret {| insights := sortedInsights;
         recommendations := sortedRecommendations;
         milestones := an_milestones healthInsights ++ an_milestones educationInsights;
         generatedAt := now;
         totalInsights := Z.of_nat (length sortedInsights);
         actionableRecommendations :=
           Z.of_nat (length (filter (fun r => r_actionable r) sortedRecommendations)) |}.

(** The store of a deployment in which nothing was recorded yet. *)
Definition emptyTables : Tables :=
  {| water_intake := []; exercise_tracker := []; period_tracker := [];
     constipation_tracker := []; shambhavi_kriya := []; typing_practice := [];
     study_logs := []; subjects := []; units := []; tasks := []; nptel_tasks := [];
     user_goals := []; goal_achievements := []; user_streaks := ∅ |}.

(** The objects [{}]. *)
Definition emptyHealthData : HealthData :=
  {| hd_timeRange := None; hd_startDate := None; hd_endDate := None;
     hd_waterIntake := None; hd_exercise := None; hd_periodTracking := None;
     hd_constipation := None; hd_kriya := None; hd_typing := None;
     hd_summary := None |}.

Definition emptyEducationData : EducationData :=
  {| ed_timeRange := None; ed_startDate := None; ed_endDate := None;
     ed_subjectProgress := None; ed_studyHours := None; ed_taskCompletion := None;
     ed_unitProgress := None; ed_studyPatterns := None; ed_summary := None |}.

(** ** Histories of streak operations *)

(** A call of the streak service, with the reading of the clock at the call. *)
Inductive StreakOp :=
| StreakUpdate (now userId : Z) (activityType : string) (date : Z) (isCompleted : bool)
| StreakReset (now userId : Z) (activityType : string).

Definition run_op (db : Db) (op : StreakOp) : Db :=
  match op with
  | StreakUpdate now userId activityType date isCompleted =>
      snd (updateUserStreak now userId activityType date isCompleted db)
  | StreakReset now userId activityType =>
      snd (resetUserStreak now userId activityType db)
  end.

Definition run_ops (ops : list StreakOp) (db : Db) : Db := fold_left run_op ops db.

(** The longest streak stored for a key; no row reads as 0, as in
    [getUserStreak]. *)
Definition storedLongestStreak (key : Z * string) (db : Db) : Z :=
  match user_streaks (tables db) !! key with
  | Some r => longest_streak r
  | None => 0
  end.

(** The streak counters stored for a key. *)
Definition storedStreak (key : Z * string) (db : Db)
  : option (Z * Z * option Z) :=
  match user_streaks (tables db) !! key with
  | Some r => Some (current_streak r, longest_streak r, last_activity_date r)
  | None => None
  end.

(** A store that answers every query. *)
Definition healthy (t : Tables) : Db :=
  {| tables := t; faults := []; rejected := 0 |}.

(** A store whose next query fails. *)
Definition failing (t : Tables) (fs : list bool) : Db :=
  {| tables := t; faults := true :: fs; rejected := 0 |}.

(** The store after a query that read, after one that wrote, and after one
    that was rejected. *)
Definition after_query (db : Db) : Db :=
  {| tables := tables db; faults := tl (faults db); rejected := rejected db |}.

Definition after_write (f : Tables -> Tables) (db : Db) : Db :=
  {| tables := f (tables db); faults := tl (faults db); rejected := rejected db |}.

Definition after_rejection (db : Db) : Db :=
  {| tables := tables db; faults := tl (faults db); rejected := S (rejected db) |}.

(** ** What becomes of a failing query

    [propagates_failure post m]: the operation either resolves, to a value
    that satisfies [post], without any of its queries having been rejected,
    or it rejects with the error of the one query that was rejected. *)
Definition propagates_failure {A} (post : A -> Prop) (m : Async A) : Prop :=
  forall db,
    (exists a, fst (m db) = Resolved a /\ post a /\
               rejected (snd (m db)) = rejected db) \/
    (fst (m db) = Rejected queryError /\
     rejected (snd (m db)) = S (rejected db)).

(** [catches_failure message m]: the operation always resolves; to a
    success when none of its queries was rejected, and to the failure with
    [message] after the one query that was rejected. *)
Definition catches_failure {A} (message : string) (m : Async (ServiceResult A))
  : Prop :=
  forall db,
    (exists a, fst (m db) = Resolved (Success a) /\
               rejected (snd (m db)) = rejected db) \/
    (fst (m db) = Resolved (Failure message) /\
     rejected (snd (m db)) = S (rejected db)).

(** ** Example stores *)

Definition day (n : Z) : Z := n * msPerDay.

Definition with_water (rows : list WaterRow) (t : Tables) : Tables :=
  {| water_intake := rows;
     exercise_tracker := exercise_tracker t;
     period_tracker := period_tracker t;
     constipation_tracker := constipation_tracker t;
     shambhavi_kriya := shambhavi_kriya t;
     typing_practice := typing_practice t;
     study_logs := study_logs t;
     subjects := subjects t;
     units := units t;
     tasks := tasks t;
     nptel_tasks := nptel_tasks t;
     user_goals := user_goals t;
     goal_achievements := goal_achievements t;
     user_streaks := user_streaks t |}.

Definition with_study_logs (rows : list StudyLogRow) (t : Tables) : Tables :=
  {| water_intake := water_intake t;
     exercise_tracker := exercise_tracker t;
     period_tracker := period_tracker t;
     constipation_tracker := constipation_tracker t;
     shambhavi_kriya := shambhavi_kriya t;
     typing_practice := typing_practice t;
     study_logs := rows;
     subjects := subjects t;
     units := units t;
     tasks := tasks t;
     nptel_tasks := nptel_tasks t;
     user_goals := user_goals t;
     goal_achievements := goal_achievements t;
     user_streaks := user_streaks t |}.

Definition waterGoal (id userId : Z) (target : Q) (created : Z) : GoalRow :=
  {| g_id := id; g_user_id := userId; g_type := "health";
     g_metric := "water_intake"; g_target := target;
     g_description := "Drink 2L of water daily"; g_status := active;
     g_created_at := created; g_updated_at := created |}.

(** User 1 drank 1800, 1800, 2100 and 2200 ml on four days in a row and has a
    water goal of 2000 ml. *)
Definition waterTables : Tables :=
  set_user_goals [waterGoal 1 1 2000 (day 19000)]
    (with_water
       [{| w_user_id := 1; w_date := day 19001; amount_ml := 1800 |};
        {| w_user_id := 1; w_date := day 19002; amount_ml := 1800 |};
        {| w_user_id := 1; w_date := day 19003; amount_ml := 2100 |};
        {| w_user_id := 1; w_date := day 19004; amount_ml := 2200 |}]
       emptyTables).

(** Five readings of the clock from noon on, some milliseconds apart. *)
Definition noonReadings (d : Z) : Readings :=
  {| health_start := day d + 43200000;
     health_later := day d + 43200040;
     education_start := day d + 43200300;
     education_later := day d + 43200340;
     stamp := day d + 43200600 |}.

(** 1 January 2025, 00:00 UTC. *)
Definition jan1 : Z := 1735689600000.

(** User 1 studied on 1, 2, 3, 5 and 6 January 2025. *)
Definition studyTables : Tables :=
  with_study_logs
    [{| s_user_id := 1; s_date := jan1; hours := 3 |};
     {| s_user_id := 1; s_date := jan1 + day 1; hours := 2 |};
     {| s_user_id := 1; s_date := jan1 + day 2; hours := 5 # 2 |};
     {| s_user_id := 1; s_date := jan1 + day 4; hours := 4 |};
     {| s_user_id := 1; s_date := jan1 + day 5; hours := 3 |}]
    emptyTables.

(** ** The effect of [checkGoalAchievements] on a store that answers *)

(** What [getCurrentMetricValue] resolves to on the tables. *)
Definition metricValue (now userId : Z) (t : Tables) (goal : GoalRow) : Z :=
  match fst (getCurrentMetricValue now userId (g_metric goal) (g_type goal) (healthy t)) with
  | Resolved v => v
  | Rejected _ => 0
  end.

(** The test [currentValue >= target] of the loop. *)
Definition meetsTarget (now userId : Z) (t : Tables) (goal : GoalRow) : bool :=
  Js.ge (Js.num (metricValue now userId t goal)) (Js.parseFloat (g_target goal)).

(** The two writes of the loop for an achieved goal. *)
Definition markAchieved (now userId : Z) (t : Tables) (goal : GoalRow) : Tables :=
  set_goal_achievements
    (goal_achievements (update_goal_status now completed (g_id goal) t) ++
       [{| a_user_id := userId; a_goal_id := g_id goal;
           achieved_value := metricValue now userId t goal; achieved_at := now |}])
    (update_goal_status now completed (g_id goal) t).

Definition achievedGoal (now userId : Z) (t : Tables) (goal : GoalRow) : AchievedGoal :=
  {| ag_goal := goal; ag_achievedValue := metricValue now userId t goal;
     ag_achievedAt := now |}.

(** ** Goal progress as the specification describes it *)

Module GoalSpec.

(** The percentage of the target reached, before the cap: the quotient and
    its product with 100 are JavaScript's, each rounded to binary64. *)
Definition uncappedPercentage (currentValue target : Q) : Z :=
  Js.round (Js.mul (Js.div currentValue target) 100).

Definition classify (p : Z) : ProgressStatus :=
  if 100 <=? p then achieved
  else if 80 <=? p then on_track
  else if 50 <=? p then behind
  else needs_attention.

End GoalSpec.

(** The logged quantities are not negative: the water route rejects amounts
    that are not positive, and the schema keeps footsteps and study hours
    at 1 or more. *)
Definition nonnegative_logs (t : Tables) : Prop :=
  Forall (fun r => 0 <= amount_ml r) (water_intake t) /\
  Forall (fun r => 0 <= footsteps r) (exercise_tracker t) /\
  Forall (fun r => 0 <= hours r)%Q (study_logs t).

(** The user has no study day from the day of [startDate] on. *)
Definition noStudyDays (userId startDate : Z) (t : Tables) : Prop :=
  forall r, In r (study_logs t) -> s_user_id r = userId ->
            s_date r < startOfDay startDate.

Definition with_curriculum (subjectRows : list SubjectRow) (unitRows : list UnitRow)
  (taskRows : list TaskRow) (t : Tables) : Tables :=
  {| water_intake := water_intake t;
     exercise_tracker := exercise_tracker t;
     period_tracker := period_tracker t;
     constipation_tracker := constipation_tracker t;
     shambhavi_kriya := shambhavi_kriya t;
     typing_practice := typing_practice t;
     study_logs := study_logs t;
     subjects := subjectRows;
     units := unitRows;
     tasks := taskRows;
     nptel_tasks := nptel_tasks t;
     user_goals := user_goals t;
     goal_achievements := goal_achievements t;
     user_streaks := user_streaks t |}.

(** A store with two subjects, in which user 1 has water logs, a goal and
    tasks; user 7 has no record at all. *)
Definition sharedTables : Tables :=
  with_curriculum
    [{| subj_id := 1; subj_code := "ECO525"; subj_name := "Microeconomic Theory" |};
     {| subj_id := 2; subj_code := "STAT501"; subj_name := "Statistics" |}]
    [{| unit_id := 1; unit_subject_id := 1 |}; {| unit_id := 2; unit_subject_id := 2 |}]
    [{| task_id := 1; task_user_id := 1; task_unit_id := 1; task_completed := true;
        task_updated_at := day 19003 |};
     {| task_id := 2; task_user_id := 1; task_unit_id := 2; task_completed := false;
        task_updated_at := day 19003 |}]
    waterTables.

(** User 1 of the study example in a curriculum of two subjects: one task
    of the first subject, completed, and two of the second, of which one is
    completed. *)
Definition educationTables : Tables :=
  with_curriculum
    [{| subj_id := 1; subj_code := "ECO525"; subj_name := "Microeconomic Theory" |};
     {| subj_id := 2; subj_code := "STAT501"; subj_name := "Statistics" |}]
    [{| unit_id := 1; unit_subject_id := 1 |}; {| unit_id := 2; unit_subject_id := 2 |};
     {| unit_id := 3; unit_subject_id := 2 |}]
    [{| task_id := 1; task_user_id := 1; task_unit_id := 1; task_completed := true;
        task_updated_at := jan1 + day 2 |};
     {| task_id := 2; task_user_id := 1; task_unit_id := 2; task_completed := false;
        task_updated_at := jan1 + day 3 |};
     {| task_id := 3; task_user_id := 1; task_unit_id := 3; task_completed := true;
        task_updated_at := jan1 + day 5 |}]
    studyTables.

(** The store of the water example once the goal of user 1 is achieved,
    four days and ten hours after it was set, and a second goal is set. *)
Definition achievedTables : Tables :=
  set_goal_achievements
    [{| a_user_id := 1; a_goal_id := 1; achieved_value := 2050;
        achieved_at := day 19004 + 36000000 |}]
    (set_user_goals
       [{| g_id := 1; g_user_id := 1; g_type := "health"; g_metric := "water_intake";
           g_target := 2000; g_description := "Drink 2L of water daily";
           g_status := completed; g_created_at := day 19000;
           g_updated_at := day 19004 + 36000000 |};
        waterGoal 2 1 2500 (day 19004 + 40000000)]
       waterTables).

(** ** Further notions for the streak service *)

(** Every stored streak has a current streak between 0 and its longest
    streak. *)
Definition streaks_consistent (db : Db) : Prop :=
  forall key r,
    user_streaks (tables db) !! key = Some r ->
    0 <= current_streak r <= longest_streak r.

(** The (user, activityType) a call of the streak service is about. *)
Definition op_key (op : StreakOp) : Z * string :=
  match op with
  | StreakUpdate _ userId activityType _ _ => (userId, activityType)
  | StreakReset _ userId activityType => (userId, activityType)
  end.

(** What an operation that must not touch the counters of a row leaves of
    it: no row appears or disappears, the longest streak and the last
    activity date stay, and the current streak stays or drops to 0. *)
Definition counters_kept (before after : option StreakRow) : Prop :=
  match before, after with
  | None, None => True
  | Some r, Some r' =>
      longest_streak r' = longest_streak r /\
      last_activity_date r' = last_activity_date r /\
      (current_streak r' = current_streak r \/ current_streak r' = 0)
  | _, _ => False
  end.

(** ** What a check of the goals writes *)

(** The row that [UPDATE user_goals SET status = 'completed', updated_at =
    CURRENT_TIMESTAMP] leaves in place of [g]. *)
Definition completed_at (now : Z) (g : GoalRow) : GoalRow :=
  {| g_id := g_id g; g_user_id := g_user_id g; g_type := g_type g;
     g_metric := g_metric g; g_target := g_target g;
     g_description := g_description g; g_status := completed;
     g_created_at := g_created_at g; g_updated_at := now |}.

(** The row of [goal_achievements] written for a returned goal. *)
Definition achievement_of (userId : Z) (a : AchievedGoal) : AchievementRow :=
  {| a_user_id := userId; a_goal_id := g_id (ag_goal a);
     achieved_value := ag_achievedValue a; achieved_at := ag_achievedAt a |}.

(** The tables without the goals and the achievements. *)
Definition other_tables (t : Tables) : Tables :=
  set_goal_achievements [] (set_user_goals [] t).

(** ** Runs of days that meet a target *)

(** [k] consecutive entries of [l] are all [true]. *)
Definition is_run (l : list bool) (k : nat) : Prop :=
  exists pre post, l = pre ++ repeat true k ++ post.

Fixpoint leading_run (l : list bool) : nat :=
  match l with
  | true :: l' => S (leading_run l')
  | _ => O
  end.

Fixpoint max_run (l : list bool) : nat :=
  match l with
  | [] => O
  | _ :: l' => Nat.max (leading_run l) (max_run l')
  end.

(** The goal that [calculateGoalStreak] reads, and the daily values of its
    metric, on a store that answers. *)
Definition latestGoal (userId : Z) (metric type : string) (t : Tables) : option GoalRow :=
  head (order_by_desc g_created_at
          (filter (fun g => (g_user_id g =? userId) && String.eqb (g_metric g) metric
                            && String.eqb (g_type g) type)
             (user_goals t))).

Definition dailyValuesOf (now userId : Z) (metric : string) (t : Tables)
  : list DailyValue :=
  match fst (getDailyMetricValues now userId metric 30 (healthy t)) with
  | Resolved dailyValues => dailyValues
  | Rejected _ => []
  end.

(** ** Operations that only read *)

(** [reads_only m]: whatever the store answers, [m] leaves every table as
    it was. *)
Definition reads_only {A} (m : Async A) : Prop :=
  forall db, tables (snd (m db)) = tables db.

(** [answers m]: on a store that answers its queries, [m] resolves and the
    store is as before. *)
Definition answers {A} (m : Async A) : Prop :=
  forall t, exists a, m (healthy t) = (Resolved a, healthy t).

(** The rows counted for a metric by [getHealthSummary]. *)
Definition dataPointsOf (userId startDate : Z) (t : Tables) (metric : string) : Z :=
  match summary_column metric with
  | Some column => sql_count (rows_since userId startDate (column t))
  | None => 0
  end.

(** ** Scores *)

Definition option_holds {A} (P : A -> Prop) (x : option A) : Prop :=
  match x with
  | Some a => P a
  | None => True
  end.

(** The averages of the health data are not negative and its rates are
    percentages. *)
Definition health_rates_in_range (h : HealthData) : Prop :=
  option_holds (fun w => 0 <= wi_average w) (hd_waterIntake h) /\
  option_holds (fun e => 0 <= ex_averageSteps e) (hd_exercise h) /\
  option_holds (fun c => 0 <= co_positiveRate c <= 100) (hd_constipation h) /\
  option_holds (fun k => 0 <= kr_consistencyRate k <= 100) (hd_kriya h) /\
  option_holds (fun y => 0 <= ty_completionRate y <= 100) (hd_typing h).

(** What the score has summed: [metrics] terms, at most [k] of them, each
    between 0 and 100 up to the rounding of a mean, which stays below
    100.125. *)
Definition score_in_range (k : Z) (acc : Q * Z) : Prop :=
  0 <= snd acc <= k /\ (0 <= fst acc)%Q /\
  (fst acc <= (801 # 8) * inject_Z (snd acc))%Q.

(** ** Streaks of study days *)

(** What the loop over the study days maintains: every study day seen so far
    lies in exactly one streak, the closed ones or the running one. *)
Record consistency_inv (v : ConsistencyVars) (seen : Z) : Prop :=
  { inv_days : sum_z (cv_streaks v) + cv_currentStreak v = seen;
    inv_current : 1 <= cv_currentStreak v;
    inv_longest : 1 <= cv_longestStreak v <= seen;
    inv_lengths : length (cv_streaks v) = length (cv_gaps v);
    inv_closed : Forall (fun s => 1 <= s) (cv_streaks v) }.

(** ** GoalTracker: notifications, progress report and history
    (analyticsService.js, 643-674 and 975-1107;
    controllers/analyticsController.js, 212-237) *)

Inductive NotificationType := goal_achievement | milestone.

(** The field [data] of a notification of an achieved goal. *)
Record NotificationData :=
  { nd_goalType : string; nd_metric : string; nd_target : Q;
    nd_achievedValue : Z; nd_achievedAt : Z }.

(** A notification; the milestones have neither [goalId] nor [data]. *)
Record Notification :=
  { n_type : NotificationType; n_userId : Z; n_goalId : option Z;
    n_title : string; n_message : string; n_data : option NotificationData;
    n_priority : Level; n_createdAt : Z }.

(** The body of [for (const goal of achievedGoals)]; a description that is
    NULL or empty gives way to the metric. *)
Definition notify (now userId : Z) (notifications : list Notification)
  (goal : AchievedGoal) : list Notification :=
  let g := ag_goal goal in
  let notifications :=
    notifications ++
    [{| n_type := goal_achievement; n_userId := userId; n_goalId := Some (g_id g);
        n_title := "Goal Achieved! 🎉";
        n_message := "Congratulations! You've achieved your " +:+ g_type g +:+
                     " goal: " +:+
                     (if String.eqb (g_description g) "" then g_metric g
                      else g_description g);
        n_data := Some {| nd_goalType := g_type g; nd_metric := g_metric g;
                          nd_target := g_target g;
                          nd_achievedValue := ag_achievedValue goal;
                          nd_achievedAt := ag_achievedAt goal |};
        n_priority := high; n_createdAt := now |}] in
  let notifications :=
    if String.eqb (g_type g) "health" && String.eqb (g_metric g) "water_intake"
       && (ag_achievedValue goal >=? 2000)
    then notifications ++
         [{| n_type := milestone; n_userId := userId; n_goalId := None;
             n_title := "Hydration Hero! 💧";
             n_message := "You're maintaining excellent hydration habits!";
             n_data := None; n_priority := medium; n_createdAt := now |}]
    else notifications in
  if String.eqb (g_type g) "education" && String.eqb (g_metric g) "study_hours"
     && (ag_achievedValue goal >=? 4)
  then notifications ++
       [{| n_type := milestone; n_userId := userId; n_goalId := None;
           n_title := "Study Champion! 📚";
           n_message := "Your dedication to learning is paying off!";
           n_data := None; n_priority := medium; n_createdAt := now |}]
  else notifications.

(** [generateAchievementNotifications] (1061-1107). *)
Definition generateAchievementNotifications (now userId : Z)
  (achievedGoals : list AchievedGoal) : list Notification :=
  fold_left (notify now userId) achievedGoals [].

(** The body of the response of the controller. *)
Record AchievementCheck :=
  { ac_achievedGoals : list AchievedGoal;
    ac_notifications : list Notification;
    ac_count : Z;
    ac_message : string }.

(** A response: its status and its body, [{success: true, ...}] or
    [{success: false, error}]. *)
Record Response (A : Type) := { res_status : Z; res_body : ServiceResult A }.

Arguments res_status {A} _.
Arguments res_body {A} _.

(** The controller [checkGoalAchievements] (analyticsController.js,
    212-237); [res.json] answers with status 200. *)
Definition checkGoalAchievements_controller (now userId : Z)
  : Async (Response AchievementCheck) :=
  try_catch
    (let* achievedGoals := checkGoalAchievements now userId in
     let notifications := generateAchievementNotifications now userId achievedGoals in
     ret {| res_status := 200;
            res_body :=
              Success {| ac_achievedGoals := achievedGoals;
                         ac_notifications := notifications;
                         ac_count := Z.of_nat (length achievedGoals);
                         ac_message :=
                           if (0 <? length achievedGoals)%nat
                           then "Congratulations! You've achieved " +:+
                                pretty (Z.of_nat (length achievedGoals)) +:+ " goal(s)!"
                           else "No new goal achievements at this time" |} |})
    (fun error =>
       ret {| res_status := 500;
              res_body := Failure "Failed to check goal achievements" |}).

(** A goal with its progress: [{...goal, ...progressData}]; the two objects
    have no key in common. *)
Record GoalWithProgress := { gw_goal : GoalRow; gw_progress : DetailedGoalProgress }.

Record GoalSummary :=
  { su_total : Z; su_active : Z; su_completed : Z; su_onTrack : Z;
    su_averageProgress : Z }.

Record GoalReport := { gr_goals : list GoalWithProgress; gr_summary : GoalSummary }.

(** [for (const goal of result.rows)] in [processGoalProgress]. *)
Fixpoint processGoalProgress_loop (now userId : Z) (rows : list GoalRow)
  (goals : list GoalWithProgress) : Async (list GoalWithProgress) :=
  match rows with
  | [] => ret goals
  | goal :: rest =>
      let* progressData := calculateDetailedGoalProgress now userId goal in
      processGoalProgress_loop now userId rest
        (goals ++ [{| gw_goal := goal; gw_progress := progressData |}])
  end.

(** [processGoalProgress] (643-674). *)
Definition processGoalProgress (now userId : Z) : Async GoalReport :=
  let* result := select (fun t =>
    order_by_desc g_created_at
      (filter (fun g => g_user_id g =? userId) (user_goals t))) in
  let* goals := processGoalProgress_loop now userId result [] in
  let activeGoals :=
    filter (fun g => match g_status (gw_goal g) with active => true | _ => false end)
      goals in
  let completedGoals :=
    filter (fun g => match g_status (gw_goal g) with completed => true | _ => false end)
      goals in
  let onTrackGoals :=
    filter (fun g => match dp_progressStatus (gw_progress g) with
                     | on_track | achieved => true
                     | _ => false
                     end) goals in
  ret {| gr_goals := goals;
         gr_summary :=
           {| su_total := Z.of_nat (length goals);
              su_active := Z.of_nat (length activeGoals);
              su_completed := Z.of_nat (length completedGoals);
              su_onTrack := Z.of_nat (length onTrackGoals);
              su_averageProgress :=
                if (0 <? length goals)%nat
                then Js.round
                       (Js.num (fold_left (fun sum g => sum + dp_progress (gw_progress g))
                                  goals 0)
                        / Js.len goals)
                else 0 |} |}.

Record CompletionRate := { cr_total : Z; cr_completed : Z; cr_completionRate : Z }.

(** A row of the join of [goal_achievements] with [user_goals]. *)
Record RecentAchievement :=
  { ra_achievement : AchievementRow; ra_metric : string; ra_type : string }.

Record CompletionStats :=
  { cs_overall : CompletionRate;
    cs_health : CompletionRate;
    cs_education : CompletionRate;
    cs_recentAchievements : list RecentAchievement;
    cs_averageTimeToCompletion : Z }.

Definition is_completed (g : GoalRow) : bool :=
  match g_status g with completed => true | _ => false end.

(** [calculateAverageTimeToCompletion] (1032-1053): the join gives one row
    for each achievement of a completed goal of the user. *)
Definition calculateAverageTimeToCompletion (userId : Z) : Async Z :=
  let* completedGoals := select (fun t =>
    flat_map (fun ug =>
                map (fun ga => (g_created_at ug, achieved_at ga))
                  (filter (fun ga => a_goal_id ga =? g_id ug) (goal_achievements t)))
      (filter (fun ug => (g_user_id ug =? userId) && is_completed ug) (user_goals t))) in
  match completedGoals with
  | [] => ret 0
  | _ =>
      let totalDays :=
        fold_left (fun sum '(createdAt, achievedAt) =>
                     sum + Js.ceil (Js.num (achievedAt - createdAt) / Js.num msPerDay))
          completedGoals 0 in
      ret (Js.round (Js.num totalDays / Js.len completedGoals))
  end.

(** [calculateHistoricalCompletionRate] (975-1025). *)
Definition calculateHistoricalCompletionRate (now userId : Z) : Async CompletionStats :=
  let* allGoals := select (fun t =>
    filter (fun g => g_user_id g =? userId) (user_goals t)) in
  let completedGoals := filter is_completed allGoals in
  let totalGoals := Z.of_nat (length allGoals) in
  let completionRate := rate (Z.of_nat (length completedGoals)) totalGoals in
  let healthGoals := filter (fun goal => String.eqb (g_type goal) "health") allGoals in
  let educationGoals :=
    filter (fun goal => String.eqb (g_type goal) "education") allGoals in
  let healthCompletionRate :=
    rate (Z.of_nat (length (filter is_completed healthGoals)))
      (Z.of_nat (length healthGoals)) in
  let educationCompletionRate :=
    rate (Z.of_nat (length (filter is_completed educationGoals)))
      (Z.of_nat (length educationGoals)) in
  let* recentAchievements := select (fun t =>
    order_by_desc (fun r => achieved_at (ra_achievement r))
      (flat_map (fun ga =>
                   map (fun ug => {| ra_achievement := ga; ra_metric := g_metric ug;
                                     ra_type := g_type ug |})
                     (filter (fun ug => g_id ug =? a_goal_id ga) (user_goals t)))
         (filter (fun ga => (a_user_id ga =? userId)
                            && (minusDays now 30 <=? achieved_at ga))
            (goal_achievements t)))) in
  let* averageTimeToCompletion := calculateAverageTimeToCompletion userId in
  ret {| cs_overall :=
           {| cr_total := totalGoals;
              cr_completed := Z.of_nat (length completedGoals);
              cr_completionRate := completionRate |};
         cs_health :=
           {| cr_total := Z.of_nat (length healthGoals);
              cr_completed := Z.of_nat (length (filter is_completed healthGoals));
              cr_completionRate := healthCompletionRate |};
         cs_education :=
           {| cr_total := Z.of_nat (length educationGoals);
              cr_completed := Z.of_nat (length (filter is_completed educationGoals));
              cr_completionRate := educationCompletionRate |};
         cs_recentAchievements := recentAchievements;
         cs_averageTimeToCompletion := averageTimeToCompletion |}.

Definition is_achievement (n : Notification) : bool :=
  match n_type n with goal_achievement => true | milestone => false end.

(** ** PeriodAggregator: the weekly breakdown (analyticsService.js, 1185-1213) *)

(** [date.getDay()]: 0 is Sunday; the first day of the epoch was a
    Thursday. *)
Definition getDay (t : Z) : Z := (t / msPerDay + 4) mod 7.

(** [weekStart.setDate(date.getDate() - date.getDay())] and the date of
    [weekStart.toISOString().split('T')[0]], as the instant of its
    midnight. *)
Definition weekKey (date : Z) : Z := startOfDay (minusDays date (getDay date)).

(** An entry of the object [weeks]. *)
Record WeekBucket :=
  { wk_weekStart : Z; wk_values : list Q; wk_total : Q; wk_count : Z }.

(** [{...week, average}]. *)
Record Week := { week : WeekBucket; wk_average : Z }.

(** The body of [dailyData.forEach]: [weeks] keeps its keys in the order in
    which they were first set. *)
Fixpoint add_to_week (key : Z) (value : Q) (weeks : list WeekBucket)
  : list WeekBucket :=
  match weeks with
  | [] =>
      [{| wk_weekStart := key; wk_values := [] ++ [value];
          wk_total := Js.add 0 value; wk_count := 0 + 1 |}]
  | w :: rest =>
      if wk_weekStart w =? key then
        {| wk_weekStart := wk_weekStart w; wk_values := wk_values w ++ [value];
           wk_total := Js.add (wk_total w) value; wk_count := wk_count w + 1 |} :: rest
      else w :: add_to_week key value rest
  end.

(** [groupDataByWeek] (1185-1213) on the entries as pairs of their date and
    of the value of their field [valueField]. *)
Definition groupDataByWeek (dailyData : list (Z * Q)) : list Week :=
  let weeks :=
    fold_left (fun weeks entry => add_to_week (weekKey (fst entry)) (snd entry) weeks)
      dailyData [] in
  JsArray.sort (fun a b => wk_weekStart (week a) - wk_weekStart (week b))
    (map (fun w => {| week := w;
                      wk_average :=
                        Js.round (Js.div (wk_total w) (Js.num (wk_count w))) |})
       weeks).

(** What the object [weeks] holds while the entries are visited. *)
Record weeks_inv (seen : list (Z * Q)) (weeks : list WeekBucket) : Prop :=
  { wi_keys : NoDup (map wk_weekStart weeks);
    wi_values : Permutation (flat_map wk_values weeks) (map snd seen);
    wi_buckets :
      Forall (fun w => (exists d, wk_weekStart w = weekKey d) /\
                       wk_count w = Z.of_nat (length (wk_values w)) /\
                       1 <= wk_count w /\
                       wk_total w = Js.sum (wk_values w)) weeks;
    wi_entries :
      forall d v, In (d, v) seen ->
        exists w, In w weeks /\ wk_weekStart w = weekKey d /\ In v (wk_values w) }.

(** ** Routes of the profile (routes/profile.js, 105-130 and 473-497) *)

(** The body of [req.body] of a water entry: a field that is missing, null
    or empty is [None]; [date] is the instant [new Date(date)] and the
    amount a whole number of millilitres. *)
Record WaterRequest := { wr_date : option Z; wr_amount_ml : option Z }.

(** The body of a response of a route: [{message, ...}] or [{error}]. *)
Inductive RouteBody (A : Type) :=
| body_ok (message : string) (payload : A)
| body_error (error : string).

Arguments body_ok {A} message payload.
Arguments body_error {A} error.

Record RouteResponse (A : Type) := { rr_status : Z; rr_body : RouteBody A }.

Arguments rr_status {A} _.
Arguments rr_body {A} _.

(** [INSERT INTO water_intake (user_id, date, amount_ml) VALUES ($1, $2, $3)
    ON CONFLICT (user_id, date) DO UPDATE SET amount_ml = $3 ... RETURNING *];
    the DATE column keeps the day of [date]. *)
Definition upsert_water (userId date amount_ml : Z) (t : Tables) : WaterRow * Tables :=
  let row := {| w_user_id := userId; w_date := startOfDay date; amount_ml := amount_ml |} in
  let conflicts := fun r : WaterRow =>
    (w_user_id r =? userId) && (w_date r =? startOfDay date) in
  (row,
   with_water
     (if existsb conflicts (water_intake t)
      then map (fun r => if conflicts r then row else r) (water_intake t)
      else water_intake t ++ [row]) t).

(** [addWaterIntake] (profile.js, 105-130). *)
Definition addWaterIntake (now userId : Z) (body : WaterRequest)
  : Async (RouteResponse WaterRow) :=
  try_catch
    (match wr_date body, wr_amount_ml body with
     | Some date, Some amount_ml =>
         if amount_ml <=? 0 then
           ret {| rr_status := 400;
                  rr_body := body_error "Date and valid amount (ml) are required" |}
         else
           let* entry := pool_query (upsert_water userId date amount_ml) in
           let* _ := updateUserStreak now userId "water" date true in
           ret {| rr_status := 201;
                  rr_body := body_ok "Water intake updated successfully" entry |}
     | _, _ =>
         ret {| rr_status := 400;
                rr_body := body_error "Date and valid amount (ml) are required" |}
     end)
    (fun error =>
       ret {| rr_status := 500; rr_body := body_error "Failed to add water intake" |}).

(** [getUserStreakData] (profile.js, 473-497); [res.json] answers with
    status 200. *)
Definition getUserStreakData (userId : Z) (activityType : string)
  : Async (RouteResponse StreakData) :=
  try_catch
    (let validActivityTypes := ["typing"; "kriya"; "water"; "exercise"] in
     if negb (existsb (String.eqb activityType) validActivityTypes) then
       ret {| rr_status := 400; rr_body := body_error "Invalid activity type" |}
     else
       let* result := getUserStreak userId activityType in
       match result with
       | Success data =>
           ret {| rr_status := 200;
                  rr_body := body_ok "Streak data retrieved successfully" data |}
       | Failure error =>
           ret {| rr_status := 500; rr_body := body_error error |}
       end)
    (fun error =>
       ret {| rr_status := 500;
              rr_body := body_error "Failed to retrieve streak data" |}).

(** The table of the water entries as the route keeps it: one row for a
    user and a day, dated at midnight, with a positive amount. *)
Definition water_valid (t : Tables) : Prop :=
  NoDup (map (fun r => (w_user_id r, w_date r)) (water_intake t)) /\
  Forall (fun r => 0 < amount_ml r /\ startOfDay (w_date r) = w_date r) (water_intake t).

(** The tables without the streaks. *)
Definition without_streaks (t : Tables) : Tables := set_user_streaks ∅ t.

(** ** InsightEngine: the analyzer of the water intake
    (analyticsService.js, 1815-1912) *)

(** [insights.push(i)], [recommendations.push(r)] and [milestones.push(m)]. *)
Definition push_insight (i : Insight) (acc : Analysis) : Analysis :=
  {| an_insights := an_insights acc ++ [i];
     an_recommendations := an_recommendations acc;
     an_milestones := an_milestones acc |}.

Definition push_recommendation (r : Recommendation) (acc : Analysis) : Analysis :=
  {| an_insights := an_insights acc;
     an_recommendations := an_recommendations acc ++ [r];
     an_milestones := an_milestones acc |}.

Definition push_milestone (m : Milestone) (acc : Analysis) : Analysis :=
  {| an_insights := an_insights acc;
     an_recommendations := an_recommendations acc;
     an_milestones := an_milestones acc ++ [m] |}.

Module Service.

(** The objects that [analyzeWaterIntakePatterns] pushes; numbers are
    written into the messages in decimal. *)
Definition waterImproved (now trendPercentage : Z) : Insight :=
  {| i_type := "health"; i_category := "water_intake";
     i_message := "Your water intake has improved by " +:+ pretty trendPercentage +:+
                  "% this month - excellent progress!";
     i_severity := positive; i_actionable := false;
     i_icon := "💧"; i_timestamp := now |}.

Definition waterDecreased (now trendPercentage : Z) : Insight :=
  {| i_type := "health"; i_category := "water_intake";
     i_message := "Your water intake has decreased by " +:+
                  pretty (Z.abs trendPercentage) +:+ "% this month";
     i_severity := warning; i_actionable := true;
     i_icon := "⚠️"; i_timestamp := now |}.

Definition hourlyReminders : Recommendation :=
  {| r_type := "health"; r_category := "water_intake";
     r_message := "Set hourly reminders to drink water throughout the day";
     r_actionable := true; r_priority := high; r_estimatedImpact := high;
     r_icon := "⏰" |}.

Definition waterBelowRecommended (now average : Z) : Insight :=
  {| i_type := "health"; i_category := "water_intake";
     i_message := "Your daily water intake (" +:+ pretty average +:+
                  "ml) is significantly below the recommended 2L";
     i_severity := critical; i_actionable := true;
     i_icon := "🚨"; i_timestamp := now |}.

Definition increaseGradually : Recommendation :=
  {| r_type := "health"; r_category := "water_intake";
     r_message :=
       "Gradually increase water intake by 200ml every few days until reaching 2L daily";
     r_actionable := true; r_priority := high; r_estimatedImpact := high;
     r_icon := "📈" |}.

Definition hydrationMet (now : Z) : Milestone :=
  {| m_type := "achievement"; m_category := "water_intake";
     m_message := "Congratulations! You're meeting your daily hydration goals";
     m_icon := "🎉"; m_timestamp := now |}.

Definition trackConsistently : Recommendation :=
  {| r_type := "health"; r_category := "water_intake";
     r_message := "Track your water intake more consistently for better insights";
     r_actionable := true; r_priority := medium; r_estimatedImpact := medium;
     r_icon := "📊" |}.

Definition waterGoalAchieved (now progress : Z) : Milestone :=
  {| m_type := "goal_achievement"; m_category := "water_intake";
     m_message := "Goal achieved! You've reached " +:+ pretty progress +:+
                  "% of your water intake target";
     m_icon := "🏆"; m_timestamp := now |}.

(** [analyzeWaterIntakePatterns]. *)
Definition analyzeWaterIntakePatterns (now : Z) (waterData : WaterIntakeAnalytics)
  : Analysis :=
  let average := wi_average waterData in
  let trend := wi_trend waterData in
  let trendPercentage := wi_trendPercentage waterData in
  let goalProgress := wi_goalProgress waterData in
  let daysTracked := wi_daysTracked waterData in
  let recommendedDaily := 2000%Q in
  let acc := no_analysis in
  let acc :=
    if match trend with increasing => true | _ => false end && (trendPercentage >? 15)
    then push_insight (waterImproved now trendPercentage) acc
    else if match trend with decreasing => true | _ => false end
            && (trendPercentage <? -15)
    then push_recommendation hourlyReminders
           (push_insight (waterDecreased now trendPercentage) acc)
    else acc in
  let acc :=
    if negb (Js.ge (Js.num average) (Js.mul recommendedDaily (7 # 10)))
    then push_recommendation increaseGradually
           (push_insight (waterBelowRecommended now average) acc)
    else if Js.ge (Js.num average) recommendedDaily
    then push_milestone (hydrationMet now) acc
    else acc in
  let acc :=
    if daysTracked <? 20 then push_recommendation trackConsistently acc else acc in
  match goalProgress with
  | Some gp =>
      match gp_status gp with
      | achieved => push_milestone (waterGoalAchieved now (gp_progress gp)) acc
      | _ => acc
      end
  | None => acc
  end.

End Service.

Definition is_critical (i : Insight) : bool :=
  match i_severity i with critical => true | _ => false end.

(** The user has no water entry from the day of [startDate] on. *)
Definition noWaterEntries (userId startDate : Z) (t : Tables) : Prop :=
  forall r, In r (water_intake t) -> w_user_id r = userId ->
            w_date r < startOfDay startDate.
(** * Properties *)

(** ** Binary64 rounding *)

Module Binary64.
Import Js.
Local Open Scope Q_scope.

Lemma pow2_pos e : 0 < pow2 e.
Proof. apply Qpower_0_lt. reflexivity. Qed.

Lemma pow2_add a b : pow2 (a + b) == pow2 a * pow2 b.
Proof. apply Qpower_plus. discriminate. Qed.

Lemma pow2_Z e : (0 <= e)%Z -> pow2 e == inject_Z (2 ^ e).
Proof. intros H. unfold pow2. now rewrite Zpower_Qpower. Qed.

Lemma pow2_le a b : (a <= b)%Z -> pow2 a <= pow2 b.
Proof. intros H. apply Qpower_le_compat_l; [exact H|discriminate]. Qed.

Lemma pow2_succ a : pow2 (a + 1) == 2 * pow2 a.
Proof. rewrite pow2_add. unfold pow2 at 2. rewrite Qpower_1_r. ring. Qed.

Lemma pow2_sub a b : pow2 (a - b) * pow2 b == pow2 a.
Proof. rewrite <- pow2_add. now replace (a - b + b)%Z with a by lia. Qed.

Lemma div_pow2 x e : x / pow2 e * pow2 e == x.
Proof. field. pose proof (pow2_pos e). lra. Qed.

Lemma log2_bounds (n : Z) :
  (0 < n)%Z -> inject_Z (2 ^ Z.log2 n) <= inject_Z n /\ inject_Z n < inject_Z (2 ^ (Z.log2 n + 1)).
Proof.
  intros H. destruct (Z.log2_spec n H) as [L U].
  replace (Z.succ (Z.log2 n)) with (Z.log2 n + 1)%Z in U by lia.
  split; [now rewrite <- Zle_Qle|now rewrite <- Zlt_Qlt].
Qed.

Lemma ilog2_spec q : 0 < q -> pow2 (ilog2 q) <= q /\ q < pow2 (ilog2 q + 1).
Proof.
  intros Hq. unfold ilog2.
  destruct q as [n d]. cbn [Qnum Qden].
  assert (Hn : (0 < n)%Z) by (unfold Qlt in Hq; cbn in Hq; lia).
  destruct (log2_bounds n Hn) as [Ln Un].
  destruct (log2_bounds (Zpos d) eq_refl) as [Ld Ud].
  pose proof (Z.log2_nonneg n) as Nn. pose proof (Z.log2_nonneg (Zpos d)) as Nd.
  rewrite <- pow2_Z in Ln, Un, Ld, Ud by lia.
  set (ln := Z.log2 n) in *. set (ld := Z.log2 (Zpos d)) in *.
  assert (Q : n # d == inject_Z n / inject_Z (Zpos d)) by apply Qmake_Qdiv.
  assert (Dp : 0 < inject_Z (Zpos d)) by reflexivity.
  pose proof (pow2_pos ld) as Pld. pose proof (pow2_pos ln) as Pln.
  pose proof (pow2_pos (ln - ld)) as Pk.
  pose proof (pow2_sub ln ld) as S1.
  rewrite pow2_succ in Un, Ud.
  destruct (Qle_bool (pow2 (ln - ld)) (n # d)) eqn:B.
  - apply Qle_bool_iff in B. split; [exact B|].
    rewrite pow2_succ, Q. apply Qlt_shift_div_r; [exact Dp|].
    nra.
  - assert (B' : n # d < pow2 (ln - ld)).
    { apply Qnot_le_lt. intros C. apply Qle_bool_iff in C. congruence. }
    split.
    + rewrite Q. apply Qle_shift_div_l; [exact Dp|].
      pose proof (pow2_succ (ln - ld - 1)) as S2.
      replace (ln - ld - 1 + 1)%Z with (ln - ld)%Z in S2 by lia.
      pose proof (pow2_pos (ln - ld - 1)) as Pk1.
      nra.
    + now replace (ln - ld - 1 + 1)%Z with (ln - ld)%Z by lia.
Qed.

Lemma nearest_even_cases x :
  nearest_even x = Qfloor x \/
  (nearest_even x = (Qfloor x + 1)%Z /\ inject_Z (Qfloor x) + (1 # 2) <= x).
Proof.
  unfold nearest_even.
  destruct (x - inject_Z (Qfloor x) ?= 1 # 2) eqn:C.
  - apply Qeq_alt in C. destruct (Z.even (Qfloor x)); [now left|right].
    split; [reflexivity|lra].
  - now left.
  - right. apply Qgt_alt in C. split; [reflexivity|lra].
Qed.

Lemma nearest_even_le x B : x <= inject_Z B -> (nearest_even x <= B)%Z.
Proof.
  intros H. pose proof (Qfloor_le x) as F.
  destruct (nearest_even_cases x) as [->|[-> G]].
  - rewrite Zle_Qle. lra.
  - assert (L : inject_Z (Qfloor x) < inject_Z B) by lra.
    rewrite <- Zlt_Qlt in L. lia.
Qed.

Lemma nearest_even_ge x B : inject_Z B <= x -> (B <= nearest_even x)%Z.
Proof.
  intros H.
  assert (F : (B <= Qfloor x)%Z).
  { rewrite <- (Qfloor_Z B). now apply Qfloor_resp_le. }
  destruct (nearest_even_cases x) as [->|[-> _]]; lia.
Qed.

Lemma nearest_even_comp x y : x == y -> nearest_even x = nearest_even y.
Proof.
  intros H. unfold nearest_even. rewrite (Qfloor_comp x y H).
  assert (C : (x - inject_Z (Qfloor y) ?= 1 # 2) = (y - inject_Z (Qfloor y) ?= 1 # 2)).
  { apply Qcompare_comp; [now rewrite H|reflexivity]. }
  now rewrite C.
Qed.

Lemma nearest_even_Z z : nearest_even (inject_Z z) = z.
Proof.
  apply Z.le_antisymm; [apply nearest_even_le|apply nearest_even_ge]; apply Qle_refl.
Qed.

Lemma fl_pos_eq q : fl_pos q == inject_Z (nearest_even (q / pow2 (exponent q))) * pow2 (exponent q).
Proof. unfold fl_pos. cbv zeta. now rewrite Qred_correct. Qed.

Lemma multiple M E e :
  (e <= E)%Z -> inject_Z M * pow2 E == inject_Z (M * 2 ^ (E - e)) * pow2 e.
Proof.
  intros H. rewrite inject_Z_mult, <- pow2_Z by lia.
  rewrite <- (pow2_sub E e). ring.
Qed.

Lemma le_shift x y e : x <= y * pow2 e <-> x / pow2 e <= y.
Proof.
  pose proof (pow2_pos e) as P. split; intros H.
  - apply Qle_shift_div_r; assumption.
  - rewrite <- (div_pow2 x e). apply Qmult_le_compat_r; lra.
Qed.

Lemma ge_shift x y e : y * pow2 e <= x <-> y <= x / pow2 e.
Proof.
  pose proof (pow2_pos e) as P. split; intros H.
  - apply Qle_shift_div_l; assumption.
  - rewrite <- (div_pow2 x e). apply Qmult_le_compat_r; lra.
Qed.

(** A positive representable number below the binade of [q] is at most
    the binade's lower end. *)
Lemma below_binade M E k :
  (Z.abs M <= 2 ^ 53)%Z -> (E < k - 52)%Z -> inject_Z M * pow2 E <= pow2 k.
Proof.
  intros HM HE.
  assert (L : inject_Z M <= pow2 53).
  { rewrite pow2_Z by lia. rewrite <- Zle_Qle. lia. }
  pose proof (pow2_pos E) as PE.
  assert (S : pow2 53 * pow2 E <= pow2 k).
  { rewrite <- pow2_add. apply pow2_le. lia. }
  apply Qle_trans with (2 := S). apply Qmult_le_compat_r; lra.
Qed.

Lemma binade_start q :
  0 < q -> exponent q = (ilog2 q - 52)%Z ->
  pow2 (ilog2 q) == inject_Z (2 ^ 52) * pow2 (exponent q).
Proof.
  intros Hq ->. rewrite <- pow2_Z by lia. rewrite <- pow2_add.
  now replace (52 + (ilog2 q - 52))%Z with (ilog2 q) by lia.
Qed.

Lemma fl_pos_le q b : 0 < q -> F64 b -> q <= b -> fl_pos q <= b.
Proof.
  intros Hq (M & E & Hb & HM & HE) Hle.
  rewrite fl_pos_eq. destruct (ilog2_spec q Hq) as [Lo _].
  destruct (Z_le_gt_dec (exponent q) E) as [C|C].
  - rewrite Hb, (multiple M E _ C).
    apply Qmult_le_compat_r; [|apply Qlt_le_weak, pow2_pos].
    rewrite <- Zle_Qle. apply nearest_even_le.
    apply le_shift. now rewrite <- multiple, <- Hb.
  - assert (Ee : exponent q = (ilog2 q - 52)%Z) by (unfold exponent in *; lia).
    assert (Bq : b <= pow2 (ilog2 q)).
    { rewrite Hb. apply below_binade; [exact HM|lia]. }
    assert (Qe : q == inject_Z (2 ^ 52) * pow2 (exponent q)).
    { rewrite <- binade_start by assumption. lra. }
    assert (X : q / pow2 (exponent q) == inject_Z (2 ^ 52)).
    { apply Qle_antisym; [apply le_shift|apply ge_shift]; lra. }
    rewrite (nearest_even_comp _ _ X), nearest_even_Z.
    apply Qle_trans with (2 := Hle). apply Qle_lteq. right. symmetry. exact Qe.
Qed.

Lemma fl_pos_ge q b : 0 < q -> F64 b -> b <= q -> b <= fl_pos q.
Proof.
  intros Hq (M & E & Hb & HM & HE) Hle.
  rewrite fl_pos_eq. destruct (ilog2_spec q Hq) as [Lo _].
  destruct (Z_le_gt_dec (exponent q) E) as [C|C].
  - rewrite Hb, (multiple M E _ C).
    apply Qmult_le_compat_r; [|apply Qlt_le_weak, pow2_pos].
    rewrite <- Zle_Qle. apply nearest_even_ge.
    apply ge_shift. now rewrite <- multiple, <- Hb.
  - assert (Ee : exponent q = (ilog2 q - 52)%Z) by (unfold exponent in *; lia).
    assert (Bq : b <= pow2 (ilog2 q)).
    { rewrite Hb. apply below_binade; [exact HM|lia]. }
    apply Qle_trans with (1 := Bq). rewrite (binade_start q Hq Ee).
    apply Qmult_le_compat_r; [|apply Qlt_le_weak, pow2_pos].
    rewrite <- Zle_Qle. apply nearest_even_ge. apply ge_shift.
    now rewrite <- binade_start.
Qed.

Lemma F64_Z z : (Z.abs z <= 2 ^ 53)%Z -> F64 (inject_Z z).
Proof.
  intros H. exists z, 0%Z. split; [|split; [exact H|lia]].
  unfold pow2. rewrite Qpower_0_r. ring.
Qed.

Lemma F64_opp b : F64 b -> F64 (- b).
Proof.
  intros (M & E & Hb & HM & HE). exists (- M)%Z, E.
  split; [|split; [lia|exact HE]]. rewrite Hb, inject_Z_opp. ring.
Qed.

Lemma F64_comp x y : x == y -> F64 x -> F64 y.
Proof. intros H (M & E & Hb & R). exists M, E. now rewrite <- H. Qed.

Lemma fl_pos_F64 q : 0 < q -> F64 (fl_pos q).
Proof.
  intros Hq. exists (nearest_even (q / pow2 (exponent q))), (exponent q).
  split; [apply fl_pos_eq|]. split; [|unfold exponent; lia].
  destruct (ilog2_spec q Hq) as [Lo Hi].
  assert (U : q / pow2 (exponent q) <= inject_Z (2 ^ 53)).
  { apply le_shift. rewrite <- pow2_Z by lia. rewrite <- pow2_add.
    apply Qle_trans with (1 := Qlt_le_weak _ _ Hi). apply pow2_le.
    unfold exponent. lia. }
  assert (L : inject_Z 0 <= q / pow2 (exponent q)).
  { apply ge_shift. change (inject_Z 0) with 0. lra. }
  apply nearest_even_le in U. apply nearest_even_ge in L. lia.
Qed.

Lemma sign_cases x :
  (Qnum (Qred x) = 0%Z /\ x == 0) \/
  (exists p, Qnum (Qred x) = Zpos p /\ 0 < Qred x) \/
  (exists p, Qnum (Qred x) = Zneg p /\ 0 < - Qred x).
Proof.
  pose proof (Qred_correct x) as R. destruct (Qred x) as [n d] eqn:E.
  destruct n as [|p|p]; cbn [Qnum].
  - left. split; [reflexivity|]. rewrite <- R. reflexivity.
  - right. left. exists p. split; reflexivity.
  - right. right. exists p. split; reflexivity.
Qed.

Lemma fl_le x b : F64 b -> x <= b -> fl x <= b.
Proof.
  intros Fb H. unfold fl. pose proof (Qred_correct x) as R.
  destruct (sign_cases x) as [[-> Z]|[(p & -> & P)|(p & -> & P)]].
  - lra.
  - apply fl_pos_le; [exact P|exact Fb|lra].
  - assert (G : - b <= fl_pos (- Qred x)).
    { apply fl_pos_ge; [exact P|now apply F64_opp|lra]. }
    lra.
Qed.

Lemma fl_ge x b : F64 b -> b <= x -> b <= fl x.
Proof.
  intros Fb H. unfold fl. pose proof (Qred_correct x) as R.
  destruct (sign_cases x) as [[-> Z]|[(p & -> & P)|(p & -> & P)]].
  - lra.
  - apply fl_pos_ge; [exact P|exact Fb|lra].
  - assert (G : fl_pos (- Qred x) <= - b).
    { apply fl_pos_le; [exact P|now apply F64_opp|lra]. }
    lra.
Qed.

Lemma fl_F64 x : F64 (fl x).
Proof.
  unfold fl.
  destruct (sign_cases x) as [[-> Z]|[(p & -> & P)|(p & -> & P)]].
  - now apply (F64_Z 0).
  - now apply fl_pos_F64.
  - now apply F64_opp, fl_pos_F64.
Qed.

Lemma fl_comp x y : x == y -> fl x = fl y.
Proof. intros H. unfold fl. now rewrite (Qred_complete x y H). Qed.

Lemma fl_exact b : F64 b -> fl b == b.
Proof. intros Fb. apply Qle_antisym; [apply fl_le|apply fl_ge]; auto; apply Qle_refl. Qed.


Lemma nearest_even_error x :
  x - (1 # 2) <= inject_Z (nearest_even x) /\ inject_Z (nearest_even x) <= x + (1 # 2).
Proof.
  pose proof (Qfloor_le x) as L. pose proof (Qlt_floor x) as U.
  rewrite inject_Z_plus in U. change (inject_Z 1) with 1 in U.
  unfold nearest_even.
  destruct (x - inject_Z (Qfloor x) ?= 1 # 2) eqn:C;
    [apply Qeq_alt in C|apply Qlt_alt in C|apply Qgt_alt in C];
    try destruct (Z.even (Qfloor x));
    rewrite ?inject_Z_plus; change (inject_Z 1) with 1; split; lra.
Qed.

(** The error of rounding is at most half a unit in the last place, which
    is at most [2^-53] of a number that is at least 1. *)
Lemma fl_pos_error q :
  0 < q ->
  q - pow2 (exponent q) / 2 <= fl_pos q /\ fl_pos q <= q + pow2 (exponent q) / 2.
Proof.
  intros P. rewrite fl_pos_eq.
  pose proof (pow2_pos (exponent q)) as E.
  destruct (nearest_even_error (q / pow2 (exponent q))) as [L U].
  split.
  - apply Qle_trans with ((q / pow2 (exponent q) - (1 # 2)) * pow2 (exponent q)).
    + apply Qle_lteq. right. field. intros Z. lra.
    + apply Qmult_le_compat_r; lra.
  - apply Qle_trans with ((q / pow2 (exponent q) + (1 # 2)) * pow2 (exponent q)).
    + apply Qmult_le_compat_r; lra.
    + apply Qle_lteq. right. field. intros Z. lra.
Qed.

Lemma exponent_normal q : 1 <= q -> pow2 (exponent q) <= q * pow2 (-52).
Proof.
  intros P. assert (P0 : 0 < q) by lra.
  destruct (ilog2_spec q P0) as [L U].
  assert (K : (0 <= ilog2 q)%Z).
  { assert (B : pow2 0 < pow2 (ilog2 q + 1)) by (change (pow2 0) with 1; lra).
    apply (Qpower_lt_compat_l_inv 2 0 (ilog2 q + 1)) in B; [lia|reflexivity]. }
  replace (exponent q) with (ilog2 q + -52)%Z by (unfold exponent; lia).
  rewrite pow2_add. apply Qmult_le_compat_r; [exact L|].
  apply Qlt_le_weak, pow2_pos.
Qed.

Lemma fl_relative x :
  1 <= x -> x * (1 - pow2 (-53)) <= fl x /\ fl x <= x * (1 + pow2 (-53)).
Proof.
  intros P. unfold fl. pose proof (Qred_correct x) as R.
  destruct (sign_cases x) as [[_ Z]|[(p & -> & Px)|(p & _ & Px)]]; [lra| |lra].
  assert (P1 : 1 <= Qred x) by lra.
  destruct (fl_pos_error _ Px) as [L U].
  pose proof (exponent_normal _ P1) as E.
  assert (H : pow2 (-52) / 2 == pow2 (-53)) by reflexivity.
  assert (E2 : pow2 (exponent (Qred x)) / 2 <= Qred x * pow2 (-53)).
  { rewrite <- H. unfold Qdiv at 2. rewrite Qmult_assoc.
    apply Qmult_le_compat_r; [exact E|discriminate]. }
  assert (C : pow2 (-53) == 1 # 9007199254740992) by reflexivity.
  rewrite C in *.
  split; [apply Qle_trans with (2 := L)|apply Qle_trans with (1 := U)]; lra.
Qed.

Lemma nearest_even_mono x y : x <= y -> (nearest_even x <= nearest_even y)%Z.
Proof.
  intros H. pose proof (Qfloor_resp_le _ _ H) as F.
  destruct (Z.eq_dec (Qfloor x) (Qfloor y)) as [E|N].
  - unfold nearest_even. rewrite E.
    destruct (x - inject_Z (Qfloor y) ?= 1 # 2) eqn:Cx;
      [apply Qeq_alt in Cx|apply Qlt_alt in Cx|apply Qgt_alt in Cx];
      (destruct (y - inject_Z (Qfloor y) ?= 1 # 2) eqn:Cy;
       [apply Qeq_alt in Cy|apply Qlt_alt in Cy|apply Qgt_alt in Cy]);
      try (exfalso; lra); destruct (Z.even (Qfloor y)); lia.
  - destruct (nearest_even_cases x) as [->|[-> _]];
      destruct (nearest_even_cases y) as [->|[-> _]]; lia.
Qed.

Lemma ilog2_mono x y : 0 < x -> x <= y -> (ilog2 x <= ilog2 y)%Z.
Proof.
  intros P H. destruct (ilog2_spec x P) as [Lx _].
  destruct (ilog2_spec y) as [_ Uy]; [lra|].
  assert (L : pow2 (ilog2 x) < pow2 (ilog2 y + 1)) by lra.
  apply Qpower_lt_compat_l_inv in L; [lia|reflexivity].
Qed.

Lemma F64_pow2 k : (-1074 <= k)%Z -> F64 (pow2 k).
Proof. intros H. exists 1%Z, k. split; [ring|]. split; [now apply Z.leb_le|exact H]. Qed.

Lemma fl_pos_mono x y : 0 < x -> x <= y -> fl_pos x <= fl_pos y.
Proof.
  intros P H. assert (Py : 0 < y) by lra.
  pose proof (ilog2_mono x y P H) as K.
  destruct (Z.eq_dec (exponent x) (exponent y)) as [E|N].
  - rewrite !fl_pos_eq, E.
    apply Qmult_le_compat_r; [|apply Qlt_le_weak, pow2_pos].
    rewrite <- Zle_Qle. apply nearest_even_mono.
    apply Qmult_le_compat_r; [exact H|].
    apply Qlt_le_weak, Qinv_lt_0_compat, pow2_pos.
  - destruct (ilog2_spec x P) as [_ Ux]. destruct (ilog2_spec y Py) as [Ly _].
    assert (Kl : (ilog2 x + 1 <= ilog2 y)%Z) by (unfold exponent in N; lia).
    assert (Km : (-1074 <= ilog2 y)%Z) by (unfold exponent in N; lia).
    pose proof (pow2_le _ _ Kl) as B.
    apply Qle_trans with (pow2 (ilog2 y)).
    + apply fl_pos_le; [exact P|now apply F64_pow2|lra].
    + apply fl_pos_ge; [exact Py|now apply F64_pow2|exact Ly].
Qed.

Lemma fl_mono x y : x <= y -> fl x <= fl y.
Proof.
  intros H.
  assert (F0 : F64 0) by now apply (F64_Z 0).
  destruct (Qlt_le_dec 0 x) as [Px|Nx].
  - unfold fl. pose proof (Qred_correct x) as Rx. pose proof (Qred_correct y) as Ry.
    destruct (sign_cases x) as [[_ Z]|[(p & -> & P)|(p & _ & P)]]; [lra| |lra].
    destruct (sign_cases y) as [[_ Z]|[(q & -> & Q)|(q & _ & Q)]]; [lra| |lra].
    apply fl_pos_mono; [exact P|lra].
  - destruct (Qlt_le_dec y 0) as [Ny|Py].
    + unfold fl. pose proof (Qred_correct x) as Rx. pose proof (Qred_correct y) as Ry.
      destruct (sign_cases x) as [[_ Z]|[(p & _ & P)|(p & -> & P)]]; [lra|lra|].
      destruct (sign_cases y) as [[_ Z]|[(q & _ & Q)|(q & -> & Q)]]; [lra|lra|].
      assert (M : fl_pos (- Qred y) <= fl_pos (- Qred x)) by (apply fl_pos_mono; lra).
      lra.
    + apply Qle_trans with 0; [now apply fl_le|now apply fl_ge].
Qed.

End Binary64.

(** ** JavaScript arithmetic *)

Module JsFacts.
Import Js.

Lemma round_comp (x y : Q) : (x == y)%Q -> round x = round y.
Proof. intros E. unfold round. apply Qfloor_comp. now rewrite E. Qed.

(** [k <= Math.round x] exactly when [k - 1/2 <= x]. *)
Lemma round_ge (x : Q) (k : Z) : k <= round x <-> (inject_Z k - (1 # 2) <= x)%Q.
Proof.
  unfold round. split; intros H.
  - pose proof (Qfloor_le (x + (1 # 2))) as F.
    rewrite Zle_Qle in H. lra.
  - rewrite <- (Qfloor_Z k). apply Qfloor_resp_le. lra.
Qed.

(** [Math.round x <= k] exactly when [x < k + 1/2]. *)
Lemma round_le (x : Q) (k : Z) : round x <= k <-> (x < inject_Z k + (1 # 2))%Q.
Proof.
  unfold round. split; intros H.
  - pose proof (Qlt_floor (x + (1 # 2))) as F.
    rewrite Zle_Qle in H. rewrite inject_Z_plus in F.
    change (inject_Z 1) with 1%Q in F. lra.
  - destruct (Z_le_gt_dec (Qfloor (x + (1 # 2))) k) as [L|G]; [exact L|exfalso].
    assert (G' : k + 1 <= Qfloor (x + (1 # 2))) by lia.
    pose proof (Qfloor_le (x + (1 # 2))) as F.
    rewrite Zle_Qle, inject_Z_plus in G'.
    change (inject_Z 1) with 1%Q in G'. lra.
Qed.

(** Rounding keeps the sign, and the operations keep bounds that are
    binary64 values themselves. *)
Lemma F64_const (z : Z) : (Z.abs z <=? 2 ^ 53) = true -> F64 (inject_Z z).
Proof. intros H. apply Binary64.F64_Z. now apply Z.leb_le. Qed.

Lemma fl_nonneg (x : Q) : (0 <= x)%Q -> (0 <= fl x)%Q.
Proof. apply (Binary64.fl_ge x 0). now apply (F64_const 0). Qed.

Lemma fl_nonpos (x : Q) : (x <= 0)%Q -> (fl x <= 0)%Q.
Proof. apply (Binary64.fl_le x 0). now apply (F64_const 0). Qed.

Lemma fl_fl (x : Q) : (fl (fl x) == fl x)%Q.
Proof. apply Binary64.fl_exact, Binary64.fl_F64. Qed.

Lemma fl_const (z : Z) : (Z.abs z <=? 2 ^ 53) = true -> (fl (inject_Z z) == inject_Z z)%Q.
Proof. intros H. now apply Binary64.fl_exact, F64_const. Qed.

Lemma fl_pos_sign (x : Q) : (0 < x)%Q -> (pow2 (-1074) <= x)%Q -> (0 < fl x)%Q.
Proof.
  intros P L. apply Qlt_le_trans with (pow2 (-1074)); [apply Binary64.pow2_pos|].
  apply Binary64.fl_ge; [|exact L].
  exists 1, (-1074). split; [ring|split; [now apply Z.leb_le|lia]].
Qed.

Lemma js_add_nonneg (x y : Q) : (0 <= x)%Q -> (0 <= y)%Q -> (0 <= add x y)%Q.
Proof.
  intros X Y. apply fl_nonneg. apply fl_nonneg in X, Y. lra.
Qed.

Lemma js_div_nonneg (x y : Q) : (0 <= x)%Q -> (0 <= y)%Q -> (0 <= div x y)%Q.
Proof.
  intros X Y. apply fl_nonneg. apply fl_nonneg in X, Y.
  destruct (Qeq_dec (fl y) 0) as [Z|Z].
  - rewrite Z. unfold Qdiv, Qinv. cbn. rewrite Qmult_0_r. apply Qle_refl.
  - apply Qle_shift_div_l; [lra|]. now rewrite Qmult_0_l.
Qed.

Lemma js_mul_nonneg (x y : Q) : (0 <= x)%Q -> (0 <= y)%Q -> (0 <= mul x y)%Q.
Proof.
  intros X Y. apply fl_nonneg. apply fl_nonneg in X, Y.
  now apply Qmult_le_0_compat.
Qed.


Lemma js_div_le_one (c t : Q) : (0 <= c)%Q -> (c <= t)%Q -> (div c t <= 1)%Q.
Proof.
  intros C T. unfold div. apply Binary64.fl_le; [now apply (F64_const 1)|].
  pose proof (Binary64.fl_mono _ _ T) as M. pose proof (fl_nonneg _ C) as N.
  destruct (Qeq_dec (fl t) 0) as [Z|Z].
  - rewrite Z. unfold Qdiv, Qinv. cbn. rewrite Qmult_0_r. discriminate.
  - apply Qle_shift_div_r; [lra|]. now rewrite Qmult_1_l.
Qed.

Lemma js_mul_100_ge (x : Q) (k : Z) :
  (Z.abs k <=? 2 ^ 46) = true -> (inject_Z k <= x)%Q -> (inject_Z (100 * k) <= mul x 100)%Q.
Proof.
  intros K H. apply Z.leb_le in K. unfold mul.
  assert (Fk : F64 (inject_Z k)) by (apply Binary64.F64_Z; lia).
  assert (F100 : (fl 100 == 100)%Q) by now apply (fl_const 100).
  apply Binary64.fl_ge; [apply Binary64.F64_Z; lia|].
  pose proof (Binary64.fl_ge x _ Fk H) as G.
  rewrite F100, inject_Z_mult. change (inject_Z 100) with 100%Q. lra.
Qed.

Lemma js_mul_100_le (x : Q) (k : Z) :
  (Z.abs k <=? 2 ^ 46) = true -> (x <= inject_Z k)%Q -> (mul x 100 <= inject_Z (100 * k))%Q.
Proof.
  intros K H. apply Z.leb_le in K. unfold mul.
  assert (Fk : F64 (inject_Z k)) by (apply Binary64.F64_Z; lia).
  assert (F100 : (fl 100 == 100)%Q) by now apply (fl_const 100).
  apply Binary64.fl_le; [apply Binary64.F64_Z; lia|].
  pose proof (Binary64.fl_le x _ Fk H) as G.
  rewrite F100, inject_Z_mult. change (inject_Z 100) with 100%Q. lra.
Qed.

(** [(c / t) * 100] is not negative when [c] and [t] are not, at most 100
    when [c] is at most [t], and at least 100 when [c] reaches a positive
    [t]. *)
Lemma percent_nonneg (c t : Q) : (0 <= c)%Q -> (0 <= t)%Q -> (0 <= mul (div c t) 100)%Q.
Proof.
  intros C T. apply (js_mul_100_ge _ 0); [reflexivity|]. now apply js_div_nonneg.
Qed.

Lemma percent_le_100 (c t : Q) : (0 <= c)%Q -> (c <= t)%Q -> (mul (div c t) 100 <= 100)%Q.
Proof.
  intros C T. apply (js_mul_100_le _ 1); [reflexivity|]. now apply js_div_le_one.
Qed.


Lemma percent_of_zero (t : Q) : mul (div 0 t) 100 = 0%Q.
Proof.
  assert (D : div 0 t = 0%Q).
  { unfold div. change (fl 0) with 0%Q.
    rewrite (Binary64.fl_comp (0 / fl t) 0); [reflexivity|].
    unfold Qdiv. now rewrite Qmult_0_l. }
  rewrite D. unfold mul. change (fl 0) with 0%Q.
  rewrite (Binary64.fl_comp (0 * fl 100) 0); [reflexivity|]. now rewrite Qmult_0_l.
Qed.

(** The relative change against a positive baseline of a value that is not
    negative is at least -100. *)
Lemma relative_change_ge (earlier later : Q) :
  (0 < fl earlier)%Q -> (0 <= later)%Q ->
  (-100 <= mul (div (sub later earlier) earlier) 100)%Q.
Proof.
  intros E L. apply (js_mul_100_ge _ (-1)); [reflexivity|].
  change (inject_Z (-1)) with (-1)%Q.
  assert (Fe : F64 (- fl earlier)) by apply Binary64.F64_opp, Binary64.fl_F64.
  assert (D : (- fl earlier <= sub later earlier)%Q).
  { unfold sub. apply Binary64.fl_ge; [exact Fe|]. apply fl_nonneg in L. lra. }
  unfold div. apply Binary64.fl_ge; [now apply (F64_const (-1))|].
  apply (Binary64.fl_ge _ _ Fe) in D.
  apply Qle_shift_div_l; [exact E|]. lra.
Qed.

(** The mean of [n] integers that are at most 100 each: the quotient of
    their sum by [n] stays below 100.125, however large the numbers. *)
Lemma mean_le (total n : Z) :
  0 <= total <= 100 * n -> 0 < n ->
  (0 <= div (inject_Z total) (inject_Z n) /\
   div (inject_Z total) (inject_Z n) <= 801 # 8)%Q.
Proof.
  intros [T0 T1] N.
  assert (Tq : (0 <= inject_Z total)%Q)
    by (change 0%Q with (inject_Z 0); now rewrite <- Zle_Qle).
  assert (Nq : (1 <= inject_Z n)%Q)
    by (change 1%Q with (inject_Z 1); rewrite <- Zle_Qle; lia).
  split; [apply js_div_nonneg; lra|].
  unfold div. apply Binary64.fl_le.
  { exists 801, (-3). split; [reflexivity|]. split; [now apply Z.leb_le|lia]. }
  destruct (Binary64.fl_relative _ Nq) as [Ln _].
  assert (U : (pow2 (-53) == 1 # 9007199254740992)%Q) by reflexivity.
  rewrite U in Ln.
  assert (Ts : (fl (inject_Z total) <= (100 * inject_Z n) * (1 + (1 # 9007199254740992)))%Q).
  { destruct (Z.eq_dec total 0) as [->|NZ].
    - change (fl (inject_Z 0)) with 0%Q. nra.
    - assert (T1q : (1 <= inject_Z total)%Q)
        by (change 1%Q with (inject_Z 1); rewrite <- Zle_Qle; lia).
      destruct (Binary64.fl_relative _ T1q) as [_ Ut]. rewrite U in Ut.
      assert (Le : (inject_Z total <= 100 * inject_Z n)%Q).
      { change 100%Q with (inject_Z 100). rewrite <- inject_Z_mult, <- Zle_Qle. lia. }
      nra. }
  apply Qle_shift_div_r; [nra|]. nra.
Qed.

Lemma js_sum_from_nonneg (l : list Q) (a : Q) :
  (0 <= a)%Q -> Forall (fun v => 0 <= v)%Q l -> (0 <= fold_left add l a)%Q.
Proof.
  intros A F. revert a A. induction F as [|v l V _ IH]; intros a A; simpl.
  - exact A.
  - apply IH. now apply js_add_nonneg.
Qed.

Lemma js_sum_nonneg (l : list Q) : Forall (fun v => 0 <= v)%Q l -> (0 <= sum l)%Q.
Proof. apply js_sum_from_nonneg. apply Qle_refl. Qed.

End JsFacts.

(** ** TrendAnalyzer *)

Lemma total_from_sum (l : list Q) (a : Q) : TrendSpec.total_from a l = fold_left Js.add l a.
Proof. revert a. induction l as [|v l IH]; intros a; simpl; [reflexivity|apply IH]. Qed.

Lemma avg_spec (l : list Q) : Js.div (Js.sum l) (Js.len l) = TrendSpec.avg l.
Proof.
  unfold TrendSpec.avg, TrendSpec.total, Js.len, Js.sum. now rewrite total_from_sum.
Qed.

Example calculateTrend_rising :
  calculateTrend [1; 2; 3; 4; 5; 6]%Q = {| trend := increasing; percentage := 150 |}.
Proof. vm_compute. reflexivity. Qed.

Example calculateTrend_falling :
  calculateTrend [6; 5; 4; 3; 2; 1]%Q = {| trend := decreasing; percentage := -60 |}.
Proof. vm_compute. reflexivity. Qed.

Example calculateTrend_zero_baseline :
  calculateTrend [0; 0; 5; 7]%Q = {| trend := stable; percentage := 0 |}.
Proof. vm_compute. reflexivity. Qed.

(** Every operation is rounded: the relative change of 63 against 40 is
    57.49999999999999 in binary64, where the exact quotient is 57.5. *)
Example calculateTrend_rounded_operations :
  calculateTrend [40; 63]%Q = {| trend := increasing; percentage := 57 |}.
Proof. vm_compute. reflexivity. Qed.

Example calculateTrend_negative_baseline :
  calculateTrend [-2; -4]%Q = {| trend := stable; percentage := 0 |}.
Proof. vm_compute. reflexivity. Qed.

Example spec_calculateTrend_negative_baseline :
  TrendSpec.spec_calculateTrend [-2; -4]%Q =
  {| trend := increasing; percentage := 100 |}.
Proof. vm_compute. reflexivity. Qed.

(** C1, as stated, fails: on the series [-2, -4] the first-half average is
    -2, not 0, and the relative change rounds to 100, which the
    specification reports as an increasing trend; [calculateTrend] returns
    stable with percentage 0. *)
Lemma calculateTrend_not_spec_on_negative_baseline :
  calculateTrend [-2; -4]%Q <> TrendSpec.spec_calculateTrend [-2; -4]%Q.
Proof.
  rewrite calculateTrend_negative_baseline, spec_calculateTrend_negative_baseline.
  discriminate.
Qed.

(** The code computes the relative change exactly when the first-half
    average is positive. *)
Lemma calculateTrend_trend_of (values : list Q) :
  calculateTrend values = TrendSpec.trend_of TrendSpec.positive values.
Proof.
  unfold calculateTrend, TrendSpec.trend_of, TrendSpec.relative_change.
  destruct (length values <? 2)%nat; [reflexivity|].
  unfold Js.slice_to, Js.slice_from. rewrite !avg_spec.
  unfold TrendSpec.positive, Js.gt, TrendSpec.classify.
  destruct (negb _); [|reflexivity]. now rewrite Z.gtb_ltb.
Qed.

(** C1, amended: with fewer than 2 values [calculateTrend] returns
    insufficient_data and 0; otherwise, with the values split at
    floor(n/2), the percentage is the rounded relative change of the
    second-half average against the first-half average when the first-half
    average is positive, and 0 when it is zero or negative; the trend is
    increasing above 10, decreasing below -10 and stable in between.  The
    averages and the relative change are computed in JavaScript's numbers,
    every sum, difference, quotient and product rounded to binary64.  The
    two halves make up the values, and the element at index floor(n/2) is
    the first of the second half. *)
Theorem calculateTrend_amended (values : list Q) :
  calculateTrend values = TrendSpec.trend_of TrendSpec.positive values /\
  let midPoint := (length values / 2)%nat in
  firstn midPoint values ++ skipn midPoint values = values /\
  nth_error (skipn midPoint values) 0 = nth_error values midPoint.
Proof.
  split; [apply calculateTrend_trend_of|]. cbv zeta. split.
  - apply firstn_skipn.
  - rewrite nth_error_skipn. f_equal. lia.
Qed.

(** On series of non-negative values the two guards agree, so there the code
    is the specification as written. *)
Lemma avg_nonneg (l : list Q) :
  Forall (fun v => 0 <= v)%Q l -> (0 <= TrendSpec.avg l)%Q.
Proof.
  intros F. rewrite <- avg_spec. apply JsFacts.js_div_nonneg.
  - now apply JsFacts.js_sum_nonneg.
  - unfold Js.len. change 0%Q with (inject_Z 0). rewrite <- Zle_Qle. lia.
Qed.

Lemma calculateTrend_spec_nonneg (values : list Q) :
  Forall (fun v => 0 <= v)%Q values ->
  calculateTrend values = TrendSpec.spec_calculateTrend values.
Proof.
  intros NN. rewrite calculateTrend_trend_of.
  unfold TrendSpec.spec_calculateTrend, TrendSpec.trend_of.
  destruct (length values <? 2)%nat; [reflexivity|].
  set (fh := firstn (length values / 2) values).
  assert (A : (0 <= TrendSpec.avg fh)%Q).
  { apply avg_nonneg. unfold fh. now apply Forall_take. }
  assert (G : TrendSpec.positive (TrendSpec.avg fh) = TrendSpec.nonzero (TrendSpec.avg fh)).
  { unfold TrendSpec.positive, TrendSpec.nonzero. f_equal.
    destruct (Qle_bool (TrendSpec.avg fh) 0) eqn:L;
      destruct (Qeq_bool (TrendSpec.avg fh) 0) eqn:E; try reflexivity.
    - apply Qle_bool_iff in L. apply Qeq_bool_neq in E. exfalso. apply E. lra.
    - apply Qeq_bool_iff in E.
      assert (L' : Qle_bool (TrendSpec.avg fh) 0 = true)
        by (apply Qle_bool_iff; lra).
      congruence. }
  now rewrite G.
Qed.

(** ** InsightRanker *)

Section SortFacts.

Context {A : Type} (compareFn : A -> A -> Z).

Lemma insert_perm (x : A) (l : list A) :
  Permutation (x :: l) (JsArray.insert compareFn x l).
Proof.
  induction l as [|y l IH]; simpl.
  - apply Permutation_refl.
  - destruct (compareFn x y <=? 0).
    + apply Permutation_refl.
    + eapply perm_trans; [apply perm_swap|]. now apply perm_skip.
Qed.

Lemma sort_perm (l : list A) : Permutation l (JsArray.sort compareFn l).
Proof.
  induction l as [|x l IH]; simpl.
  - apply perm_nil.
  - eapply perm_trans; [apply perm_skip, IH|]. apply insert_perm.
Qed.

(** An element only passes the elements that come strictly before it, so a
    selection of elements that never come strictly before each other keeps
    its order. *)
Lemma insert_filter (p : A -> bool) (x : A) (l : list A) :
  (forall a b, p a = true -> p b = true -> compareFn a b <= 0) ->
  filter p (JsArray.insert compareFn x l) = filter p (x :: l).
Proof.
  intros Hp. induction l as [|y l IH]; [reflexivity|].
  simpl JsArray.insert. destruct (compareFn x y <=? 0) eqn:C; [reflexivity|].
  apply Z.leb_gt in C. simpl in *.
  destruct (p x) eqn:Px, (p y) eqn:Py; rewrite IH; try reflexivity.
  specialize (Hp x y Px Py). lia.
Qed.

Lemma sort_filter (p : A -> bool) (l : list A) :
  (forall a b, p a = true -> p b = true -> compareFn a b <= 0) ->
  filter p (JsArray.sort compareFn l) = filter p l.
Proof.
  intros Hp. induction l as [|x l IH]; [reflexivity|].
  simpl JsArray.sort. rewrite insert_filter by exact Hp.
  simpl. now rewrite IH.
Qed.

Hypothesis le_total : forall a b, compareFn a b <= 0 \/ compareFn b a <= 0.
Hypothesis le_trans :
  forall a b c, compareFn a b <= 0 -> compareFn b c <= 0 -> compareFn a c <= 0.

Lemma insert_sorted (x : A) (l : list A) :
  StronglySorted (fun a b => compareFn a b <= 0) l -> StronglySorted (fun a b => compareFn a b <= 0) (JsArray.insert compareFn x l).
Proof.
  induction 1 as [|y l S IH F]; simpl.
  - constructor; constructor.
  - destruct (compareFn x y <=? 0) eqn:C.
    + apply Z.leb_le in C. constructor; [now constructor|].
      constructor; [exact C|].
      eapply Forall_impl; [|exact F]. intros z Hz. now apply le_trans with y.
    + apply Z.leb_gt in C. constructor; [exact IH|].
      assert (Lyx : compareFn y x <= 0) by (destruct (le_total x y) as [L|L]; [lia|exact L]).
      eapply Permutation_Forall; [apply insert_perm|].
      now constructor.
Qed.

Lemma sort_sorted (l : list A) : StronglySorted (fun a b => compareFn a b <= 0) (JsArray.sort compareFn l).
Proof.
  induction l as [|x l IH]; simpl; [constructor|]. now apply insert_sorted.
Qed.

(** A sorted array is returned as it is. *)
Lemma sort_sorted_id (l : list A) :
  StronglySorted (fun a b => compareFn a b <= 0) l -> JsArray.sort compareFn l = l.
Proof.
  induction 1 as [|x l S IH F]; [reflexivity|].
  simpl. rewrite IH. destruct l as [|y l']; [reflexivity|].
  simpl. apply Forall_inv in F.
  apply Z.leb_le in F. now rewrite F.
Qed.

Lemma sort_idempotent (l : list A) :
  JsArray.sort compareFn (JsArray.sort compareFn l) = JsArray.sort compareFn l.
Proof. apply sort_sorted_id, sort_sorted. Qed.

End SortFacts.

Lemma compareInsights_key (a b : Insight) :
  compareInsights a b <= 0 <->
  RankSpec.lex_le (RankSpec.insightKey a) (RankSpec.insightKey b).
Proof.
  unfold compareInsights, RankSpec.lex_le, RankSpec.insightKey.
  destruct (i_severity a), (i_severity b), (i_actionable a), (i_actionable b);
    simpl; lia.
Qed.

Lemma compareRecommendations_key (a b : Recommendation) :
  compareRecommendations a b <= 0 <->
  RankSpec.lex_le (RankSpec.recommendationKey a) (RankSpec.recommendationKey b).
Proof.
  unfold compareRecommendations, RankSpec.lex_le, RankSpec.recommendationKey.
  destruct (r_priority a), (r_priority b),
    (r_estimatedImpact a), (r_estimatedImpact b),
    (r_actionable a), (r_actionable b); simpl; lia.
Qed.

Lemma lex_le_refl (x : Z * Z * Z) : RankSpec.lex_le x x.
Proof. destruct x as [[x1 x2] x3]. simpl. lia. Qed.

Lemma lex_le_total (x y : Z * Z * Z) : RankSpec.lex_le x y \/ RankSpec.lex_le y x.
Proof. destruct x as [[x1 x2] x3], y as [[y1 y2] y3]. simpl. lia. Qed.

Lemma lex_le_trans (x y z : Z * Z * Z) :
  RankSpec.lex_le x y -> RankSpec.lex_le y z -> RankSpec.lex_le x z.
Proof.
  destruct x as [[x1 x2] x3], y as [[y1 y2] y3], z as [[z1 z2] z3]. simpl. lia.
Qed.

Lemma StronglySorted_weaken {A : Type} (R S : A -> A -> Prop) (l : list A) :
  (forall a b, R a b -> S a b) -> StronglySorted R l -> StronglySorted S l.
Proof.
  intros RS. induction 1 as [|x l H IH F]; constructor; [exact IH|].
  eapply Forall_impl; [|exact F]. intros b. apply RS.
Qed.

(** What a sort through a comparison function that realises the order of a
    key achieves. *)
Lemma sort_by_key {A : Type} (compareFn : A -> A -> Z) (key : A -> Z * Z * Z) :
  (forall a b, compareFn a b <= 0 <-> RankSpec.lex_le (key a) (key b)) ->
  forall l, RankSpec.stable_sort_of key l (JsArray.sort compareFn l).
Proof.
  intros K l. split; [apply sort_perm|]. split.
  - apply StronglySorted_weaken with (R := fun a b => compareFn a b <= 0).
    + intros a b. apply K.
    + apply sort_sorted.
      * intros a b. destruct (lex_le_total (key a) (key b)) as [L|L];
          [left|right]; now apply K.
      * intros a b c Hab Hbc. apply K. apply lex_le_trans with (key b); now apply K.
  - intros k. apply sort_filter. intros a b Ha Hb.
    apply bool_decide_eq_true in Ha, Hb. apply K. rewrite Ha, Hb. apply lex_le_refl.
Qed.

(** C8: [sortInsightsBySeverity] sorts by severity, then actionable first,
    then newest timestamp first, and [prioritizeRecommendations] by
    priority, then impact, then actionable first; both return the elements
    of their argument in ascending key order with elements of equal keys in
    their input order, and sorting the result of [prioritizeRecommendations]
    again returns it unchanged. *)
Theorem rankers_stable (insights : list Insight) (recommendations : list Recommendation) :
  RankSpec.stable_sort_of RankSpec.insightKey insights
    (sortInsightsBySeverity insights) /\
  RankSpec.stable_sort_of RankSpec.recommendationKey recommendations
    (prioritizeRecommendations recommendations) /\
  prioritizeRecommendations (prioritizeRecommendations recommendations) =
  prioritizeRecommendations recommendations.
Proof.
  split; [|split].
  - apply sort_by_key, compareInsights_key.
  - apply sort_by_key, compareRecommendations_key.
  - apply sort_idempotent.
    + intros a b.
      destruct (lex_le_total (RankSpec.recommendationKey a) (RankSpec.recommendationKey b))
        as [L|L]; [left|right]; now apply compareRecommendations_key.
    + intros a b c Hab Hbc. apply compareRecommendations_key.
      apply lex_le_trans with (RankSpec.recommendationKey b);
        now apply compareRecommendations_key.
Qed.

(** An array of recommendations already in key order is returned unchanged. *)
Lemma prioritizeRecommendations_sorted (recommendations : list Recommendation) :
  StronglySorted
    (fun a b => RankSpec.lex_le (RankSpec.recommendationKey a) (RankSpec.recommendationKey b))
    recommendations ->
  prioritizeRecommendations recommendations = recommendations.
Proof.
  intros S. apply sort_sorted_id.
  eapply StronglySorted_weaken; [|exact S].
  intros a b. apply compareRecommendations_key.
Qed.

Example prioritizeRecommendations_ties :
  let r (m : string) (p i : Level) (a : bool) :=
    {| r_type := "health"; r_category := "water"; r_message := m;
       r_actionable := a; r_priority := p; r_estimatedImpact := i; r_icon := "" |} in
  prioritizeRecommendations
    [r "a" medium high false; r "b" high low true; r "c" high high true;
     r "d" high low true; r "e" low high true]
  = [r "c" high high true; r "b" high low true; r "d" high low true;
     r "a" medium high false; r "e" low high true].
Proof. vm_compute. reflexivity. Qed.

(** ** Running queries *)

Lemma pool_query_healthy {A} (q : Tables -> A * Tables) (t : Tables) :
  pool_query q (healthy t) = (Resolved (fst (q t)), healthy (snd (q t))).
Proof. unfold pool_query, healthy. simpl. now destruct (q t). Qed.

Lemma pool_query_failing {A} (q : Tables -> A * Tables) (t : Tables) (fs : list bool) :
  pool_query q (failing t fs) =
  (Rejected queryError, {| tables := t; faults := fs; rejected := 1 |}).
Proof. reflexivity. Qed.

Lemma select_healthy {A} (q : Tables -> A) (t : Tables) :
  select q (healthy t) = (Resolved (q t), healthy t).
Proof. unfold select. now rewrite pool_query_healthy. Qed.

Lemma execute_healthy (f : Tables -> Tables) (t : Tables) :
  execute f (healthy t) = (Resolved tt, healthy (f t)).
Proof. unfold execute. now rewrite pool_query_healthy. Qed.

Lemma bind_resolved {A B} (m : Async A) (k : A -> Async B) (db db' : Db) (a : A) :
  m db = (Resolved a, db') -> bind m k db = k a db'.
Proof. intros E. unfold bind. now rewrite E. Qed.

(** ** Streak service *)

Lemma msPerDay_pos : 0 < msPerDay.
Proof. reflexivity. Qed.

Lemma startOfDay_multiple (t : Z) : startOfDay t = msPerDay * (t / msPerDay).
Proof.
  unfold startOfDay. pose proof (Z.div_mod t msPerDay) as H.
  pose proof msPerDay_pos. lia.
Qed.

Lemma startOfDay_idempotent (t : Z) : startOfDay (startOfDay t) = startOfDay t.
Proof.
  rewrite (startOfDay_multiple t). unfold startOfDay.
  rewrite Z.mul_comm, Z.mod_mul; [lia|]. pose proof msPerDay_pos. lia.
Qed.

Lemma daysBetween_div (a b : Z) : daysBetween a b = (b - a) / msPerDay.
Proof. unfold daysBetween, Js.floor, Js.num. now rewrite <- Zdiv_Qdiv. Qed.

Lemma same_day_diff (t : Z) : daysBetween (startOfDay (startOfDay t)) (startOfDay t) = 0.
Proof. rewrite daysBetween_div, startOfDay_idempotent, Z.sub_diag. reflexivity. Qed.

Example daysBetween_next_evening :
  daysBetween (day 19000) (startOfDay (day 19001 + 20 * 60 * 60 * 1000)) = 1.
Proof. reflexivity. Qed.

Example startOfDay_noon : startOfDay (day 19000 + 12 * 60 * 60 * 1000) = day 19000.
Proof. reflexivity. Qed.


Lemma select_cases {A} (q : Tables -> A) (db : Db) :
  select q db = (Resolved (q (tables db)), after_query db) \/
  select q db = (Rejected queryError, after_rejection db).
Proof.
  unfold select, pool_query, after_query, after_rejection.
  destruct (faults db) as [|[|] fs]; simpl; auto.
Qed.

Lemma execute_cases (f : Tables -> Tables) (db : Db) :
  execute f db = (Resolved tt, after_write f db) \/
  execute f db = (Rejected queryError, after_rejection db).
Proof.
  unfold execute, pool_query, after_write, after_rejection.
  destruct (faults db) as [|[|] fs]; simpl; auto.
Qed.

(** Run the write in the goal: it happens, or the store rejects it. *)
Ltac run_execute :=
  match goal with
  | |- context [execute ?f ?d] =>
      let X := fresh "X" in destruct (execute_cases f d) as [X|X]; rewrite X
  end.

Lemma storedLongestStreak_write_streak (now : Z) (key key' : Z * string)
  (c l d : Z) (db : Db) :
  storedLongestStreak key' (after_write (write_streak now key c l d) db) =
  if decide (key = key') then l else storedLongestStreak key' db.
Proof.
  unfold storedLongestStreak, write_streak. simpl.
  rewrite lookup_insert. now destruct (decide (key = key')).
Qed.

Lemma storedLongestStreak_write_current (now : Z) (key key' : Z * string)
  (c : Z) (db : Db) :
  storedLongestStreak key' (after_write (write_current_streak now key c) db) =
  storedLongestStreak key' db.
Proof.
  unfold storedLongestStreak, write_current_streak. simpl.
  rewrite lookup_alter. destruct (decide (key = key')) as [->|]; [|reflexivity].
  now destruct (user_streaks (tables db) !! key').
Qed.

Lemma updateUserStreak_longest (now userId : Z) (activityType : string) (date : Z)
  (isCompleted : bool) (key : Z * string) (db : Db) :
  storedLongestStreak key db <=
  storedLongestStreak key (snd (updateUserStreak now userId activityType date isCompleted db)).
Proof.
  unfold updateUserStreak, try_catch, bind.
  destruct (select_cases (fun t => user_streaks t !! (userId, activityType)) db)
    as [E|E]; rewrite E; [|simpl; reflexivity].
  destruct isCompleted.
  - run_execute; simpl; [|reflexivity].
    rewrite storedLongestStreak_write_streak.
    destruct (decide ((userId, activityType) = key)) as [<-|]; [|reflexivity].
    unfold storedLongestStreak.
    destruct (user_streaks (tables db) !! (userId, activityType)) as [r|].
    + match goal with |- context [?c >? ?l] => destruct (Z.gtb_spec c l) end; lia.
    + simpl. lia.
  - destruct (user_streaks (tables db) !! (userId, activityType)) as [r|] eqn:L;
      [|simpl; reflexivity].
    destruct (last_activity_date r) as [last|]; [|simpl; reflexivity].
    match goal with |- context [if ?b then _ else _] => destruct b end;
      [|simpl; reflexivity].
    run_execute; simpl; [|reflexivity].
    rewrite storedLongestStreak_write_current. reflexivity.
Qed.

Lemma resetUserStreak_longest (now userId : Z) (activityType : string)
  (key : Z * string) (db : Db) :
  storedLongestStreak key db =
  storedLongestStreak key (snd (resetUserStreak now userId activityType db)).
Proof.
  unfold resetUserStreak, try_catch, bind.
  run_execute; simpl; [|reflexivity].
  now rewrite storedLongestStreak_write_current.
Qed.

Lemma run_op_longest (op : StreakOp) (key : Z * string) (db : Db) :
  storedLongestStreak key db <= storedLongestStreak key (run_op db op).
Proof.
  destruct op; simpl.
  - apply updateUserStreak_longest.
  - rewrite <- resetUserStreak_longest. reflexivity.
Qed.

(** C7: along every sequence of [updateUserStreak] and [resetUserStreak]
    calls, whatever their arguments and whichever of their queries fail, the
    longest streak stored for a (user, activityType) never decreases. *)
Theorem longestStreak_monotonic (ops ops' : list StreakOp) (key : Z * string) (db : Db) :
  storedLongestStreak key (run_ops ops db) <=
  storedLongestStreak key (run_ops (ops ++ ops') db).
Proof.
  unfold run_ops. rewrite fold_left_app.
  generalize (fold_left run_op ops db). clear db ops.
  induction ops' as [|op ops' IH]; intros db; simpl; [reflexivity|].
  etransitivity; [apply run_op_longest|apply IH].
Qed.

(** A reset leaves the stored longest streak as it is. *)
Lemma reset_keeps_longestStreak (now userId : Z) (activityType : string) (db : Db) :
  storedLongestStreak (userId, activityType) (run_op db (StreakReset now userId activityType)) =
  storedLongestStreak (userId, activityType) db.
Proof. simpl. now rewrite <- resetUserStreak_longest. Qed.

(** A completed report for the day already stored changes neither counter,
    provided the stored current streak does not exceed the longest one. *)
Lemma updateUserStreak_same_day (now userId : Z) (activityType : string) (date : Z)
  (t : Tables) (r : StreakRow) :
  user_streaks t !! (userId, activityType) = Some r ->
  last_activity_date r = Some (startOfDay date) ->
  current_streak r <= longest_streak r ->
  updateUserStreak now userId activityType date true (healthy t) =
  (Resolved (Success {| sd_currentStreak := current_streak r;
                        sd_longestStreak := longest_streak r;
                        sd_lastActivityDate := Some date |}),
   healthy (write_streak now (userId, activityType)
              (current_streak r) (longest_streak r) date t)).
Proof.
  intros L D I. unfold updateUserStreak, try_catch, bind.
  rewrite select_healthy. cbv beta iota. rewrite L. cbv beta iota.
  rewrite D, same_day_diff. cbv beta iota.
  assert (G : (current_streak r >? longest_streak r) = false)
    by (rewrite Z.gtb_ltb; apply Z.ltb_ge; exact I).
  change (0 =? 1) with false. change (0 =? 0) with true. cbv beta iota.
  rewrite G, execute_healthy. reflexivity.
Qed.

(** Every completed report that reaches the store leaves a row whose current
    streak does not exceed its longest streak, dated with the day reported. *)
Lemma updateUserStreak_completed (now userId : Z) (activityType : string) (date : Z)
  (t : Tables) :
  exists c l : Z,
    c <= l /\
    updateUserStreak now userId activityType date true (healthy t) =
    (Resolved (Success {| sd_currentStreak := c; sd_longestStreak := l;
                          sd_lastActivityDate := Some date |}),
     healthy (write_streak now (userId, activityType) c l date t)).
Proof.
  unfold updateUserStreak, try_catch, bind. rewrite select_healthy.
  match goal with |- context [execute (write_streak _ _ ?c ?l _)] =>
    exists c, l end.
  split.
  - match goal with |- context [?c >? ?l] => destruct (Z.gtb_spec c l) end; lia.
  - now rewrite execute_healthy.
Qed.

(** C10: after a completed report for a date, a second completed report for
    the same date, at any later reading of the clock, returns the same
    currentStreak and longestStreak and leaves the stored current streak,
    longest streak and last activity date as they are. *)
Theorem updateUserStreak_same_day_idempotent (now now' userId : Z)
  (activityType : string) (date : Z) (t : Tables) :
  let first := updateUserStreak now userId activityType date true (healthy t) in
  let second := updateUserStreak now' userId activityType date true (snd first) in
  fst second = fst first /\
  storedStreak (userId, activityType) (snd second) =
  storedStreak (userId, activityType) (snd first).
Proof.
  destruct (updateUserStreak_completed now userId activityType date t)
    as (c & l & I & E).
  cbv zeta. rewrite E. cbn [snd].
  rewrite (updateUserStreak_same_day now' userId activityType date _
             {| current_streak := c; longest_streak := l;
                last_activity_date := Some (startOfDay date);
                streak_updated_at := now |}).
  - cbn [fst snd current_streak longest_streak]. split; [reflexivity|].
    unfold storedStreak, write_streak. cbn.
    now rewrite !lookup_insert_eq.
  - unfold write_streak. simpl. apply lookup_insert_eq.
  - reflexivity.
  - exact I.
Qed.

Example updateUserStreak_twice_same_day :
  let t := set_user_streaks
             {[ (1, "water") := {| current_streak := 4; longest_streak := 9;
                                   last_activity_date := Some (day 19000);
                                   streak_updated_at := day 19000 |} ]} emptyTables in
  let first := updateUserStreak (day 19001 + 1) 1 "water" (day 19001) true (healthy t) in
  let second := updateUserStreak (day 19001 + 2) 1 "water" (day 19001) true (snd first) in
  fst first = Resolved (Success {| sd_currentStreak := 5; sd_longestStreak := 9;
                                   sd_lastActivityDate := Some (day 19001) |}) /\
  fst second = fst first.
Proof. vm_compute. split; reflexivity. Qed.

(** ** Failures of the store *)

(** C9, as stated, fails for the streak operations: when the query of
    [updateUserStreak] fails, the call does not reject; it resolves to
    [{success: false, error: 'Failed to update streak'}]. *)
Lemma updateUserStreak_does_not_reject :
  ~ exists e : string,
      fst (updateUserStreak (day 19001) 1 "water" (day 19001) true
             (failing emptyTables [])) = Rejected e.
Proof. intros [e H]. discriminate H. Qed.

(** *** Operations without a handler propagate *)

Lemma propagates_ret {A} (post : A -> Prop) (a : A) :
  post a -> propagates_failure post (ret a).
Proof. intros P db. left. exists a. simpl. auto. Qed.

Lemma propagates_pool_query {A} (q : Tables -> A * Tables) :
  propagates_failure (fun _ => True) (pool_query q).
Proof.
  intros db. unfold pool_query.
  destruct (faults db) as [|[|] fs]; try destruct (q (tables db)); simpl; eauto.
Qed.

Lemma propagates_select {A} (q : Tables -> A) :
  propagates_failure (fun _ => True) (select q).
Proof. apply propagates_pool_query. Qed.

Lemma propagates_execute (f : Tables -> Tables) :
  propagates_failure (fun _ => True) (execute f).
Proof. apply propagates_pool_query. Qed.

Lemma propagates_bind {A B} (post : B -> Prop) (m : Async A) (k : A -> Async B) :
  propagates_failure (fun _ => True) m ->
  (forall a, propagates_failure post (k a)) ->
  propagates_failure post (bind m k).
Proof.
  intros Hm Hk db. unfold bind.
  destruct (Hm db) as [(a & E & _ & R)|[E R]];
    destruct (m db) as [[a'|e] db1]; simpl in *; try discriminate.
  - injection E as ->. rewrite <- R. apply Hk.
  - right. injection E as ->. auto.
Qed.

Lemma propagates_weaken {A} (post : A -> Prop) (m : Async A) :
  propagates_failure post m -> propagates_failure (fun _ => True) m.
Proof.
  intros H db. destruct (H db) as [(a & E & _ & R)|[E R]]; [left|right]; eauto.
Qed.

(** Follow the structure of an operation: sequencing, queries, results and
    case distinctions. *)
Ltac propagate :=
  repeat first
    [ match goal with
      | H : context [propagates_failure] |- propagates_failure _ _ => apply H
      end
    | apply propagates_select
    | apply propagates_execute
    | apply propagates_ret; exact I
    | apply propagates_bind; [|intros]
    | match goal with
      | |- propagates_failure _ (if ?b then _ else _) => destruct b
      | |- propagates_failure _ (match ?x with _ => _ end) => destruct x
      | |- propagates_failure _ (let '(_, _) := ?x in _) => destruct x
      end ].

Lemma propagates_getCurrentMetricValue (now userId : Z) (metric type : string) :
  propagates_failure (fun _ => True) (getCurrentMetricValue now userId metric type).
Proof. unfold getCurrentMetricValue. propagate. Qed.

Lemma propagates_checkGoalAchievements_loop (now userId : Z) (goals : list GoalRow) :
  forall achievedGoals,
    propagates_failure (fun _ => True)
      (checkGoalAchievements_loop now userId goals achievedGoals).
Proof.
  induction goals as [|goal rest IH]; intros acc; simpl.
  - propagate.
  - apply propagates_bind; [apply propagates_getCurrentMetricValue|intros cv].
    destruct (Js.ge (Js.num cv) (Js.parseFloat (g_target goal))); [|apply IH].
    unfold recordGoalAchievement. propagate.
Qed.

Lemma propagates_checkGoalAchievements (now userId : Z) :
  propagates_failure (fun _ => True) (checkGoalAchievements now userId).
Proof.
  unfold checkGoalAchievements. propagate.
  apply propagates_checkGoalAchievements_loop.
Qed.

Lemma propagates_getDailyMetricValues (now userId : Z) (metric : string) (days : Z) :
  propagates_failure (fun _ => True) (getDailyMetricValues now userId metric days).
Proof. unfold getDailyMetricValues. propagate. Qed.

Lemma propagates_calculateGoalStreak (now userId : Z) (metric type : string) :
  propagates_failure (fun _ => True) (calculateGoalStreak now userId metric type).
Proof.
  unfold calculateGoalStreak. propagate.
  apply propagates_getDailyMetricValues.
Qed.

Lemma propagates_calculateGoalProgress (userId : Z) (metric : string) (currentValue : Q) :
  propagates_failure (fun _ => True) (calculateGoalProgress userId metric currentValue).
Proof. unfold calculateGoalProgress. propagate. Qed.

Lemma propagates_getGoalTrend (now userId : Z) (metric type : string) :
  propagates_failure (fun _ => True) (getGoalTrend now userId metric type).
Proof. unfold getGoalTrend. propagate. Qed.

Lemma propagates_calculateDetailedGoalProgress (now userId : Z) (goal : GoalRow) :
  propagates_failure (fun _ => True) (calculateDetailedGoalProgress now userId goal).
Proof.
  unfold calculateDetailedGoalProgress.
  apply propagates_bind; [apply propagates_getCurrentMetricValue|intros cv].
  apply propagates_bind; [apply propagates_getGoalTrend|intros tr].
  propagate.
Qed.

Lemma propagates_calculateStudyConsistencyPatterns (now userId startDate : Z) :
  propagates_failure (fun _ => True)
    (calculateStudyConsistencyPatterns now userId startDate).
Proof. unfold calculateStudyConsistencyPatterns. propagate. Qed.

Lemma propagates_getPreviousPeriodComparison (now userId : Z) (column : Column)
  (currentStartDate : Z) :
  propagates_failure (fun _ => True)
    (getPreviousPeriodComparison now userId column currentStartDate).
Proof. unfold getPreviousPeriodComparison. propagate. Qed.

Lemma propagates_when_requested {A} (requestedMetrics : list string) (name : string)
  (get : Async A) :
  propagates_failure (fun _ => True) get ->
  propagates_failure (fun _ => True) (when_requested requestedMetrics name get).
Proof. intros H. unfold when_requested. propagate. Qed.

Lemma propagates_countDataPoints (userId startDate : Z) (requestedMetrics : list string) :
  forall total,
    propagates_failure (fun _ => True)
      (countDataPoints userId startDate requestedMetrics total).
Proof.
  induction requestedMetrics as [|metric rest IH]; intros total; simpl.
  - propagate.
  - destruct (summary_column metric); [|apply IH]. propagate.
Qed.

Lemma propagates_aggregateHealthData (now later userId days : Z)
  (metrics : option (list string)) :
  propagates_failure (fun _ => True) (aggregateHealthData now later userId days metrics).
Proof.
  pose proof propagates_getPreviousPeriodComparison as P.
  pose proof propagates_calculateGoalProgress as G.
  unfold aggregateHealthData.
  repeat (apply propagates_bind;
          [apply propagates_when_requested|intros]).
  - unfold getWaterIntakeAnalytics. propagate.
  - unfold getExerciseAnalytics. propagate.
  - unfold getPeriodAnalytics. propagate.
  - unfold getConstipationAnalytics. propagate.
  - unfold getKriyaAnalytics, calculateConsistencyRate. propagate.
  - unfold getTypingAnalytics. propagate.
  - apply propagates_bind; [|intros; propagate].
    unfold getHealthSummary. propagate. apply propagates_countDataPoints.
Qed.

Lemma propagates_calculateEducationProgress (now later userId days : Z)
  (subjectCodes : option (list string)) :
  propagates_failure (fun _ => True)
    (calculateEducationProgress now later userId days subjectCodes).
Proof.
  pose proof propagates_getPreviousPeriodComparison as P.
  pose proof propagates_calculateGoalProgress as G.
  pose proof propagates_calculateStudyConsistencyPatterns as C.
  unfold calculateEducationProgress, getSubjectProgress, getStudyHoursAnalytics,
    getTaskCompletionAnalytics, getUnitProgress, getStudyPatternAnalysis,
    getEducationSummary, query_unread.
  propagate.
Qed.

Lemma propagates_generateInsights (this : DomainAnalyzers) (clock : Readings)
  (userId : Z) :
  propagates_failure (fun _ => True) (generateInsights this clock userId).
Proof.
  unfold generateInsights.
  apply propagates_bind; [apply propagates_aggregateHealthData|intros h].
  apply propagates_bind; [apply propagates_calculateEducationProgress|intros e].
  propagate.
Qed.

(** *** The streak operations catch *)

Lemma catches_try_catch {A} (message : string) (m : Async (ServiceResult A)) :
  propagates_failure (fun r => exists a, r = Success a) m ->
  catches_failure message (try_catch m (fun _ => ret (Failure message))).
Proof.
  intros H db. unfold try_catch.
  destruct (H db) as [(r & E & (a & ->) & R)|[E R]];
    destruct (m db) as [[r'|e] db1]; simpl in *; try discriminate.
  - left. injection E as ->. eauto.
  - right. auto.
Qed.

Lemma propagates_success {A} (a : A) :
  propagates_failure (fun r => exists a', r = Success a') (ret (Success a)).
Proof. apply propagates_ret. eauto. Qed.

Ltac propagate_success :=
  repeat first
    [ apply propagates_select
    | apply propagates_execute
    | apply propagates_success
    | apply propagates_ret; exact I
    | apply propagates_bind; [|intros]
    | match goal with
      | |- propagates_failure _ (if ?b then _ else _) => destruct b
      | |- propagates_failure _ (match ?x with _ => _ end) => destruct x
      end ].

Lemma catches_updateUserStreak (now userId : Z) (activityType : string) (date : Z)
  (isCompleted : bool) :
  catches_failure "Failed to update streak"
    (updateUserStreak now userId activityType date isCompleted).
Proof.
  unfold updateUserStreak. apply catches_try_catch.
  apply propagates_bind; [apply propagates_select|intros streakResult].
  destruct isCompleted.
  - propagate_success.
  - destruct streakResult as [streak|]; [|apply propagates_success].
    destruct (last_activity_date streak); [|apply propagates_success].
    propagate_success.
Qed.

Lemma catches_getUserStreak (userId : Z) (activityType : string) :
  catches_failure "Failed to get streak" (getUserStreak userId activityType).
Proof. unfold getUserStreak. apply catches_try_catch. propagate_success. Qed.

Lemma catches_resetUserStreak (now userId : Z) (activityType : string) :
  catches_failure "Failed to reset streak" (resetUserStreak now userId activityType).
Proof. unfold resetUserStreak. apply catches_try_catch. propagate_success. Qed.

(** C9, amended: whichever query the store rejects, the analytics
    operations reject with that failure, without issuing a further query
    and without resolving to a result; the three streak operations catch
    it and resolve to [{success: false, error}] with their own message, and
    resolve to a success only when no query was rejected. *)
Theorem query_failure_outcomes (this : DomainAnalyzers) (now later userId : Z)
  (clock : Readings) (metric type activityType : string) (date : Z)
  (isCompleted : bool) (currentValue : Q) (startDate : Z) (goal : GoalRow)
  (days : Z) (metrics subjectCodes : option (list string)) :
  propagates_failure (fun _ => True) (checkGoalAchievements now userId) /\
  propagates_failure (fun _ => True) (calculateGoalStreak now userId metric type) /\
  propagates_failure (fun _ => True) (calculateGoalProgress userId metric currentValue) /\
  propagates_failure (fun _ => True) (calculateDetailedGoalProgress now userId goal) /\
  propagates_failure (fun _ => True)
    (calculateStudyConsistencyPatterns now userId startDate) /\
  propagates_failure (fun _ => True)
    (aggregateHealthData now later userId days metrics) /\
  propagates_failure (fun _ => True)
    (calculateEducationProgress now later userId days subjectCodes) /\
  propagates_failure (fun _ => True) (generateInsights this clock userId) /\
  catches_failure "Failed to update streak"
    (updateUserStreak now userId activityType date isCompleted) /\
  catches_failure "Failed to get streak" (getUserStreak userId activityType) /\
  catches_failure "Failed to reset streak" (resetUserStreak now userId activityType).
Proof.
  repeat split.
  - apply propagates_checkGoalAchievements.
  - apply propagates_calculateGoalStreak.
  - apply propagates_calculateGoalProgress.
  - apply propagates_calculateDetailedGoalProgress.
  - apply propagates_calculateStudyConsistencyPatterns.
  - apply propagates_aggregateHealthData.
  - apply propagates_calculateEducationProgress.
  - apply propagates_generateInsights.
  - apply catches_updateUserStreak.
  - apply catches_getUserStreak.
  - apply catches_resetUserStreak.
Qed.

(** When the first query is rejected. *)
Example first_query_rejected (this : DomainAnalyzers) (now userId : Z)
  (clock : Readings) (activityType : string) (date : Z) (isCompleted : bool) (t : Tables) (fs : list bool) :
  let db := failing t fs in
  fst (checkGoalAchievements now userId db) = Rejected queryError /\
  fst (generateInsights this clock userId db) = Rejected queryError /\
  fst (updateUserStreak now userId activityType date isCompleted db) =
    Resolved (Failure "Failed to update streak") /\
  fst (getUserStreak userId activityType db) =
    Resolved (Failure "Failed to get streak") /\
  fst (resetUserStreak now userId activityType db) =
    Resolved (Failure "Failed to reset streak").
Proof. cbv zeta. repeat split; reflexivity. Qed.

(** A failure of a later query is propagated as well: the store rejects the
    UPDATE of the achieved goal, the call rejects, and the goal stays
    active. *)
Example checkGoalAchievements_rejected_update :
  let t := set_user_goals [waterGoal 1 1 1900 (day 19000)] waterTables in
  let run := checkGoalAchievements (day 19005) 1
               {| tables := t; faults := [false; false; true]; rejected := 0 |} in
  fst run = Rejected queryError /\ tables (snd run) = t.
Proof. vm_compute. split; reflexivity. Qed.

(** ** GoalTracker: achievements *)

(** Split on the name of the metric, one comparison after the other. *)
Ltac case_metric :=
  repeat match goal with
         | |- context [if String.eqb ?a ?b then _ else _] => destruct (String.eqb a b)
         end.

Lemma getCurrentMetricValue_healthy (now userId : Z) (metric type : string) (t : Tables) :
  exists v, getCurrentMetricValue now userId metric type (healthy t) =
            (Resolved v, healthy t).
Proof.
  unfold getCurrentMetricValue.
  case_metric;
    try (unfold bind; rewrite select_healthy; eexists; reflexivity).
  eexists; reflexivity.
Qed.

Lemma getCurrentMetricValue_metricValue (now userId : Z) (t : Tables) (goal : GoalRow) :
  getCurrentMetricValue now userId (g_metric goal) (g_type goal) (healthy t) =
  (Resolved (metricValue now userId t goal), healthy t).
Proof.
  unfold metricValue.
  destruct (getCurrentMetricValue_healthy now userId (g_metric goal) (g_type goal) t)
    as [v E].
  now rewrite E.
Qed.

(** The metric value reads neither the goals nor the achievements. *)
Lemma metricValue_markAchieved (now userId : Z) (t : Tables) (g goal : GoalRow) :
  metricValue now userId (markAchieved now userId t g) goal =
  metricValue now userId t goal.
Proof.
  unfold metricValue, getCurrentMetricValue.
  case_metric;
    try (unfold bind; rewrite !select_healthy; reflexivity).
  reflexivity.
Qed.

Lemma meetsTarget_markAchieved (now userId : Z) (t : Tables) (g : GoalRow) :
  forall goal, meetsTarget now userId (markAchieved now userId t g) goal =
               meetsTarget now userId t goal.
Proof. intros goal. unfold meetsTarget. now rewrite metricValue_markAchieved. Qed.

Lemma achievedGoal_markAchieved (now userId : Z) (t : Tables) (g : GoalRow) :
  forall goal, achievedGoal now userId (markAchieved now userId t g) goal =
               achievedGoal now userId t goal.
Proof. intros goal. unfold achievedGoal. now rewrite metricValue_markAchieved. Qed.

(** The loop on a store that answers: the goals that meet their target are
    marked one after the other and returned in order. *)
Lemma checkGoalAchievements_loop_healthy (now userId : Z) (goals : list GoalRow) :
  forall (t : Tables) (achievedGoals : list AchievedGoal),
    checkGoalAchievements_loop now userId goals achievedGoals (healthy t) =
    (Resolved (achievedGoals ++
                 map (achievedGoal now userId t) (filter (meetsTarget now userId t) goals)),
     healthy (fold_left (markAchieved now userId)
                (filter (meetsTarget now userId t) goals) t)).
Proof.
  induction goals as [|goal rest IH]; intros t acc.
  - simpl. unfold ret. now rewrite app_nil_r.
  - cbn [checkGoalAchievements_loop filter].
    rewrite (bind_resolved _ _ _ _ _ (getCurrentMetricValue_metricValue now userId t goal)).
    fold (meetsTarget now userId t goal).
    destruct (meetsTarget now userId t goal) eqn:M.
    + unfold recordGoalAchievement.
      rewrite (bind_resolved _ _ _ _ _ (execute_healthy _ t)).
      rewrite (bind_resolved _ _ _ _ _ (execute_healthy _ _)).
      fold (markAchieved now userId t goal).
      rewrite IH.
      rewrite (filter_ext _ _ (meetsTarget_markAchieved now userId t goal)).
      rewrite (map_ext _ _ (achievedGoal_markAchieved now userId t goal)).
      cbn [map fold_left]. now rewrite <- app_assoc.
    + apply IH.
Qed.


(** A goal still active after the marking was there before, unchanged, and
    is none of the marked goals. *)
Lemma active_after_marking (now userId : Z) (l : list GoalRow) :
  forall t g,
    In g (user_goals (fold_left (markAchieved now userId) l t)) ->
    is_active g = true ->
    In g (user_goals t) /\ ~ In (g_id g) (map g_id l).
Proof.
  induction l as [|g0 l IH]; intros t g Hin Hact; simpl in *; [tauto|].
  destruct (IH _ _ Hin Hact) as [Hin' Hnot].
  unfold markAchieved, update_goal_status in Hin'. simpl in Hin'.
  apply in_map_iff in Hin' as (g1 & Hg & Hin1).
  destruct (g_id g1 =? g_id g0) eqn:I.
  - subst g. discriminate Hact.
  - subst g1. apply Z.eqb_neq in I. split; [exact Hin1|].
    intros [H|H]; [congruence|contradiction].
Qed.

Lemma filter_none {A : Type} (p : A -> bool) (l : list A) :
  (forall x, In x l -> p x = false) -> filter p l = [].
Proof.
  induction l as [|x l IH]; intros H; simpl; [reflexivity|].
  rewrite (H x) by now left. apply IH. intros y Hy. apply H. now right.
Qed.

(** The call on a store that answers. *)
Lemma checkGoalAchievements_healthy (now userId : Z) (t : Tables) :
  let activeGoals :=
    filter (fun g => (g_user_id g =? userId) && is_active g) (user_goals t) in
  let marked := filter (meetsTarget now userId t) activeGoals in
  checkGoalAchievements now userId (healthy t) =
  (Resolved (map (achievedGoal now userId t) marked),
   healthy (fold_left (markAchieved now userId) marked t)).
Proof.
  cbv zeta. unfold checkGoalAchievements.
  rewrite (bind_resolved _ _ _ _ _ (select_healthy _ t)).
  now rewrite checkGoalAchievements_loop_healthy.
Qed.


(** What the first call does: each goal it returns was active and met its
    target with the value returned, no row with its id is active afterwards,
    and one achievement row is written for each. *)
Lemma checkGoalAchievements_effect (now userId : Z) (t : Tables) :
  exists achieved t',
    checkGoalAchievements now userId (healthy t) = (Resolved achieved, healthy t') /\
    length (goal_achievements t') =
      (length (goal_achievements t) + length achieved)%nat /\
    forall a, In a achieved ->
      In (ag_goal a) (user_goals t) /\
      g_status (ag_goal a) = active /\
      Js.ge (Js.num (ag_achievedValue a)) (Js.parseFloat (g_target (ag_goal a))) = true /\
      forall g, In g (user_goals t') -> g_id g = g_id (ag_goal a) ->
                is_active g = false.
Proof.
  pose proof (checkGoalAchievements_healthy now userId t) as E. cbv zeta in E.
  set (activeGoals := filter (fun g => (g_user_id g =? userId) && is_active g) (user_goals t)) in *.
  set (marked := filter (meetsTarget now userId t) activeGoals) in *.
  exists (map (achievedGoal now userId t) marked),
         (fold_left (markAchieved now userId) marked t).
  split; [exact E|]. split.
  - rewrite length_map. clear E. generalize t. induction marked as [|g l IH]; intros t0.
    + simpl. lia.
    + cbn [fold_left]. rewrite IH. unfold markAchieved. simpl.
      rewrite length_app. simpl. lia.
  - intros a Ha. apply in_map_iff in Ha as (g0 & <- & Hg0).
    pose proof Hg0 as Hmarked.
    unfold marked in Hg0. apply filter_In in Hg0 as [Hact M].
    unfold activeGoals in Hact. apply filter_In in Hact as [Hin Hua].
    apply andb_true_iff in Hua as [_ Hst].
    cbn [achievedGoal ag_goal ag_achievedValue].
    split; [exact Hin|]. split.
    { unfold is_active in Hst. now destruct (g_status g0). }
    split; [exact M|].
    intros g Hg Hid.
    destruct (is_active g) eqn:A; [exfalso|reflexivity].
    destruct (active_after_marking now userId marked t g Hg A) as [_ Hnot].
    apply Hnot. rewrite Hid. now apply in_map.
Qed.

Example checkGoalAchievements_twice :
  let t := set_user_goals [waterGoal 1 1 1900 (day 19000); waterGoal 2 1 2500 (day 19000)]
             waterTables in
  let first := checkGoalAchievements (day 19005) 1 (healthy t) in
  fst first =
    Resolved [{| ag_goal := waterGoal 1 1 1900 (day 19000);
                 ag_achievedValue := 1975; ag_achievedAt := day 19005 |}] /\
  map g_status (user_goals (tables (snd first))) = [completed; active] /\
  fst (checkGoalAchievements (day 19005) 1 (snd first)) = Resolved [].
Proof. vm_compute. repeat split; reflexivity. Qed.

(** ** GoalTracker: progress *)

Lemma sum_nonneg (l : list Q) (a : Q) :
  Forall (fun v => 0 <= v)%Q l -> (0 <= a)%Q -> (0 <= fold_left Qplus l a)%Q.
Proof.
  intros F. revert a. induction F as [|x l Hx _ IH]; intros a Ha; simpl; [exact Ha|].
  apply IH. lra.
Qed.

Lemma div_nonneg (a b : Q) : (0 <= a)%Q -> (0 <= b)%Q -> (0 <= a / b)%Q.
Proof.
  intros Ha Hb. destruct (Qle_lt_or_eq _ _ Hb) as [P|E].
  - apply Qle_shift_div_l; [exact P|]. now rewrite Qmult_0_l.
  - rewrite <- E. unfold Qdiv, Qinv. simpl. rewrite Qmult_0_r. apply Qle_refl.
Qed.

Lemma len_nonneg {A} (l : list A) : (0 <= Js.len l)%Q.
Proof.
  unfold Js.len. change 0%Q with (inject_Z 0). rewrite <- Zle_Qle. lia.
Qed.

Lemma round_nonneg (x : Q) : (0 <= x)%Q -> 0 <= Js.round x.
Proof. intros H. apply JsFacts.round_ge. change (inject_Z 0) with 0%Q. lra. Qed.

Lemma rounded_or_zero_nonneg (l : list Q) :
  Forall (fun v => 0 <= v)%Q l -> 0 <= rounded_or_zero (sql_avg l).
Proof.
  intros F. destruct l as [|x l]; [reflexivity|].
  unfold sql_avg, rounded_or_zero, Js.parseFloat.
  apply round_nonneg, JsFacts.fl_nonneg, div_nonneg.
  - apply sum_nonneg; [exact F|]. lra.
  - apply (len_nonneg (x :: l)).
Qed.

Lemma Forall_map_filter {A : Type} (f : A -> Q) (p : A -> bool) (l : list A) :
  Forall (fun x => 0 <= f x)%Q l -> Forall (fun v => 0 <= v)%Q (map f (filter p l)).
Proof.
  induction 1 as [|x l Hx _ IH]; simpl; [constructor|].
  destruct (p x); simpl; [constructor|]; assumption.
Qed.

Lemma inject_Z_nonneg (z : Z) : 0 <= z -> (0 <= inject_Z z)%Q.
Proof. intros H. change 0%Q with (inject_Z 0). now rewrite <- Zle_Qle. Qed.

(** The current value of a metric is not negative when the logs are not. *)
Lemma metricValue_nonneg (now userId : Z) (t : Tables) (goal : GoalRow) :
  nonnegative_logs t -> 0 <= metricValue now userId t goal.
Proof.
  intros (W & E & S). unfold metricValue, getCurrentMetricValue.
  case_metric;
    try (unfold bind; rewrite select_healthy; cbn [fst ret]).
  - apply rounded_or_zero_nonneg, Forall_map_filter.
    eapply Forall_impl; [|exact W]. intros r. apply inject_Z_nonneg.
  - apply rounded_or_zero_nonneg, Forall_map_filter.
    eapply Forall_impl; [|exact E]. intros r. apply inject_Z_nonneg.
  - apply rounded_or_zero_nonneg, Forall_map_filter. exact S.
  - unfold sql_count. lia.
  - apply rounded_or_zero_nonneg, Forall_map_filter, Forall_forall.
    intros r _. destruct (t_completed r); lra.
  - apply rounded_or_zero_nonneg, Forall_map_filter, Forall_forall.
    intros r _. destruct (c_status r); lra.
  - apply rounded_or_zero_nonneg, Forall_map_filter, Forall_forall.
    intros r _. destruct (task_completed r); lra.
  - simpl. lia.
Qed.


Lemma gt_zero_inv (x : Q) : Js.gt x 0 = true -> (0 < x)%Q.
Proof.
  unfold Js.gt. intros H. destruct (Qlt_le_dec 0 x) as [P|N]; [exact P|].
  apply Qle_bool_iff in N. rewrite N in H. discriminate H.
Qed.




Lemma getGoalTrend_healthy (now userId : Z) (metric type : string) (t : Tables) :
  exists r, getGoalTrend now userId metric type (healthy t) = (Resolved r, healthy t).
Proof.
  unfold getGoalTrend.
  case_metric;
    unfold bind; rewrite ?select_healthy; eexists; reflexivity.
Qed.


Example calculateGoalProgress_over_target :
  fst (calculateGoalProgress 1 "water_intake" 2600 (healthy waterTables)) =
  Resolved (Some {| gp_goalId := 1; gp_target := 2000; gp_current := 2600;
                    gp_progress := 100; gp_status := achieved |}).
Proof. vm_compute. reflexivity. Qed.

Example calculateGoalProgress_behind :
  fst (calculateGoalProgress 1 "water_intake" 1200 (healthy waterTables)) =
  Resolved (Some {| gp_goalId := 1; gp_target := 2000; gp_current := 1200;
                    gp_progress := 60; gp_status := behind |}).
Proof. vm_compute. reflexivity. Qed.

(** The percentage is the one of JavaScript's numbers: 23 of 40 is
    57.49999999999999 and rounds to 57, and 9.95 of 10 is 99.49999999999999
    and rounds to 99, where the exact values 57.5 and 99.5 round to 58 and
    100. *)
Example uncappedPercentage_23_of_40 : GoalSpec.uncappedPercentage 23 40 = 57.
Proof. vm_compute. reflexivity. Qed.

Example calculateGoalProgress_rounded_operations :
  fst (calculateGoalProgress 1 "water_intake" (995 # 100)
         (healthy (set_user_goals [waterGoal 1 1 10 (day 19000)] waterTables))) =
  Resolved (Some {| gp_goalId := 1; gp_target := 10; gp_current := 995 # 100;
                    gp_progress := 99; gp_status := on_track |}).
Proof. vm_compute. reflexivity. Qed.


(** The same from the store: a logged amount of -100 ml, which the column
    admits, gives the water goal of 2000 ml the progress -5. *)
Example calculateDetailedGoalProgress_negative_log :
  let t := with_water [{| w_user_id := 1; w_date := day 19004; amount_ml := -100 |}]
             waterTables in
  match fst (calculateDetailedGoalProgress (day 19005) 1 (waterGoal 1 1 2000 (day 19000))
               (healthy t)) with
  | Resolved dp => (dp_currentValue dp, dp_progress dp, dp_progressStatus dp)
  | Rejected _ => (0, 0, achieved)
  end = (-100, -5, needs_attention).
Proof. vm_compute. reflexivity. Qed.







Lemma waterTables_nonnegative : nonnegative_logs waterTables.
Proof.
  unfold nonnegative_logs. repeat split; repeat constructor; discriminate.
Qed.


(** ** ConsistencyAnalyzer *)

Example studyConsistency_on_7_january :
  fst (calculateStudyConsistencyPatterns (jan1 + day 6) 1 jan1 (healthy studyTables)) =
  Resolved {| sc_totalDays := 6; sc_studyDays := 5; sc_consistencyRate := finite 83;
              sc_longestStreak := 3; sc_currentStreak := 2;
              sc_averageGapBetweenSessions := 1;
              sc_patterns := patterns_of
                {| totalStreaks := 2; averageStreakLength := 3;
                   totalGaps := 1; longestGap := 1 |} |}.
Proof. vm_compute. reflexivity. Qed.

(** The window opens with the day of [startDate]: a study day of that day
    counts at any time of day of [startDate]. *)
Example studyConsistency_boundary_day :
  exists r,
    fst (calculateStudyConsistencyPatterns (jan1 + day 6) 1 (jan1 + 43200000)
           (healthy studyTables)) = Resolved r /\
    sc_studyDays r = 5.
Proof. eexists. split; [vm_compute; reflexivity|reflexivity]. Qed.

(** When [startDate] is the instant of the clock reading the rate is
    infinite. *)
Example studyConsistency_no_day_elapsed :
  exists r,
    fst (calculateStudyConsistencyPatterns (jan1 + day 5) 1 (jan1 + day 5)
           (healthy studyTables)) = Resolved r /\
    sc_totalDays r = 0 /\ sc_studyDays r = 1 /\ sc_consistencyRate r = plus_infinity.
Proof. eexists. split; [vm_compute; reflexivity|repeat split]. Qed.

(** C5: for the study days 1, 2, 3, 5 and 6 January, whenever the analysis
    runs, the longest streak is 3, there is one gap, of one day, the average
    gap is 1 and there are 2 streaks; for a user without study days from the
    day of [startDate] on the result is the all-zero structure, not an
    error. *)
Theorem studyConsistency_gap_and_empty (now userId startDate : Z) (t : Tables) :
  noStudyDays userId startDate t ->
  (exists r,
      calculateStudyConsistencyPatterns now 1 jan1 (healthy studyTables) =
        (Resolved r, healthy studyTables) /\
      sc_studyDays r = 5 /\
      sc_longestStreak r = 3 /\
      sc_averageGapBetweenSessions r = 1 /\
      sc_patterns r = patterns_of {| totalStreaks := 2; averageStreakLength := 3;
                                     totalGaps := 1; longestGap := 1 |}) /\
  (exists totalDays,
      calculateStudyConsistencyPatterns now userId startDate (healthy t) =
        (Resolved {| sc_totalDays := totalDays; sc_studyDays := 0;
                     sc_consistencyRate := finite 0; sc_longestStreak := 0;
                     sc_currentStreak := 0; sc_averageGapBetweenSessions := 0;
                     sc_patterns := patterns_none |},
         healthy t)).
Proof.
  intros N. split.
  - unfold calculateStudyConsistencyPatterns.
    rewrite (bind_resolved _ _ _ _ _ (select_healthy _ studyTables)).
    match goal with |- context [order_by_asc s_date ?l] =>
      set (rows := order_by_asc s_date l) end.
    vm_compute in rows. subst rows. cbn [map s_date]. cbv beta iota.
    eexists. split; [reflexivity|].
    cbn [sc_studyDays sc_longestStreak sc_averageGapBetweenSessions sc_patterns].
    repeat split; vm_compute; reflexivity.
  - unfold calculateStudyConsistencyPatterns.
    rewrite (bind_resolved _ _ _ _ _ (select_healthy _ t)).
    rewrite (filter_none _ (study_logs t)).
    + eexists. reflexivity.
    + intros r Hr. destruct (s_user_id r =? userId) eqn:U; [|reflexivity].
      apply Z.eqb_eq in U. specialize (N r Hr U). simpl.
      unfold on_or_after. apply Z.leb_gt. exact N.
Qed.

(** The theorem for user 1 and the window that opens at noon of 11 January,
    after the five study days, read at noon of 13 January. *)
Lemma studyConsistency_gap_and_empty_witness :
  noStudyDays 1 (jan1 + day 10 + 43200000) studyTables /\
  exists totalDays,
    calculateStudyConsistencyPatterns (jan1 + day 12 + 43200000) 1
      (jan1 + day 10 + 43200000) (healthy studyTables) =
    (Resolved {| sc_totalDays := totalDays; sc_studyDays := 0;
                 sc_consistencyRate := finite 0; sc_longestStreak := 0;
                 sc_currentStreak := 0; sc_averageGapBetweenSessions := 0;
                 sc_patterns := patterns_none |},
     healthy studyTables).
Proof.
  assert (N : noStudyDays 1 (jan1 + day 10 + 43200000) studyTables).
  { intros r Hr U. simpl in Hr.
    repeat (destruct Hr as [<-|Hr]; [vm_compute; reflexivity|]). contradiction. }
  split; [exact N|].
  exact (proj2 (studyConsistency_gap_and_empty
                  (jan1 + day 12 + 43200000) 1 (jan1 + day 10 + 43200000)
                  studyTables N)).
Defined.

(** ** GoalTracker: streak of a goal *)

(** C2: the code at the example of the claim.  For the daily values 1800,
    1800, 2100 and 2200 against the target 2000, [calculateGoalStreak]
    returns currentStreak 1, where the claim has 2; longestStreak is 2 and
    the last achieved date is the day of the 2200. *)
Theorem calculateGoalStreak_example :
  fst (calculateGoalStreak (day 19005) 1 "water_intake" "health" (healthy waterTables)) =
  Resolved {| gs_currentStreak := 1; gs_longestStreak := 2;
              gs_lastAchievedDate := Some (day 19004) |}.
Proof. vm_compute. reflexivity. Qed.

(** Below the most recent index the loop leaves [currentStreak] alone. *)
Lemma goalStreak_loop_keeps_current (dailyValues : list DailyValue) (target : Q) (n : nat) :
  forall v,
    (n <= length dailyValues - 1)%nat ->
    sv_currentStreak (goalStreak_loop dailyValues target n v) = sv_currentStreak v.
Proof.
  induction n as [|i IH]; intros v H; simpl; [reflexivity|].
  destruct (nth_error dailyValues i) as [dailyValue|]; [|reflexivity].
  rewrite IH by lia. unfold goalStreak_body.
  assert (E : (i =? length dailyValues - 1)%nat = false) by (apply Nat.eqb_neq; lia).
  rewrite E. now destruct (Js.ge (dv_value dailyValue) target).
Qed.

(** [currentStreak] is assigned at the most recent index only, where the
    running streak is 1 at most: whatever the series, it ends as 0 or 1. *)
Lemma goalStreak_current_at_most_1 (dailyValues : list DailyValue) (target : Q) :
  let v := goalStreak_loop dailyValues target (length dailyValues)
             {| sv_currentStreak := 0; sv_longestStreak := 0;
                sv_tempStreak := 0; sv_lastAchievedDate := None |} in
  sv_currentStreak v = 0 \/ sv_currentStreak v = 1.
Proof.
  cbv zeta. destruct (length dailyValues) as [|i] eqn:L; [left; reflexivity|].
  simpl. destruct (nth_error dailyValues i) as [dailyValue|]; [|left; reflexivity].
  rewrite goalStreak_loop_keeps_current by lia.
  unfold goalStreak_body. rewrite L.
  assert (E : (i =? S i - 1)%nat = true) by (apply Nat.eqb_eq; lia).
  rewrite E. destruct (Js.ge (dv_value dailyValue) target); simpl; auto.
Qed.

(** ** InsightEngine: users without data *)

(** On the objects [{}] the stages produce nothing. *)
Lemma stages_on_empty_objects (this : DomainAnalyzers) (now : Z) :
  generateCrossDomainInsights now emptyHealthData emptyEducationData =
    {| cd_insights := []; cd_recommendations := [] |} /\
  generateHealthInsights this now emptyHealthData = no_analysis /\
  generateEducationInsights this now emptyEducationData = no_analysis.
Proof. repeat split; reflexivity. Qed.

(** The per-domain stages produce nothing for a sub-object that is absent. *)
Lemma push_analysis_absent {A : Type} (analyze : A -> Analysis) (milestones : bool)
  (acc : Analysis) :
  push_analysis None analyze milestones acc = acc.
Proof. reflexivity. Qed.

(** The objects that [aggregateHealthData] and [calculateEducationProgress]
    build always have keys, so the guard of the cross-domain stage never
    stops it in [generateInsights]. *)
Lemma aggregates_have_keys (now later userId days : Z)
  (metrics subjectCodes : option (list string)) (db db' : Db) :
  (forall h, aggregateHealthData now later userId days metrics db = (Resolved h, db') ->
             (0 < healthData_keys h)%nat) /\
  (forall e, calculateEducationProgress now later userId days subjectCodes db =
               (Resolved e, db') ->
             (0 < educationData_keys e)%nat).
Proof.
  split.
  - intros h. unfold aggregateHealthData, bind.
    repeat match goal with
           | |- context [match ?m with _ => _ end] =>
               destruct m as [[?|?] ?]; try discriminate
           end.
    unfold ret. intros E. injection E as <- _. unfold healthData_keys. simpl. lia.
  - intros e. unfold calculateEducationProgress, bind.
    repeat match goal with
           | |- context [match ?m with _ => _ end] =>
               destruct m as [[?|?] ?]; try discriminate
           end.
    unfold ret. intros E. injection E as <- _. unfold educationData_keys. simpl. lia.
Qed.

(** [generateInsights] once the two aggregates have resolved. *)
Lemma generateInsights_resolved (this : DomainAnalyzers) (clock : Readings) (userId : Z)
  (db db1 db2 : Db) (h : HealthData) (e : EducationData) :
  aggregateHealthData (health_start clock) (health_later clock) userId 30 None db =
    (Resolved h, db1) ->
  calculateEducationProgress (education_start clock) (education_later clock)
    userId 30 None db1 = (Resolved e, db2) ->
  let now := stamp clock in
  exists result,
    generateInsights this clock userId db = (Resolved result, db2) /\
    insights result =
      sortInsightsBySeverity
        (an_insights (generateHealthInsights this now h) ++
         an_insights (generateEducationInsights this now e) ++
         cd_insights (generateCrossDomainInsights now h e)) /\
    recommendations result =
      prioritizeRecommendations
        (an_recommendations (generateHealthInsights this now h) ++
         an_recommendations (generateEducationInsights this now e) ++
         cd_recommendations (generateCrossDomainInsights now h e)).
Proof.
  intros EH EE now. unfold generateInsights.
  rewrite (bind_resolved _ _ _ _ _ EH), (bind_resolved _ _ _ _ _ EE).
  eexists. split; [reflexivity|]. split; reflexivity.
Qed.

(** C6: the code for a user without any record.  On the empty store the
    aggregates resolve to objects with all their keys and zero values; the
    cross-domain stage scores health and productivity 0 and 0 and pushes the
    overall-wellness warning with its recommendation, both of which are in
    the result of [generateInsights], whatever the per-domain analyzers
    return. *)
Theorem generateInsights_empty_store (this : DomainAnalyzers) :
  let clock := noonReadings 19005 in
  let now := stamp clock in
  exists (h : HealthData) (e : EducationData) (i : Insight) (r : Recommendation)
         (result : Insights),
    aggregateHealthData (health_start clock) (health_later clock) 1 30 None
      (healthy emptyTables) = (Resolved h, healthy emptyTables) /\
    calculateEducationProgress (education_start clock) (education_later clock) 1 30 None
      (healthy emptyTables) = (Resolved e, healthy emptyTables) /\
    calculateOverallHealthScore h = 0 /\
    calculateOverallProductivityScore e = 0 /\
    generateCrossDomainInsights now h e =
      {| cd_insights := [i]; cd_recommendations := [r] |} /\
    i_category i = "overall_wellness" /\ i_severity i = warning /\
    i_message i =
      "Both health and academic metrics need attention - they often influence each other" /\
    r_category r = "overall_wellness" /\ r_priority r = high /\
    fst (generateInsights this clock 1 (healthy emptyTables)) = Resolved result /\
    In i (insights result) /\
    In r (recommendations result).
Proof.
  cbv zeta.
  set (clock := noonReadings 19005).
  set (now := stamp clock).
  assert (EH : exists h, aggregateHealthData (health_start clock) (health_later clock)
                           1 30 None (healthy emptyTables) =
                         (Resolved h, healthy emptyTables))
    by (eexists; vm_compute; reflexivity).
  destruct EH as [h EH].
  assert (EE : exists e, calculateEducationProgress (education_start clock)
                           (education_later clock) 1 30 None (healthy emptyTables) =
                         (Resolved e, healthy emptyTables))
    by (eexists; vm_compute; reflexivity).
  destruct EE as [e EE].
  destruct (generateInsights_resolved this clock 1 _ _ _ h e EH EE)
    as (result & ER & EI & ERc).
  fold now in EI, ERc.
  assert (Vh : h = match fst (aggregateHealthData (health_start clock) (health_later clock)
                                1 30 None (healthy emptyTables)) with
                   | Resolved x => x | Rejected _ => emptyHealthData end)
    by now rewrite EH.
  assert (Ve : e = match fst (calculateEducationProgress (education_start clock)
                                (education_later clock) 1 30 None
                                (healthy emptyTables)) with
                   | Resolved x => x | Rejected _ => emptyEducationData end)
    by now rewrite EE.
  vm_compute in Vh. vm_compute in Ve.
  assert (C : exists i r,
             generateCrossDomainInsights now h e =
               {| cd_insights := [i]; cd_recommendations := [r] |} /\
             i_category i = "overall_wellness" /\ i_severity i = warning /\
             i_message i =
               "Both health and academic metrics need attention - they often influence each other" /\
             r_category r = "overall_wellness" /\ r_priority r = high).
  { rewrite Vh, Ve. do 2 eexists. split; [vm_compute; reflexivity|].
    repeat split; reflexivity. }
  destruct C as (i & r & EC & C1 & C2 & C3 & C4 & C5).
  exists h, e, i, r, result.
  split; [exact EH|]. split; [exact EE|].
  split; [rewrite Vh; vm_compute; reflexivity|].
  split; [rewrite Ve; vm_compute; reflexivity|].
  split; [exact EC|].
  do 5 (split; [assumption|]).
  split; [now rewrite ER|]. split.
  - rewrite EI. unfold sortInsightsBySeverity.
    eapply Permutation_in; [apply sort_perm|].
    apply in_or_app. right. apply in_or_app. right. rewrite EC. now left.
  - rewrite ERc. unfold prioritizeRecommendations.
    eapply Permutation_in; [apply sort_perm|].
    apply in_or_app. right. apply in_or_app. right. rewrite EC. now left.
Qed.

(** The same for a user without records in a store that holds the subjects
    and the records of another user. *)
Example crossDomain_for_user_without_records :
  let clock := noonReadings 19005 in
  let now := stamp clock in
  match aggregateHealthData (health_start clock) (health_later clock) 7 30 None
          (healthy sharedTables) with
  | (Resolved h, db) =>
      match calculateEducationProgress (education_start clock) (education_later clock)
              7 30 None db with
      | (Resolved e, _) =>
          (calculateOverallHealthScore h, calculateOverallProductivityScore e,
           map i_category (cd_insights (generateCrossDomainInsights now h e)),
           map i_severity (cd_insights (generateCrossDomainInsights now h e)))
      | _ => (0, 0, [], [])
      end
  | _ => (0, 0, [], [])
  end = (0, 0, ["overall_wellness"], [warning]).
Proof. vm_compute. reflexivity. Qed.

(** * Further properties *)

(** ** Streak service *)

(** X1: on a store that answers, what a completed [updateUserStreak]
    returns is what [getUserStreak] reads back afterwards: the same current
    and longest streak, and as last activity date the day of the date
    reported. *)
Theorem getUserStreak_after_update (now userId : Z) (activityType : string)
  (date : Z) (t : Tables) :
  exists c l : Z,
    fst (updateUserStreak now userId activityType date true (healthy t)) =
      Resolved (Success {| sd_currentStreak := c; sd_longestStreak := l;
                           sd_lastActivityDate := Some date |}) /\
    fst (getUserStreak userId activityType
           (snd (updateUserStreak now userId activityType date true (healthy t)))) =
      Resolved (Success {| sd_currentStreak := c; sd_longestStreak := l;
                           sd_lastActivityDate := Some (startOfDay date) |}).
Proof.
  destruct (updateUserStreak_completed now userId activityType date t)
    as (c & l & _ & E).
  exists c, l. rewrite E. split; [reflexivity|]. cbn [snd].
  unfold getUserStreak, try_catch, bind. rewrite select_healthy.
  unfold write_streak. cbn [tables user_streaks set_user_streaks].
  rewrite lookup_insert_eq. reflexivity.
Qed.

Lemma consistent_after_query (db : Db) :
  streaks_consistent db -> streaks_consistent (after_query db).
Proof. intros H. exact H. Qed.

Lemma consistent_after_rejection (db : Db) :
  streaks_consistent db -> streaks_consistent (after_rejection db).
Proof. intros H. exact H. Qed.

Lemma consistent_write_streak (now : Z) (key : Z * string) (c l d : Z) (db : Db) :
  0 <= c <= l ->
  streaks_consistent db ->
  streaks_consistent (after_write (write_streak now key c l d) db).
Proof.
  intros B H k r. unfold after_write, write_streak. cbn.
  rewrite lookup_insert. destruct (decide (key = k)) as [->|N].
  - intros [= <-]. exact B.
  - apply H.
Qed.

Lemma consistent_write_current (now : Z) (key : Z * string) (db : Db) :
  streaks_consistent db ->
  streaks_consistent (after_write (write_current_streak now key 0) db).
Proof.
  intros H k r. unfold after_write, write_current_streak. cbn.
  rewrite lookup_alter. destruct (decide (key = k)) as [->|N]; [|apply H].
  destruct (user_streaks (tables db) !! k) as [r0|] eqn:L; [|discriminate].
  intros [= <-]. cbn. specialize (H k r0 L). lia.
Qed.

Lemma updateUserStreak_consistent (now userId : Z) (activityType : string) (date : Z)
  (isCompleted : bool) (db : Db) :
  streaks_consistent db ->
  streaks_consistent (snd (updateUserStreak now userId activityType date isCompleted db)).
Proof.
  intros H. unfold updateUserStreak, try_catch, bind.
  destruct (select_cases (fun t => user_streaks t !! (userId, activityType)) db)
    as [E|E]; rewrite E; [|exact H].
  destruct isCompleted.
  - run_execute; cbn [snd ret fst]; [|exact H].
    apply consistent_write_streak; [|exact H].
    destruct (user_streaks (tables db) !! (userId, activityType)) as [r|] eqn:L.
    + pose proof (H _ _ L) as B.
      destruct (last_activity_date r) as [last|].
      * repeat match goal with
               | |- context [if ?b then _ else _] => destruct b eqn:?
               end; try lia;
          repeat match goal with
                 | G : (_ >? _) = _ |- _ => rewrite Z.gtb_ltb in G
                 | G : (_ <? _) = true |- _ => apply Z.ltb_lt in G
                 | G : (_ <? _) = false |- _ => apply Z.ltb_ge in G
                 end; lia.
      * destruct (Z.gtb_spec 1 (longest_streak r)); lia.
    + cbn. lia.
  - destruct (user_streaks (tables db) !! (userId, activityType)) as [r|] eqn:L;
      [|exact H].
    destruct (last_activity_date r) as [last|]; [|exact H].
    match goal with |- context [if ?b then _ else _] => destruct b end; [|exact H].
    run_execute; cbn [snd ret fst]; [|exact H].
    apply consistent_write_current. exact H.
Qed.

Lemma resetUserStreak_consistent (now userId : Z) (activityType : string) (db : Db) :
  streaks_consistent db ->
  streaks_consistent (snd (resetUserStreak now userId activityType db)).
Proof.
  intros H. unfold resetUserStreak, try_catch, bind.
  run_execute; cbn [snd ret fst]; [|exact H].
  apply consistent_write_current. exact H.
Qed.

(** X2: if every stored streak has its current streak between 0 and its
    longest streak, this still holds after any sequence of
    [updateUserStreak] and [resetUserStreak] calls, whichever of their
    queries fail. *)
Theorem streaks_stay_consistent (ops : list StreakOp) (db : Db) :
  streaks_consistent db -> streaks_consistent (run_ops ops db).
Proof.
  unfold run_ops. revert db. induction ops as [|op ops IH]; intros db H; [exact H|].
  cbn [fold_left]. apply IH. destruct op; cbn [run_op].
  - now apply updateUserStreak_consistent.
  - now apply resetUserStreak_consistent.
Qed.

Lemma emptyTables_consistent : streaks_consistent (healthy emptyTables).
Proof. intros key r L. cbn in L. rewrite lookup_empty in L. discriminate. Qed.

(** The theorem on a new store, for three reports on consecutive days, a
    reset and a report a week later. *)
Lemma streaks_stay_consistent_witness :
  streaks_consistent (healthy emptyTables) /\
  streaks_consistent
    (run_ops [StreakUpdate (day 19001) 1 "water" (day 19001) true;
              StreakUpdate (day 19002) 1 "water" (day 19002) true;
              StreakUpdate (day 19003) 1 "water" (day 19003) true;
              StreakReset (day 19003) 1 "water";
              StreakUpdate (day 19010) 1 "water" (day 19010) true]
       (healthy emptyTables)).
Proof.
  split; [exact emptyTables_consistent|].
  apply streaks_stay_consistent. exact emptyTables_consistent.
Defined.

Example streak_history :
  storedStreak (1, "water")
    (run_ops [StreakUpdate (day 19001) 1 "water" (day 19001) true;
              StreakUpdate (day 19002) 1 "water" (day 19002) true;
              StreakUpdate (day 19003) 1 "water" (day 19003) true;
              StreakReset (day 19003) 1 "water";
              StreakUpdate (day 19010) 1 "water" (day 19010) true]
       (healthy emptyTables)) = Some (1, 3, Some (day 19010)).
Proof. vm_compute. reflexivity. Qed.

Lemma startOfDay_div (t : Z) : startOfDay t / msPerDay = t / msPerDay.
Proof.
  rewrite startOfDay_multiple, Z.mul_comm, Z.div_mul; [reflexivity|].
  pose proof msPerDay_pos. lia.
Qed.

(** Only the calendar days count, not the time of day. *)
Lemma daysBetween_calendar (last date : Z) :
  daysBetween (startOfDay last) (startOfDay date) = date / msPerDay - last / msPerDay.
Proof.
  rewrite daysBetween_div, !startOfDay_multiple.
  rewrite <- Z.mul_sub_distr_l, Z.mul_comm, Z.div_mul; [reflexivity|].
  pose proof msPerDay_pos. lia.
Qed.

(** X3: a completed report counts in calendar days from the stored last
    activity date, whatever the times of day: one day later the current
    streak grows by 1, on the same day it stays, and in every other case,
    also for an earlier date, it restarts at 1; the longest streak becomes
    the larger of itself and the new current streak. *)
Theorem updateUserStreak_by_calendar_days (now userId : Z) (activityType : string)
  (date last : Z) (t : Tables) (r : StreakRow) :
  user_streaks t !! (userId, activityType) = Some r ->
  last_activity_date r = Some last ->
  let n := date / msPerDay - last / msPerDay in
  let c := if n =? 1 then current_streak r + 1
           else if n =? 0 then current_streak r else 1 in
  fst (updateUserStreak now userId activityType date true (healthy t)) =
  Resolved (Success {| sd_currentStreak := c;
                       sd_longestStreak := Z.max (longest_streak r) c;
                       sd_lastActivityDate := Some date |}).
Proof.
  intros L D n c. unfold updateUserStreak, try_catch, bind.
  rewrite select_healthy. cbv beta iota. rewrite L. cbv beta iota. rewrite D.
  cbv beta iota. rewrite daysBetween_calendar. fold n. fold c.
  rewrite execute_healthy. cbn [fst ret]. do 3 f_equal.
  destruct (Z.gtb_spec c (longest_streak r)); lia.
Qed.

(** The theorem for a row of streak 4 last dated on day 19000 and a report
    at 20:00 of the next day. *)
Lemma updateUserStreak_by_calendar_days_witness :
  let r := {| current_streak := 4; longest_streak := 4;
              last_activity_date := Some (day 19000);
              streak_updated_at := day 19000 |} in
  let t := set_user_streaks {[ (1, "kriya") := r ]} emptyTables in
  user_streaks t !! (1, "kriya") = Some r /\
  fst (updateUserStreak (day 19002) 1 "kriya" (day 19001 + 72000000) true (healthy t)) =
  Resolved (Success {| sd_currentStreak := 5; sd_longestStreak := 5;
                       sd_lastActivityDate := Some (day 19001 + 72000000) |}).
Proof.
  cbv zeta. split; [reflexivity|].
  exact (updateUserStreak_by_calendar_days (day 19002) 1 "kriya"
           (day 19001 + 72000000) (day 19000)
           (set_user_streaks
              {[ (1, "kriya") := {| current_streak := 4; longest_streak := 4;
                                    last_activity_date := Some (day 19000);
                                    streak_updated_at := day 19000 |} ]} emptyTables)
           {| current_streak := 4; longest_streak := 4;
              last_activity_date := Some (day 19000);
              streak_updated_at := day 19000 |}
           eq_refl eq_refl).
Defined.

Lemma counters_kept_refl (o : option StreakRow) : counters_kept o o.
Proof. destruct o; cbn; auto. Qed.

Lemma counters_kept_write_current (now : Z) (key k : Z * string) (db : Db) :
  counters_kept (user_streaks (tables db) !! k)
    (user_streaks (tables (after_write (write_current_streak now key 0) db)) !! k).
Proof.
  unfold after_write, write_current_streak. cbn.
  rewrite lookup_alter. destruct (decide (key = k)) as [->|N];
    [|apply counters_kept_refl].
  destruct (user_streaks (tables db) !! k); cbn; auto.
Qed.

(** X4: a report of an activity that was not completed, whichever query
    fails, creates no streak row and changes neither the longest streak nor
    the last activity date of any row; the current streak stays or is set
    to 0. *)
Theorem uncompleted_report_keeps_counters (now userId : Z) (activityType : string)
  (date : Z) (db : Db) (k : Z * string) :
  counters_kept (user_streaks (tables db) !! k)
    (user_streaks
       (tables (snd (updateUserStreak now userId activityType date false db))) !! k).
Proof.
  unfold updateUserStreak, try_catch, bind.
  destruct (select_cases (fun t => user_streaks t !! (userId, activityType)) db)
    as [E|E]; rewrite E; [|apply counters_kept_refl].
  cbv beta iota.
  destruct (user_streaks (tables db) !! (userId, activityType)) as [r|] eqn:L;
    [|apply counters_kept_refl].
  destruct (last_activity_date r) as [last|]; [|apply counters_kept_refl].
  match goal with |- context [if ?b then _ else _] => destruct b end;
    [|apply counters_kept_refl].
  run_execute; cbn [snd ret fst]; [|apply counters_kept_refl].
  apply (counters_kept_write_current now (userId, activityType) k (after_query db)).
Qed.

(** X5: [resetUserStreak] reports success whether or not a row exists,
    creates none, and [getUserStreak] afterwards reads current streak 0 with
    the longest streak and last activity date as they were. *)
Theorem resetUserStreak_then_get (now userId : Z) (activityType : string) (t : Tables) :
  let reset := resetUserStreak now userId activityType (healthy t) in
  fst reset = Resolved (Success "Streak reset successfully") /\
  counters_kept (user_streaks t !! (userId, activityType))
    (user_streaks (tables (snd reset)) !! (userId, activityType)) /\
  fst (getUserStreak userId activityType (snd reset)) =
  Resolved (Success
    match user_streaks t !! (userId, activityType) with
    | Some r => {| sd_currentStreak := 0; sd_longestStreak := longest_streak r;
                   sd_lastActivityDate := last_activity_date r |}
    | None => {| sd_currentStreak := 0; sd_longestStreak := 0;
                 sd_lastActivityDate := None |}
    end).
Proof.
  cbv zeta. unfold resetUserStreak, try_catch, bind.
  rewrite execute_healthy. cbn [fst snd ret]. split; [reflexivity|]. split.
  - apply (counters_kept_write_current now (userId, activityType)
             (userId, activityType) (healthy t)).
  - unfold getUserStreak, try_catch, bind. rewrite select_healthy.
    unfold write_current_streak. cbn [user_streaks set_user_streaks].
    rewrite lookup_alter_eq.
    destruct (user_streaks t !! (userId, activityType)); reflexivity.
Qed.

(** X6: a call of the streak service for one (user, activityType) leaves
    the row of every other one as it is, whichever query fails. *)
Theorem streak_operation_frame (op : StreakOp) (db : Db) (k : Z * string) :
  k <> op_key op ->
  user_streaks (tables (run_op db op)) !! k = user_streaks (tables db) !! k.
Proof.
  intros N. destruct op as [now u a d c|now u a]; cbn [run_op op_key] in *.
  - unfold updateUserStreak, try_catch, bind.
    destruct (select_cases (fun t => user_streaks t !! (u, a)) db)
      as [E|E]; rewrite E; [|reflexivity].
    cbv beta iota. destruct c.
    + run_execute; cbn [snd ret fst]; [|reflexivity].
      unfold after_write, write_streak. cbn. now rewrite lookup_insert_ne.
    + destruct (user_streaks (tables db) !! (u, a)) as [r|]; [|reflexivity].
      destruct (last_activity_date r) as [last|]; [|reflexivity].
      match goal with |- context [if ?b then _ else _] => destruct b end;
        [|reflexivity].
      run_execute; cbn [snd ret fst]; [|reflexivity].
      unfold after_write, write_current_streak. cbn. now rewrite lookup_alter_ne.
  - unfold resetUserStreak, try_catch, bind.
    run_execute; cbn [snd ret fst]; [|reflexivity].
    unfold after_write, write_current_streak. cbn. now rewrite lookup_alter_ne.
Qed.

(** The theorem for a report of user 1 and the row of user 2. *)
Lemma streak_operation_frame_witness :
  let r := {| current_streak := 4; longest_streak := 9;
              last_activity_date := Some (day 19000);
              streak_updated_at := day 19000 |} in
  let db := healthy (set_user_streaks {[ (2, "water") := r ]} emptyTables) in
  let op := StreakUpdate (day 19001) 1 "water" (day 19001) true in
  (2, "water") <> op_key op /\
  user_streaks (tables (run_op db op)) !! (2, "water") = Some r.
Proof.
  cbv zeta. split; [discriminate|].
  rewrite streak_operation_frame by discriminate. reflexivity.
Defined.

(** ** TrendAnalyzer *)

Lemma positive_iff (a : Q) : TrendSpec.positive a = true <-> (0 < a)%Q.
Proof.
  unfold TrendSpec.positive. destruct (Qle_bool a 0) eqn:L; simpl.
  - apply Qle_bool_iff in L. split; [discriminate|]. intros H. lra.
  - split; [intros _|reflexivity].
    destruct (Qlt_le_dec 0 a) as [P|N]; [exact P|].
    apply Qle_bool_iff in N. congruence.
Qed.

(** X8: on values that are not negative the percentage is never below
    -100, and it is 0 with a stable trend when the first half is all
    zero. *)
Theorem calculateTrend_nonneg_bound (values : list Q) :
  Forall (fun v => 0 <= v)%Q values ->
  -100 <= percentage (calculateTrend values) /\
  (TrendSpec.avg (firstn (length values / 2) values) == 0 ->
   (2 <= length values)%nat ->
   calculateTrend values = {| trend := stable; percentage := 0 |})%Q.
Proof.
  intros NN. rewrite calculateTrend_trend_of. unfold TrendSpec.trend_of.
  set (fh := firstn (length values / 2) values).
  set (sh := skipn (length values / 2) values).
  split.
  - destruct (length values <? 2)%nat; [simpl; lia|].
    destruct (TrendSpec.positive (TrendSpec.avg fh)) eqn:P; [|simpl; lia].
    apply positive_iff in P. cbn [percentage].
    assert (A2 : (0 <= TrendSpec.avg sh)%Q)
      by (apply avg_nonneg; unfold sh; now apply Forall_drop).
    apply JsFacts.round_ge. change (inject_Z (-100)) with (-100)%Q.
    assert (F : (0 < Js.fl (TrendSpec.avg fh))%Q).
    { unfold TrendSpec.avg, Js.div in *. now rewrite JsFacts.fl_fl. }
    pose proof (JsFacts.relative_change_ge _ _ F A2) as R.
    unfold TrendSpec.relative_change. lra.
  - intros Z0 L2.
    assert (B : (length values <? 2)%nat = false) by (apply Nat.ltb_ge; exact L2).
    rewrite B.
    assert (P : TrendSpec.positive (TrendSpec.avg fh) = false).
    { destruct (TrendSpec.positive (TrendSpec.avg fh)) eqn:P; [|reflexivity].
      apply positive_iff in P. lra. }
    now rewrite P.
Qed.

(** The theorem for four days of which the first two have no intake. *)
Lemma calculateTrend_nonneg_bound_witness :
  Forall (fun v => 0 <= v)%Q [0; 0; 5; 7]%Q /\
  -100 <= percentage (calculateTrend [0; 0; 5; 7]%Q).
Proof.
  assert (F : Forall (fun v => 0 <= v)%Q [0; 0; 5; 7]%Q)
    by (repeat constructor; discriminate).
  split; [exact F|]. exact (proj1 (calculateTrend_nonneg_bound _ F)).
Defined.

(** ** ConsistencyAnalyzer: counts of streaks and gaps *)

Lemma fold_left_add_acc (l : list Z) (a : Z) :
  fold_left Z.add l a = a + fold_left Z.add l 0.
Proof.
  revert a. induction l as [|x l IH]; intros a; simpl; [lia|].
  rewrite (IH (a + x)), (IH (0 + x)). lia.
Qed.

Lemma sum_z_snoc (l : list Z) (x : Z) : sum_z (l ++ [x]) = sum_z l + x.
Proof. unfold sum_z. rewrite fold_left_app. reflexivity. Qed.

Lemma sum_z_lower (l : list Z) :
  Forall (fun s => 1 <= s) l -> Z.of_nat (length l) <= sum_z l.
Proof.
  unfold sum_z. induction 1 as [|x l Hx _ IH]; simpl; [lia|].
  rewrite fold_left_add_acc. lia.
Qed.

Lemma consistency_loop_inv (dates : list Z) (prev : Z) (v : ConsistencyVars) (seen : Z) :
  consistency_inv v seen ->
  consistency_inv (consistency_loop prev dates v) (seen + Z.of_nat (length dates)).
Proof.
  revert prev v seen. induction dates as [|curr rest IH]; intros prev v seen I.
  - simpl. now rewrite Z.add_0_r.
  - cbn [consistency_loop length].
    replace (seen + Z.of_nat (S (length rest)))
      with ((seen + 1) + Z.of_nat (length rest)) by lia.
    apply IH. destruct I as [D C L N F].
    pose proof (sum_z_lower _ F) as S0.
    destruct (_ =? 1); constructor; cbn [cv_streaks cv_gaps cv_currentStreak cv_longestStreak].
    + lia.
    + lia.
    + lia.
    + exact N.
    + exact F.
    + rewrite sum_z_snoc. lia.
    + lia.
    + lia.
    + rewrite !length_app. simpl. lia.
    + apply Forall_app. split; [exact F|]. constructor; [exact C|constructor].
Qed.

(** X9: whatever the study log holds, the consistency analysis resolves, and
    unless there is no study day in the window: there is one streak more than
    there are gaps, the streaks partition the study days (their average
    length is studyDays / totalStreaks, rounded), the longest streak is
    between 1 and the number of study days, and the current streak is either
    0 or at most the longest. *)
Theorem studyConsistency_counts (now userId startDate : Z) (t : Tables) :
  exists r,
    calculateStudyConsistencyPatterns now userId startDate (healthy t) =
      (Resolved r, healthy t) /\
    (sc_studyDays r = 0 /\ sc_patterns r = patterns_none /\
     sc_longestStreak r = 0 /\ sc_currentStreak r = 0
     \/
     exists p, sc_patterns r = patterns_of p /\
       totalStreaks p = totalGaps p + 1 /\
       1 <= totalStreaks p <= sc_studyDays r /\
       averageStreakLength p =
         Js.round (Js.num (sc_studyDays r) / Js.num (totalStreaks p)) /\
       1 <= sc_longestStreak r <= sc_studyDays r /\
       0 <= sc_currentStreak r <= sc_longestStreak r).
Proof.
  unfold calculateStudyConsistencyPatterns.
  rewrite (bind_resolved _ _ _ _ _ (select_healthy _ t)).
  match goal with |- context [order_by_asc s_date ?l] =>
    generalize (order_by_asc s_date l) end.
  intros rows. destruct rows as [|r0 rows].
  - cbn [map]. eexists. split; [reflexivity|]. left. repeat split.
  - cbn [map]. eexists. split; [reflexivity|]. right.
    cbn [sc_studyDays sc_patterns sc_longestStreak sc_currentStreak].
    eexists. split; [reflexivity|].
    cbn [totalStreaks totalGaps averageStreakLength].
    assert (I0 : consistency_inv {| cv_streaks := []; cv_gaps := [];
                                    cv_currentStreak := 1; cv_longestStreak := 1 |} 1).
    { constructor; cbn [cv_streaks cv_gaps cv_currentStreak cv_longestStreak];
        [reflexivity|lia|lia|reflexivity|constructor]. }
    pose proof (consistency_loop_inv (map s_date rows) (s_date r0) _ _ I0) as I.
    set (v := consistency_loop _ _ _) in *.
    rewrite length_map in I.
    destruct I as [D C L N F].
    pose proof (sum_z_lower _ F) as S0.
    rewrite sum_z_snoc, !length_app. cbn [length].
    replace (Z.of_nat (length (cv_streaks v) + 1)) with (Z.of_nat (length (cv_gaps v)) + 1) by lia.
    replace (Z.of_nat (S (length rows))) with (1 + Z.of_nat (length rows)) by lia.
    repeat split; try lia.
    + assert (B : (0 <? length (cv_streaks v) + 1)%nat = true) by (apply Nat.ltb_lt; lia).
      rewrite B. unfold Js.len. rewrite length_app. cbn [length].
      rewrite D.
      replace (Z.of_nat (length (cv_streaks v) + 1)) with (Z.of_nat (length (cv_gaps v)) + 1) by lia.
      reflexivity.
    + destruct (_ <=? 1); lia.
    + destruct (_ <=? 1); lia.
Qed.

(** ** GoalTracker: the current value of a metric *)

Lemma sum_upper (l : list Q) (a : Q) :
  Forall (fun v => v <= 100)%Q l ->
  (fold_left Qplus l a <= a + 100 * inject_Z (Z.of_nat (length l)))%Q.
Proof.
  intros F. revert a. induction F as [|x l Hx _ IH]; intros a.
  - change (a <= a + 100 * 0)%Q. lra.
  - cbn [fold_left length]. specialize (IH (a + x)%Q).
    rewrite Nat2Z.inj_succ, <- Z.add_1_r, inject_Z_plus.
    change (inject_Z 1) with 1%Q. lra.
Qed.

Lemma rounded_or_zero_rate (l : list Q) :
  Forall (fun v => 0 <= v)%Q l -> Forall (fun v => v <= 100)%Q l ->
  0 <= rounded_or_zero (sql_avg l) <= 100.
Proof.
  intros F0 F1. split; [now apply rounded_or_zero_nonneg|].
  destruct l as [|x l]; [simpl; lia|].
  unfold sql_avg, rounded_or_zero, Js.parseFloat. apply JsFacts.round_le.
  change (inject_Z 100) with 100%Q.
  set (n := inject_Z (Z.of_nat (length (x :: l)))).
  assert (P : (0 < n)%Q).
  { unfold n. change 0%Q with (inject_Z 0). rewrite <- Zlt_Qlt. simpl. lia. }
  assert (U : (fold_left Qplus (x :: l) 0 / n <= 100)%Q).
  { apply Qle_shift_div_r; [exact P|].
    pose proof (sum_upper (x :: l) 0 F1) as S. fold n in S. lra. }
  apply (Binary64.fl_le _ 100 (JsFacts.F64_const 100 eq_refl)) in U. lra.
Qed.

Lemma rate_values {A : Type} (done : A -> bool) (p : A -> bool) (l : list A) :
  let values := map (fun r => if done r then 100%Q else 0%Q) (filter p l) in
  Forall (fun v => 0 <= v)%Q values /\ Forall (fun v => v <= 100)%Q values.
Proof.
  simpl. split; apply Forall_forall; intros v Hv; apply in_map_iff in Hv;
    destruct Hv as (r & <- & _); destruct (done r); lra.
Qed.

(** X10: the three completion rates (typing, constipation, task) are
    percentages: whatever the tables hold, their current value lies between
    0 and 100. *)
Theorem getCurrentMetricValue_rate_range (now userId : Z) (metric type : string)
  (t : Tables) :
  In metric ["typing_completion_rate"; "constipation_positive_rate";
             "task_completion_rate"] ->
  exists v, getCurrentMetricValue now userId metric type (healthy t) =
              (Resolved v, healthy t) /\
            0 <= v <= 100.
Proof.
  intros [<-|[<-|[<-|[]]]]; unfold getCurrentMetricValue; cbn [String.eqb Ascii.eqb Bool.eqb];
    unfold bind; rewrite select_healthy; eexists; (split; [reflexivity|]);
    apply rounded_or_zero_rate; apply rate_values.
Qed.

(** The theorem for the typing rate of user 1 on the store of the water
    example, which holds no typing practice. *)
Lemma getCurrentMetricValue_rate_range_witness :
  In "typing_completion_rate"
     ["typing_completion_rate"; "constipation_positive_rate";
      "task_completion_rate"] /\
  exists v, getCurrentMetricValue (day 19004) 1 "typing_completion_rate" "health"
              (healthy waterTables) = (Resolved v, healthy waterTables) /\
            0 <= v <= 100.
Proof.
  assert (I : In "typing_completion_rate"
                 ["typing_completion_rate"; "constipation_positive_rate";
                  "task_completion_rate"]) by (left; reflexivity).
  split; [exact I|].
  exact (getCurrentMetricValue_rate_range (day 19004) 1 _ "health" waterTables I).
Defined.

(** X11: a goal on a metric that the tracker does not know asks the store
    nothing, whatever state the store is in: its current value and progress
    are 0, it needs attention and its trend has insufficient data. *)
Theorem unknown_metric_progress (now userId : Z) (goal : GoalRow) (db : Db) :
  ~ In (g_metric goal)
       ["water_intake"; "exercise_steps"; "study_hours"; "kriya_sessions";
        "typing_completion_rate"; "constipation_positive_rate";
        "task_completion_rate"] ->
  getCurrentMetricValue now userId (g_metric goal) (g_type goal) db = (Resolved 0, db) /\
  getGoalTrend now userId (g_metric goal) (g_type goal) db =
    (Resolved {| trend := insufficient_data; percentage := 0 |}, db) /\
  calculateDetailedGoalProgress now userId goal db =
    (Resolved {| dp_currentValue := 0; dp_progress := 0;
                 dp_progressStatus := needs_attention;
                 dp_trend := insufficient_data; dp_trendPercentage := 0;
                 dp_daysSinceCreation :=
                   Js.ceil (Js.num (now - g_created_at goal) / Js.num msPerDay);
                 dp_lastUpdated := now |}, db).
Proof.
  intros U.
  assert (N : forall name, In name
                ["water_intake"; "exercise_steps"; "study_hours"; "kriya_sessions";
                 "typing_completion_rate"; "constipation_positive_rate";
                 "task_completion_rate"] ->
              String.eqb (g_metric goal) name = false).
  { intros name I. apply String.eqb_neq. intros E. apply U. now rewrite E. }
  assert (V : getCurrentMetricValue now userId (g_metric goal) (g_type goal) db
              = (Resolved 0, db)).
  { unfold getCurrentMetricValue. rewrite !N by (simpl; tauto). reflexivity. }
  assert (T : getGoalTrend now userId (g_metric goal) (g_type goal) db
              = (Resolved {| trend := insufficient_data; percentage := 0 |}, db)).
  { unfold getGoalTrend. rewrite !N by (simpl; tauto). reflexivity. }
  split; [exact V|]. split; [exact T|].
  unfold calculateDetailedGoalProgress.
  rewrite (bind_resolved _ _ _ _ _ V), (bind_resolved _ _ _ _ _ T).
  unfold ret. cbn [trend percentage].
  assert (P : (if Js.gt (Js.parseFloat (g_target goal)) 0
               then Js.round (Js.mul (Js.div (Js.num 0) (Js.parseFloat (g_target goal))) 100)
               else 0) = 0).
  { destruct (Js.gt (Js.parseFloat (g_target goal)) 0); [|reflexivity].
    change (Js.num 0) with 0%Q. now rewrite JsFacts.percent_of_zero. }
  rewrite P. reflexivity.
Qed.

(** The theorem for a goal on sleep hours while every query would fail. *)
Lemma unknown_metric_progress_witness :
  let goal := {| g_id := 9; g_user_id := 1; g_type := "health";
                 g_metric := "sleep_hours"; g_target := 8; g_description := "sleep";
                 g_status := active; g_created_at := day 19000;
                 g_updated_at := day 19000 |} in
  let db := {| tables := emptyTables; faults := [true; true]; rejected := 0 |} in
  ~ In (g_metric goal)
       ["water_intake"; "exercise_steps"; "study_hours"; "kriya_sessions";
        "typing_completion_rate"; "constipation_positive_rate";
        "task_completion_rate"] /\
  getCurrentMetricValue (day 19004) 1 (g_metric goal) (g_type goal) db = (Resolved 0, db).
Proof.
  intros goal db.
  assert (U : ~ In (g_metric goal)
       ["water_intake"; "exercise_steps"; "study_hours"; "kriya_sessions";
        "typing_completion_rate"; "constipation_positive_rate";
        "task_completion_rate"]).
  { simpl. intros H. repeat (destruct H as [H|H]; [discriminate H|]). exact H. }
  split; [exact U|].
  exact (proj1 (unknown_metric_progress (day 19004) 1 goal db U)).
Defined.

(** ** GoalTracker: what a check writes *)

Lemma fold_markAchieved (now userId : Z) (l : list GoalRow) :
  forall t,
    let t' := fold_left (markAchieved now userId) l t in
    other_tables t' = other_tables t /\
    goal_achievements t' =
      goal_achievements t ++
      map (fun g => achievement_of userId (achievedGoal now userId t g)) l /\
    user_goals t' =
      map (fun g => if existsb (Z.eqb (g_id g)) (map g_id l)
                    then completed_at now g else g) (user_goals t).
Proof.
  induction l as [|g0 l IH]; intros t; cbv zeta.
  - cbn [fold_left map existsb]. rewrite app_nil_r, map_id. auto.
  - cbn [fold_left]. destruct (IH (markAchieved now userId t g0)) as (O & A & G).
    rewrite O, A, G. split; [reflexivity|]. split.
    + cbn [markAchieved goal_achievements set_goal_achievements update_goal_status
           set_user_goals map].
      rewrite <- app_assoc. cbn [app]. f_equal. f_equal.
      apply map_ext. intros g. unfold achievement_of, achievedGoal.
      cbn [ag_goal ag_achievedValue ag_achievedAt].
      now rewrite metricValue_markAchieved.
    + cbn [markAchieved user_goals set_goal_achievements update_goal_status
           set_user_goals].
      rewrite map_map. apply map_ext. intros g. cbn [map existsb].
      destruct (g_id g =? g_id g0) eqn:I.
      * cbn [g_id orb]. now destruct (existsb _ _).
      * reflexivity.
Qed.

(** X12: a check of the goals on a store that answers writes only the goals
    and the achievements. The achievements get one row for each returned
    goal, appended in the order of the result; the goals keep their rows and
    their order, and exactly the rows with the id of a returned goal become
    completed; every returned goal belongs to the user and carries the time
    of the check. *)
Theorem checkGoalAchievements_writes (now userId : Z) (t : Tables) :
  exists achieved t',
    checkGoalAchievements now userId (healthy t) = (Resolved achieved, healthy t') /\
    other_tables t' = other_tables t /\
    goal_achievements t' = goal_achievements t ++ map (achievement_of userId) achieved /\
    user_goals t' =
      map (fun g => if existsb (Z.eqb (g_id g)) (map (fun a => g_id (ag_goal a)) achieved)
                    then completed_at now g else g) (user_goals t) /\
    Forall (fun a => g_user_id (ag_goal a) = userId /\ ag_achievedAt a = now) achieved.
Proof.
  pose proof (checkGoalAchievements_healthy now userId t) as E. cbv zeta in E.
  set (marked := filter (meetsTarget now userId t) _) in E.
  destruct (fold_markAchieved now userId marked t) as (O & A & G).
  eexists _, _. split; [exact E|].
  rewrite !map_map. cbn [achievedGoal ag_goal].
  split; [exact O|]. split; [exact A|]. split; [exact G|].
  apply Forall_forall. intros a Ha. apply in_map_iff in Ha as (g & <- & Hg).
  cbn [achievedGoal ag_goal ag_achievedAt]. split; [|reflexivity].
  unfold marked in Hg. apply filter_In in Hg as [Hg _].
  apply filter_In in Hg as [_ Hg]. apply andb_true_iff in Hg as [U _].
  now apply Z.eqb_eq.
Qed.

(** ** GoalTracker: what the streak of a goal counts *)

Lemma leading_run_repeat (k : nat) (post : list bool) :
  (k <= leading_run (repeat true k ++ post))%nat.
Proof. induction k as [|k IH]; simpl; lia. Qed.

Lemma max_run_leading (l : list bool) : (leading_run l <= max_run l)%nat.
Proof. destruct l as [|[|] l]; simpl; lia. Qed.

Lemma max_run_app (pre l : list bool) : (max_run l <= max_run (pre ++ l))%nat.
Proof. induction pre as [|b pre IH]; simpl; lia. Qed.

Lemma leading_run_split (l : list bool) :
  l = repeat true (leading_run l) ++ skipn (leading_run l) l.
Proof.
  induction l as [|[|] l IH]; simpl; [reflexivity| |reflexivity].
  now rewrite <- IH.
Qed.

Lemma max_run_upper (l : list bool) (k : nat) : is_run l k -> (k <= max_run l)%nat.
Proof.
  intros (pre & post & ->).
  etransitivity; [apply leading_run_repeat|].
  etransitivity; [apply max_run_leading|]. apply max_run_app.
Qed.

Lemma max_run_attained (l : list bool) : is_run l (max_run l).
Proof.
  induction l as [|b l IH].
  - exists [], []. reflexivity.
  - cbn [max_run]. destruct (Nat.max_spec (leading_run (b :: l)) (max_run l)) as [[_ E]|[_ E]];
      rewrite E.
    + destruct IH as (pre & post & IH). exists (b :: pre), post. simpl. now rewrite <- IH.
    + exists [], (skipn (leading_run (b :: l)) (b :: l)). apply leading_run_split.
Qed.

Lemma skipn_nth_error {A : Type} (l : list A) (i : nat) (d : A) :
  nth_error l i = Some d -> skipn i l = d :: skipn (S i) l.
Proof.
  revert i. induction l as [|x l IH]; intros [|i] H; simpl in *; try discriminate.
  - now injection H as ->.
  - now apply IH.
Qed.

Lemma find_snoc {A : Type} (p : A -> bool) (l : list A) (d : A) :
  find p (l ++ [d]) =
  match find p l with Some x => Some x | None => if p d then Some d else None end.
Proof.
  induction l as [|x l IH]; simpl; [reflexivity|]. now destruct (p x).
Qed.

(** What the loop has computed when it is about to visit index [n - 1]: the
    running streak is the run of days meeting the target that starts at
    index [n], and together with [longestStreak] it gives the longest run
    among the days from [n] on. *)
Lemma goalStreak_loop_runs (dailyValues : list DailyValue) (target : Q) (n : nat) :
  let meets := fun d => Js.ge (dv_value d) target in
  forall v,
    (n <= length dailyValues)%nat ->
    sv_tempStreak v = Z.of_nat (leading_run (map meets (skipn n dailyValues))) ->
    Z.max (sv_tempStreak v) (sv_longestStreak v) =
      Z.of_nat (max_run (map meets (skipn n dailyValues))) ->
    0 <= sv_longestStreak v ->
    sv_lastAchievedDate v =
      option_map dv_date (find meets (rev (skipn n dailyValues))) ->
    let v' := goalStreak_loop dailyValues target n v in
    Z.max (sv_tempStreak v') (sv_longestStreak v') =
      Z.of_nat (max_run (map meets dailyValues)) /\
    0 <= sv_longestStreak v' /\
    sv_lastAchievedDate v' = option_map dv_date (find meets (rev dailyValues)).
Proof.
  intros meets. induction n as [|i IH]; intros v Hn T M L0 D; cbv zeta.
  - simpl in *. auto.
  - cbn [goalStreak_loop].
    destruct (nth_error dailyValues i) as [d|] eqn:N;
      [|apply nth_error_None in N; lia].
    apply IH; [lia|..]; rewrite ?(skipn_nth_error _ _ _ N); cbn [map rev];
      rewrite ?find_snoc; unfold goalStreak_body; fold (meets d);
      destruct (meets d);
      cbn [max_run leading_run sv_tempStreak sv_longestStreak sv_lastAchievedDate].
    + lia.
    + reflexivity.
    + lia.
    + destruct (Z.gtb_spec (sv_tempStreak v) (sv_longestStreak v)); lia.
    + exact L0.
    + destruct (Z.gtb_spec (sv_tempStreak v) (sv_longestStreak v)); lia.
    + rewrite D. now destruct (find meets (rev (skipn (S i) dailyValues))).
    + rewrite D. now destruct (find meets (rev (skipn (S i) dailyValues))).
Qed.

Lemma getDailyMetricValues_healthy (now userId : Z) (metric : string) (t : Tables) :
  getDailyMetricValues now userId metric 30 (healthy t) =
  (Resolved (dailyValuesOf now userId metric t), healthy t).
Proof.
  unfold dailyValuesOf, getDailyMetricValues.
  case_metric; try (rewrite select_healthy; reflexivity). reflexivity.
Qed.

(** X13: what [calculateGoalStreak] counts on a store that answers. Without
    a goal for the metric the result is all zero. With one, against the
    target of the most recent goal over the daily values of the last 30
    days: longestStreak is the length of the longest run of consecutive
    entries that meet the target (some run has that length and no run is
    longer), lastAchievedDate is the date of the most recent entry that
    meets it, and currentStreak is 1 if the most recent entry meets it and
    0 otherwise. *)
Theorem calculateGoalStreak_counts (now userId : Z) (metric type : string) (t : Tables) :
  exists r,
    calculateGoalStreak now userId metric type (healthy t) = (Resolved r, healthy t) /\
    match latestGoal userId metric type t with
    | None => r = {| gs_currentStreak := 0; gs_longestStreak := 0;
                     gs_lastAchievedDate := None |}
    | Some goal =>
        let dailyValues := dailyValuesOf now userId metric t in
        let meets := fun d => Js.ge (dv_value d) (Js.parseFloat (g_target goal)) in
        (exists m, gs_longestStreak r = Z.of_nat m /\
                   is_run (map meets dailyValues) m /\
                   forall k, is_run (map meets dailyValues) k -> (k <= m)%nat) /\
        gs_lastAchievedDate r = option_map dv_date (find meets (rev dailyValues)) /\
        gs_currentStreak r =
          match nth_error dailyValues (length dailyValues - 1) with
          | Some d => if meets d then 1 else 0
          | None => 0
          end
    end.
Proof.
  unfold calculateGoalStreak, latestGoal.
  rewrite (bind_resolved _ _ _ _ _ (select_healthy _ t)).
  match goal with |- context [order_by_desc g_created_at ?l] =>
    generalize (order_by_desc g_created_at l) end.
  intros [|goal rest]; cbn [firstn head].
  - eexists. split; reflexivity.
  - rewrite (bind_resolved _ _ _ _ _ (getDailyMetricValues_healthy now userId metric t)).
    set (dailyValues := dailyValuesOf now userId metric t).
    eexists. split; [reflexivity|]. cbv zeta.
    cbn [gs_currentStreak gs_longestStreak gs_lastAchievedDate].
    set (meets := fun d => Js.ge (dv_value d) (Js.parseFloat (g_target goal))).
    set (v0 := {| sv_currentStreak := 0; sv_longestStreak := 0;
                  sv_tempStreak := 0; sv_lastAchievedDate := None |}).
    assert (S0 : skipn (length dailyValues) dailyValues = []) by apply skipn_all.
    pose proof (goalStreak_loop_runs dailyValues (Js.parseFloat (g_target goal)) (length dailyValues) v0)
      as R.
    cbv zeta in R. rewrite S0 in R.
    specialize (R (le_n _) eq_refl eq_refl (Z.le_refl 0) eq_refl).
    destruct R as (M & L0 & D).
    fold meets in M, D. split; [|split].
    + exists (max_run (map meets dailyValues)). split; [|split].
      * rewrite <- M.
        destruct (Z.gtb_spec (sv_tempStreak (goalStreak_loop dailyValues (Js.parseFloat (g_target goal))
                                               (length dailyValues) v0))
                             (sv_longestStreak (goalStreak_loop dailyValues (Js.parseFloat (g_target goal))
                                                  (length dailyValues) v0))); lia.
      * apply max_run_attained.
      * apply max_run_upper.
    + exact D.
    + destruct (length dailyValues) as [|i] eqn:Len.
      * destruct dailyValues; [reflexivity|discriminate Len].
      * replace (S i - 1)%nat with i by lia. cbn [goalStreak_loop].
        destruct (nth_error dailyValues i) as [d|]; [|reflexivity].
        rewrite goalStreak_loop_keeps_current by lia.
        unfold goalStreak_body. rewrite Len.
        assert (E : (i =? S i - 1)%nat = true) by (apply Nat.eqb_eq; lia).
        rewrite E. fold (meets d). now destruct (meets d).
Qed.

(** ** PeriodAggregator and InsightEngine: reading the store *)

Lemma reads_only_ret {A} (a : A) : reads_only (ret a).
Proof. intros db. reflexivity. Qed.

Lemma reads_only_select {A} (q : Tables -> A) : reads_only (select q).
Proof.
  intros db. destruct (select_cases q db) as [E|E]; rewrite E; reflexivity.
Qed.

Lemma reads_only_bind {A B} (m : Async A) (k : A -> Async B) :
  reads_only m -> (forall a, reads_only (k a)) -> reads_only (bind m k).
Proof.
  intros Hm Hk db. unfold bind. specialize (Hm db).
  destruct (m db) as [[a|e] db1]; simpl in *; [|exact Hm].
  now rewrite Hk.
Qed.

Lemma reads_only_try_catch {A} (m : Async A) (h : string -> Async A) :
  reads_only m -> (forall e, reads_only (h e)) -> reads_only (try_catch m h).
Proof.
  intros Hm Hh db. unfold try_catch. specialize (Hm db).
  destruct (m db) as [[a|e] db1]; simpl in *; [exact Hm|].
  now rewrite Hh.
Qed.

Ltac read_only :=
  repeat first
    [ match goal with
      | H : context [reads_only] |- reads_only _ => apply H
      end
    | apply reads_only_select
    | apply reads_only_ret
    | apply reads_only_bind; [|intros]
    | apply reads_only_try_catch; [|intros]
    | match goal with
      | |- reads_only (if ?b then _ else _) => destruct b
      | |- reads_only (match ?x with _ => _ end) => destruct x
      | |- reads_only (let '(_, _) := ?x in _) => destruct x
      end ].

Lemma answers_ret {A} (a : A) : answers (ret a).
Proof. intros t. now exists a. Qed.

Lemma answers_select {A} (q : Tables -> A) : answers (select q).
Proof. intros t. eexists. apply select_healthy. Qed.

Lemma answers_bind {A B} (m : Async A) (k : A -> Async B) :
  answers m -> (forall a, answers (k a)) -> answers (bind m k).
Proof.
  intros Hm Hk t. destruct (Hm t) as [a E]. destruct (Hk a t) as [b F].
  exists b. now rewrite (bind_resolved _ _ _ _ _ E).
Qed.

Ltac answer :=
  repeat first
    [ match goal with
      | H : context [answers] |- answers _ => apply H
      end
    | apply answers_select
    | apply answers_ret
    | apply answers_bind; [|intros]
    | match goal with
      | |- answers (if ?b then _ else _) => destruct b
      | |- answers (match ?x with _ => _ end) => destruct x
      | |- answers (let '(_, _) := ?x in _) => destruct x
      end ].

Lemma reads_only_countDataPoints (userId startDate : Z) (requestedMetrics : list string) :
  forall total, reads_only (countDataPoints userId startDate requestedMetrics total).
Proof.
  induction requestedMetrics as [|metric rest IH]; intros total; simpl.
  - read_only.
  - destruct (summary_column metric); [|apply IH]. read_only.
Qed.

Lemma reads_only_aggregateHealthData (now later userId days : Z)
  (metrics : option (list string)) :
  reads_only (aggregateHealthData now later userId days metrics).
Proof.
  pose proof reads_only_countDataPoints as C.
  unfold aggregateHealthData, when_requested, getWaterIntakeAnalytics,
    getExerciseAnalytics, getPeriodAnalytics, getConstipationAnalytics,
    getKriyaAnalytics, getTypingAnalytics, getHealthSummary,
    calculateConsistencyRate, getPreviousPeriodComparison, calculateGoalProgress.
  read_only.
Qed.

Lemma reads_only_calculateStudyConsistencyPatterns (now userId startDate : Z) :
  reads_only (calculateStudyConsistencyPatterns now userId startDate).
Proof. unfold calculateStudyConsistencyPatterns. read_only. Qed.

Lemma reads_only_calculateEducationProgress (now later userId days : Z)
  (subjectCodes : option (list string)) :
  reads_only (calculateEducationProgress now later userId days subjectCodes).
Proof.
  pose proof reads_only_calculateStudyConsistencyPatterns as C.
  unfold calculateEducationProgress, getSubjectProgress, getStudyHoursAnalytics,
    getTaskCompletionAnalytics, getUnitProgress, getStudyPatternAnalysis,
    getEducationSummary, query_unread, getPreviousPeriodComparison,
    calculateGoalProgress.
  read_only.
Qed.

(** X14: the analytics only read. Whatever the store answers, and whichever
    of its queries fail, the aggregation of the health data, the education
    progress, the generation of insights, the streak and the detailed
    progress of a goal, the study consistency and the reading of a streak
    leave every table as it was. *)
Theorem analytics_read_only (this : DomainAnalyzers) (now later userId days : Z)
  (clock : Readings) (metrics subjectCodes : option (list string))
  (metric type : string) (goal : GoalRow) (startDate : Z) :
  reads_only (aggregateHealthData now later userId days metrics) /\
  reads_only (calculateEducationProgress now later userId days subjectCodes) /\
  reads_only (generateInsights this clock userId) /\
  reads_only (calculateGoalStreak now userId metric type) /\
  reads_only (calculateDetailedGoalProgress now userId goal) /\
  reads_only (calculateStudyConsistencyPatterns now userId startDate) /\
  reads_only (getUserStreak userId metric).
Proof.
  pose proof reads_only_aggregateHealthData as H.
  pose proof reads_only_calculateEducationProgress as E.
  repeat split.
  - apply H.
  - apply E.
  - unfold generateInsights. read_only.
  - unfold calculateGoalStreak, getDailyMetricValues. read_only.
  - unfold calculateDetailedGoalProgress, getCurrentMetricValue, getGoalTrend. read_only.
  - apply reads_only_calculateStudyConsistencyPatterns.
  - unfold getUserStreak. read_only.
Qed.

(** ** PeriodAggregator: the object of health data *)

Lemma answers_calculateGoalProgress (userId : Z) (metric : string) (currentValue : Q) :
  answers (calculateGoalProgress userId metric currentValue).
Proof. unfold calculateGoalProgress. answer. Qed.

Lemma answers_getPreviousPeriodComparison (now userId : Z) (column : Column)
  (currentStartDate : Z) :
  answers (getPreviousPeriodComparison now userId column currentStartDate).
Proof. unfold getPreviousPeriodComparison. answer. Qed.

Lemma when_requested_healthy {A} (requestedMetrics : list string) (name : string)
  (get : Async A) (t : Tables) :
  answers get ->
  exists x, when_requested requestedMetrics name get (healthy t) = (Resolved x, healthy t) /\
            count_key x = if existsb (String.eqb name) requestedMetrics then 1%nat else 0%nat.
Proof.
  intros G. unfold when_requested.
  destruct (existsb (String.eqb name) requestedMetrics).
  - destruct (G t) as [a E]. exists (Some a).
    now rewrite (bind_resolved _ _ _ _ _ E).
  - exists None. split; reflexivity.
Qed.

Lemma sum_z_cons (x : Z) (l : list Z) : sum_z (x :: l) = x + sum_z l.
Proof. unfold sum_z. simpl. apply fold_left_add_acc. Qed.

Lemma countDataPoints_healthy (userId startDate : Z) (requestedMetrics : list string)
  (t : Tables) :
  forall total,
    countDataPoints userId startDate requestedMetrics total (healthy t) =
    (Resolved (total + sum_z (map (dataPointsOf userId startDate t) requestedMetrics)),
     healthy t).
Proof.
  induction requestedMetrics as [|metric rest IH]; intros total.
  - simpl. unfold ret, sum_z. simpl. now rewrite Z.add_0_r.
  - cbn [countDataPoints map]. rewrite sum_z_cons. unfold dataPointsOf at 1.
    destruct (summary_column metric) as [column|].
    + rewrite (bind_resolved _ _ _ _ _ (select_healthy _ t)), IH.
      now rewrite Z.add_assoc.
    + rewrite IH. now rewrite Z.add_0_l.
Qed.

Lemma getHealthSummary_healthy (now userId startDate : Z) (requestedMetrics : list string)
  (t : Tables) :
  exists s,
    getHealthSummary now userId startDate requestedMetrics (healthy t) =
      (Resolved s, healthy t) /\
    metricsTracked s = Z.of_nat (length requestedMetrics) /\
    totalDataPoints s = sum_z (map (dataPointsOf userId startDate t) requestedMetrics) /\
    activeDays s =
      Z.of_nat (length (nodup Z.eq_dec
        (map (fun '(_, d, _) => d)
           (rows_since userId startDate
              (water_amounts t ++ exercise_footsteps t ++ constipation_status t ++
               kriya_sessions t ++ typing_completed t ++ period_dates t))))) /\
    consistencyScore s =
      if Js.ceil (Js.num (now - startDate) / Js.num msPerDay) >? 0
      then Js.round
             (Js.mul (Js.div (Js.num (activeDays s))
                        (Js.num (Js.ceil (Js.num (now - startDate) / Js.num msPerDay))))
                100)
      else 0.
Proof.
  unfold getHealthSummary.
  rewrite (bind_resolved _ _ _ _ _ (select_healthy _ t)).
  rewrite (bind_resolved _ _ _ _ _ (countDataPoints_healthy _ _ _ t 0)).
  eexists. split; [reflexivity|]. repeat split.
Qed.

(** X15: which keys the object of [aggregateHealthData] has. On a store
    that answers, the object always carries the time range and a summary;
    each of the six sub-objects is present exactly when its metric name is
    among those requested; the summary counts the requested names,
    including names that are no metric and names given twice. *)
Theorem aggregateHealthData_keys (now later userId days : Z)
  (metrics : option (list string))
  (t : Tables) :
  let requested := match metrics with None => allHealthMetrics | Some l => l end in
  let key name := if existsb (String.eqb name) requested then 1%nat else 0%nat in
  exists h s,
    aggregateHealthData now later userId days metrics (healthy t) = (Resolved h, healthy t) /\
    hd_timeRange h = Some days /\
    hd_summary h = Some s /\
    metricsTracked s = Z.of_nat (length requested) /\
    count_key (hd_waterIntake h) = key "water" /\
    count_key (hd_exercise h) = key "exercise" /\
    count_key (hd_periodTracking h) = key "period" /\
    count_key (hd_constipation h) = key "constipation" /\
    count_key (hd_kriya h) = key "kriya" /\
    count_key (hd_typing h) = key "typing".
Proof.
  cbv zeta. unfold aggregateHealthData.
  set (requested := match metrics with None => allHealthMetrics | Some l => l end).
  set (startDate := minusDays now days).
  pose proof answers_calculateGoalProgress as G.
  pose proof answers_getPreviousPeriodComparison as P.
  destruct (when_requested_healthy requested "water"
              (getWaterIntakeAnalytics later userId startDate) t) as (w & Ew & Kw);
    [unfold getWaterIntakeAnalytics; answer|].
  destruct (when_requested_healthy requested "exercise"
              (getExerciseAnalytics later userId startDate) t) as (e & Ee & Ke);
    [unfold getExerciseAnalytics; answer|].
  destruct (when_requested_healthy requested "period"
              (getPeriodAnalytics userId startDate) t) as (p & Ep & Kp);
    [unfold getPeriodAnalytics; answer|].
  destruct (when_requested_healthy requested "constipation"
              (getConstipationAnalytics later userId startDate) t) as (c & Ec & Kc);
    [unfold getConstipationAnalytics; answer|].
  destruct (when_requested_healthy requested "kriya"
              (getKriyaAnalytics later userId startDate) t) as (k & Ek & Kk);
    [unfold getKriyaAnalytics, calculateConsistencyRate; answer|].
  destruct (when_requested_healthy requested "typing"
              (getTypingAnalytics later userId startDate) t) as (y & Ey & Ky);
    [unfold getTypingAnalytics; answer|].
  destruct (getHealthSummary_healthy later userId startDate requested t)
    as (s & Es & M & _).
  rewrite (bind_resolved _ _ _ _ _ Ew), (bind_resolved _ _ _ _ _ Ee),
    (bind_resolved _ _ _ _ _ Ep), (bind_resolved _ _ _ _ _ Ec),
    (bind_resolved _ _ _ _ _ Ek), (bind_resolved _ _ _ _ _ Ey),
    (bind_resolved _ _ _ _ _ Es).
  eexists _, s. split; [reflexivity|]. cbn. auto 12.
Qed.

Lemma nodup_length {A : Type} (dec : forall x y : A, {x = y} + {x <> y}) (l : list A) :
  (length (nodup dec l) <= length l)%nat.
Proof.
  induction l as [|x l IH]; simpl; [lia|].
  destruct (in_dec dec x l); simpl; lia.
Qed.

Lemma nodup_nil {A : Type} (dec : forall x y : A, {x = y} + {x <> y}) (l : list A) :
  nodup dec l = [] -> l = [].
Proof.
  destruct l as [|x l]; [reflexivity|]. intros E. exfalso.
  assert (I : In x (nodup dec (x :: l))) by (apply nodup_In; now left).
  rewrite E in I. exact I.
Qed.

(** X16: the summary when all six metrics are requested, on a store that
    answers: the days with any entry are at most the entries counted, and
    there is no active day exactly when there is no entry. The count of the
    entries is additive in the list of the requested names, so a name given
    twice is counted twice, while the active days do not depend on that
    list. *)
Theorem getHealthSummary_counts (now userId startDate : Z) (t : Tables)
  (requested requested' : list string) :
  exists sAll s s' sBoth,
    getHealthSummary now userId startDate allHealthMetrics (healthy t) =
      (Resolved sAll, healthy t) /\
    getHealthSummary now userId startDate requested (healthy t) =
      (Resolved s, healthy t) /\
    getHealthSummary now userId startDate requested' (healthy t) =
      (Resolved s', healthy t) /\
    getHealthSummary now userId startDate (requested ++ requested') (healthy t) =
      (Resolved sBoth, healthy t) /\
    0 <= activeDays sAll <= totalDataPoints sAll /\
    (activeDays sAll = 0 <-> totalDataPoints sAll = 0) /\
    totalDataPoints sBoth = totalDataPoints s + totalDataPoints s' /\
    activeDays s = activeDays sAll /\
    consistencyScore s = consistencyScore sAll.
Proof.
  destruct (getHealthSummary_healthy now userId startDate allHealthMetrics t)
    as (sAll & EAll & _ & TAll & AAll & CAll).
  destruct (getHealthSummary_healthy now userId startDate requested t)
    as (s & Es & _ & Ts & As & Cs).
  destruct (getHealthSummary_healthy now userId startDate requested' t)
    as (s' & Es' & _ & Ts' & _).
  destruct (getHealthSummary_healthy now userId startDate (requested ++ requested') t)
    as (sBoth & EBoth & _ & TBoth & _).
  exists sAll, s, s', sBoth.
  split; [exact EAll|]. split; [exact Es|]. split; [exact Es'|]. split; [exact EBoth|].
  assert (C : consistencyScore s = consistencyScore sAll).
  { rewrite Cs, CAll, As, AAll. reflexivity. }
  set (W := rows_since userId startDate (water_amounts t)).
  set (E := rows_since userId startDate (exercise_footsteps t)).
  set (P := rows_since userId startDate (period_dates t)).
  set (Co := rows_since userId startDate (constipation_status t)).
  set (K := rows_since userId startDate (kriya_sessions t)).
  set (Y := rows_since userId startDate (typing_completed t)).
  assert (T : totalDataPoints sAll =
              Z.of_nat (length (W ++ E ++ Co ++ K ++ Y ++ P))).
  { rewrite TAll. unfold allHealthMetrics. cbn [map].
    rewrite !sum_z_cons. unfold dataPointsOf, sum_z. cbn. unfold sql_count.
    fold W E P Co K Y. rewrite !length_app. lia. }
  assert (R : rows_since userId startDate
                (water_amounts t ++ exercise_footsteps t ++ constipation_status t ++
                 kriya_sessions t ++ typing_completed t ++ period_dates t)
              = W ++ E ++ Co ++ K ++ Y ++ P).
  { unfold rows_since, W, E, P, Co, K, Y. now rewrite !filter_app. }
  rewrite R in AAll, As. set (rows := W ++ E ++ Co ++ K ++ Y ++ P) in *.
  pose proof (nodup_length Z.eq_dec (map (fun '(_, d, _) => d) rows)) as L.
  rewrite length_map in L.
  split; [lia|]. split; [|split; [|split; [congruence|exact C]]].
  - rewrite AAll, T. split; intros Z0.
    + assert (N : nodup Z.eq_dec (map (fun '(_, d, _) => d) rows) = [])
        by (apply length_zero_iff_nil; lia).
      apply nodup_nil in N. apply map_eq_nil in N. rewrite N. reflexivity.
    + assert (N : rows = []) by (apply length_zero_iff_nil; lia).
      rewrite N. reflexivity.
  - rewrite TBoth, Ts, Ts', map_app. unfold sum_z. rewrite fold_left_app.
    apply fold_left_add_acc.
Qed.

(** ** InsightEngine: the overall scores *)

Lemma F64_bound : F64 (801 # 8).
Proof.
  exists 801, (-3). split; [reflexivity|]. split; [now apply Z.leb_le|lia].
Qed.

Lemma F64_bounds (n : Z) : 0 <= n <= 2 ^ 40 -> F64 ((801 # 8) * inject_Z n).
Proof.
  intros H. exists (801 * n), (-3). split; [|split; lia].
  rewrite inject_Z_mult. change (Js.pow2 (-3)) with (1 # 8)%Q.
  change (inject_Z 801) with 801%Q. field.
Qed.

Lemma add_range (s v : Q) (n : Z) :
  0 <= n < 2 ^ 40 -> (0 <= s)%Q -> (s <= (801 # 8) * inject_Z n)%Q ->
  (0 <= v)%Q -> (v <= 801 # 8)%Q ->
  (0 <= Js.add s v /\ Js.add s v <= (801 # 8) * inject_Z (n + 1))%Q.
Proof.
  intros N S0 S1 V0 V1. split; [now apply JsFacts.js_add_nonneg|].
  unfold Js.add. apply Binary64.fl_le; [apply F64_bounds; lia|].
  apply (Binary64.fl_le _ _ (F64_bounds n ltac:(lia))) in S1.
  apply (Binary64.fl_le _ _ F64_bound) in V1.
  rewrite inject_Z_plus. change (inject_Z 1) with 1%Q. lra.
Qed.

Lemma add_metric_range {A} (k : Z) (x : option A) (v : A -> Q) (acc : Q * Z) :
  k < 2 ^ 40 ->
  option_holds (fun a => 0 <= v a /\ v a <= 100)%Q x ->
  score_in_range k acc -> score_in_range (k + 1) (add_metric x v acc).
Proof.
  intros Hk Hx (N & L & U).
  destruct x as [a|]; [|unfold score_in_range; cbn [add_metric]; split; [lia|now split]].
  destruct Hx as [V0 V1]. unfold score_in_range. cbn [add_metric fst snd].
  split; [lia|]. apply add_range; try assumption; [lia|lra].
Qed.

Lemma score_of_range (k : Z) (acc : Q * Z) :
  k <= 2 ^ 40 -> score_in_range k acc -> 0 <= score_of acc <= 100.
Proof.
  intros Hk (N & L & U). unfold score_of.
  destruct (Z.gtb_spec (snd acc) 0) as [P|_]; [|lia].
  assert (PQ : (0 < Js.num (snd acc))%Q).
  { unfold Js.num. change 0%Q with (inject_Z 0). now rewrite <- Zlt_Qlt. }
  assert (E : (Js.fl (Js.num (snd acc)) == Js.num (snd acc))%Q).
  { apply Binary64.fl_exact, Binary64.F64_Z. lia. }
  split.
  - apply round_nonneg, JsFacts.js_div_nonneg; lra.
  - apply JsFacts.round_le. change (inject_Z 100) with 100%Q.
    assert (D : (Js.div (fst acc) (Js.num (snd acc)) <= 801 # 8)%Q).
    { unfold Js.div. apply Binary64.fl_le; [exact F64_bound|].
      apply (Binary64.fl_le _ _ (F64_bounds (snd acc) ltac:(lia))) in U.
      rewrite E. apply Qle_shift_div_r; [exact PQ|]. exact U. }
    lra.
Qed.

Lemma capped_share (avg : Z) (full : Q) :
  0 <= avg -> (0 <= full)%Q ->
  (0 <= Js.min (Js.mul (Js.div (Js.num avg) full) 100) 100 /\
   Js.min (Js.mul (Js.div (Js.num avg) full) 100) 100 <= 100)%Q.
Proof.
  intros A F.
  assert (N : (0 <= Js.mul (Js.div (Js.num avg) full) 100)%Q).
  { apply JsFacts.percent_nonneg; [now apply inject_Z_nonneg|exact F]. }
  unfold Js.min. destruct (Qle_bool _ 100) eqn:B.
  - apply Qle_bool_iff in B. split; assumption.
  - split; lra.
Qed.

Lemma percentage_num (p : Z) :
  0 <= p <= 100 -> (0 <= Js.num p /\ Js.num p <= 100)%Q.
Proof.
  intros [L U]. unfold Js.num. split.
  - now apply inject_Z_nonneg.
  - change 100%Q with (inject_Z 100). now rewrite <- Zle_Qle.
Qed.

Lemma option_holds_impl {A} (P Q : A -> Prop) (x : option A) :
  (forall a, P a -> Q a) -> option_holds P x -> option_holds Q x.
Proof. intros H. destruct x; simpl; auto. Qed.

(** X17: the overall health score is the rounded mean of shares that are
    each capped to 0..100: when the averages of the health data are not
    negative and its rates are percentages, the score lies between 0 and
    100, whichever of the sub-objects are present. *)
Theorem calculateOverallHealthScore_range (healthData : HealthData) :
  health_rates_in_range healthData ->
  0 <= calculateOverallHealthScore healthData <= 100.
Proof.
  intros (W & E & C & K & Y). unfold calculateOverallHealthScore.
  apply (score_of_range (0 + 1 + 1 + 1 + 1 + 1)); [lia|].
  repeat (apply add_metric_range; [lia| |]).
  - eapply option_holds_impl; [|exact Y]. intros y. apply percentage_num.
  - eapply option_holds_impl; [|exact K]. intros k. apply percentage_num.
  - eapply option_holds_impl; [|exact C]. intros c. apply percentage_num.
  - eapply option_holds_impl; [|exact E]. intros e He.
    apply capped_share; [exact He|discriminate].
  - eapply option_holds_impl; [|exact W]. intros w Hw.
    apply capped_share; [exact Hw|discriminate].
  - unfold score_in_range. simpl. split; [lia|]. split; [lra|].
    change (inject_Z 0) with 0%Q. lra.
Qed.

(** The theorem for the health data of user 1 in the store of the water
    example, all metrics requested. *)
Lemma calculateOverallHealthScore_range_witness :
  let healthData :=
    match fst (aggregateHealthData (day 19005) (day 19005 + 40) 1 30 None
                 (healthy waterTables)) with
    | Resolved h => h
    | Rejected _ => emptyHealthData
    end in
  health_rates_in_range healthData /\
  0 <= calculateOverallHealthScore healthData <= 100.
Proof.
  intros healthData.
  assert (R : health_rates_in_range healthData).
  { vm_compute. repeat split; discriminate. }
  split; [exact R|]. exact (calculateOverallHealthScore_range healthData R).
Defined.

Lemma rate_range (done total : Z) :
  0 <= done <= total -> 0 <= rate done total <= 100.
Proof.
  intros [D T]. unfold rate. destruct (Z.gtb_spec total 0) as [P|_]; [|lia].
  assert (DQ : (0 <= Js.num done)%Q) by now apply inject_Z_nonneg.
  assert (LE : (Js.num done <= Js.num total)%Q) by (unfold Js.num; now rewrite <- Zle_Qle).
  pose proof (JsFacts.percent_nonneg (Js.num done) (Js.num total) DQ ltac:(lra)) as P0.
  pose proof (JsFacts.percent_le_100 (Js.num done) (Js.num total) DQ LE) as P1.
  split.
  - now apply round_nonneg.
  - apply JsFacts.round_le. change (inject_Z 100) with 100%Q. lra.
Qed.

Lemma count_distinct_filter {A : Type} (id : A -> Z) (p : A -> bool) (l : list A) :
  0 <= count_distinct (map id (filter p l)) <= count_distinct (map id l).
Proof.
  unfold count_distinct. split; [lia|]. apply inj_le.
  apply NoDup_incl_length; [apply NoDup_nodup|].
  intros x Hx. apply nodup_In in Hx. apply nodup_In.
  apply in_map_iff in Hx as (a & <- & Ha). apply filter_In in Ha as [Ha _].
  now apply in_map.
Qed.

Lemma getSubjectProgress_healthy (userId startDate : Z)
  (subjectCodes : option (list string)) (t : Tables) :
  exists l,
    getSubjectProgress userId startDate subjectCodes (healthy t) =
      (Resolved l, healthy t) /\
    Forall (fun s => 0 <= sp_taskCompletionRate s <= 100) l.
Proof.
  unfold getSubjectProgress. rewrite select_healthy.
  eexists. split; [reflexivity|].
  apply Forall_forall. intros s Hs. apply in_map_iff in Hs as (r & <- & _).
  cbn [sp_taskCompletionRate]. apply rate_range, count_distinct_filter.
Qed.

Lemma toFixed2_nonneg (x : Q) : (0 <= x)%Q -> (0 <= toFixed2 x)%Q.
Proof.
  intros H. apply JsFacts.fl_nonneg in H. unfold toFixed2, Js.parseFloat.
  apply JsFacts.fl_nonneg.
  assert (B : Qle_bool 0 (Js.fl x) = true) by now apply Qle_bool_iff.
  rewrite B. apply div_nonneg; [|lra].
  apply inject_Z_nonneg, round_nonneg. apply Qmult_le_0_compat; lra.
Qed.

Lemma getStudyHoursAnalytics_healthy (now userId startDate : Z) (t : Tables) :
  Forall (fun r => 0 <= hours r)%Q (study_logs t) ->
  exists s,
    getStudyHoursAnalytics now userId startDate (healthy t) = (Resolved s, healthy t) /\
    (0 <= sh_averageHours s)%Q.
Proof.
  intros S. unfold getStudyHoursAnalytics.
  rewrite (bind_resolved _ _ _ _ _ (select_healthy _ t)).
  match goal with |- context [order_by_asc s_date ?l] =>
    assert (F : Forall (fun r => 0 <= hours r)%Q (order_by_asc s_date l));
    [|generalize dependent (order_by_asc s_date l)] end.
  { apply Forall_forall. intros r Hr.
    apply (Permutation_in _ (Permutation_sym (sort_perm _ _))) in Hr.
    apply filter_In in Hr as [Hr _]. revert r Hr. now apply Forall_forall. }
  intros daily F.
  destruct (answers_getPreviousPeriodComparison now userId study_hours startDate t)
    as [p Ep].
  rewrite (bind_resolved _ _ _ _ _ Ep).
  match goal with |- context [calculateGoalProgress ?u ?m ?v] =>
    destruct (answers_calculateGoalProgress u m v t) as [g Eg] end.
  rewrite (bind_resolved _ _ _ _ _ Eg).
  eexists. split; [reflexivity|]. cbn [sh_averageHours].
  destruct (0 <? length daily)%nat; [|lra].
  apply toFixed2_nonneg, JsFacts.js_div_nonneg; [|apply len_nonneg].
  apply JsFacts.js_sum_nonneg.
  apply Forall_forall. intros v Hv. apply in_map_iff in Hv as (r & <- & Hr).
  apply JsFacts.fl_nonneg. revert r Hr. now apply Forall_forall.
Qed.

Lemma getTaskCompletionAnalytics_healthy (userId startDate : Z)
  (subjectCodes : option (list string)) (t : Tables) :
  exists c,
    getTaskCompletionAnalytics userId startDate subjectCodes (healthy t) =
      (Resolved c, healthy t) /\
    0 <= tc_overallCompletionRate c <= 100.
Proof.
  unfold getTaskCompletionAnalytics, query_unread.
  rewrite !(bind_resolved _ _ _ _ _ (select_healthy _ t)).
  cbv beta iota zeta.
  eexists. split; [reflexivity|]. cbn [tc_overallCompletionRate].
  apply rate_range.
  match goal with |- 0 <= ?a + ?b <= ?c + ?d =>
    assert (0 <= a <= c) by apply count_distinct_filter;
    assert (0 <= b <= d) by apply count_distinct_filter end.
  lia.
Qed.

Lemma sum_z_range (l : list Z) :
  Forall (fun p => 0 <= p <= 100) l -> 0 <= sum_z l <= 100 * Z.of_nat (length l).
Proof.
  intros F. unfold sum_z.
  assert (G : forall a, a <= fold_left Z.add l a <= a + 100 * Z.of_nat (length l)).
  { induction F as [|p l Hp _ IH]; intros a; cbn [fold_left length]; [lia|].
    specialize (IH (a + p)). lia. }
  specialize (G 0). lia.
Qed.

Lemma mean_of_percentages (l : list Z) :
  Forall (fun p => 0 <= p <= 100) l -> (0 < length l)%nat ->
  (0 <= Js.div (Js.num (sum_z l)) (Js.len l) /\
   Js.div (Js.num (sum_z l)) (Js.len l) <= 801 # 8)%Q.
Proof.
  intros F L. apply JsFacts.mean_le; [now apply sum_z_range|lia].
Qed.

(** X18: the productivity score of the education data of any user lies
    between 0 and 100, on any store that answers and whose study hours are
    not negative: the completion rates that [calculateEducationProgress]
    computes are percentages, since the completed tasks counted are among
    the tasks counted. *)
Theorem productivityScore_of_progress_range (now later userId days : Z)
  (subjectCodes : option (list string)) (t : Tables) :
  Forall (fun r => 0 <= hours r)%Q (study_logs t) ->
  exists educationData,
    calculateEducationProgress now later userId days subjectCodes (healthy t) =
      (Resolved educationData, healthy t) /\
    0 <= calculateOverallProductivityScore educationData <= 100.
Proof.
  intros N. unfold calculateEducationProgress.
  set (startDate := minusDays now days).
  destruct (getSubjectProgress_healthy userId startDate subjectCodes t) as (sp & Esp & Fsp).
  destruct (getStudyHoursAnalytics_healthy later userId startDate t N) as (sh & Esh & Hsh).
  destruct (getTaskCompletionAnalytics_healthy userId startDate subjectCodes t)
    as (tc & Etc & Htc).
  assert (U : answers getUnitProgress) by (unfold getUnitProgress, query_unread; answer).
  assert (P : answers (getStudyPatternAnalysis later userId startDate)).
  { unfold getStudyPatternAnalysis, query_unread, calculateStudyConsistencyPatterns.
    answer. }
  assert (S : answers getEducationSummary)
    by (unfold getEducationSummary, query_unread; answer).
  destruct (U t) as [up Eup]. destruct (P t) as [pa Epa]. destruct (S t) as [su Esu].
  rewrite (bind_resolved _ _ _ _ _ Esp), (bind_resolved _ _ _ _ _ Esh),
    (bind_resolved _ _ _ _ _ Etc), (bind_resolved _ _ _ _ _ Eup),
    (bind_resolved _ _ _ _ _ Epa), (bind_resolved _ _ _ _ _ Esu).
  eexists. split; [reflexivity|].
  unfold calculateOverallProductivityScore.
  cbn [ed_studyHours ed_taskCompletion ed_subjectProgress].
  apply (score_of_range (0 + 1 + 1 + 1)); [lia|].
  assert (A2 : score_in_range (0 + 1 + 1)
                 (add_metric (Some tc) (fun c => Js.num (tc_overallCompletionRate c))
                    (add_metric (Some sh)
                       (fun s => Js.min (Js.mul (Js.div (sh_averageHours s) 4) 100) 100)
                       (0%Q, 0)))).
  { repeat (apply add_metric_range; [lia| |]).
    - simpl. now apply percentage_num.
    - simpl.
      assert (X : (0 <= Js.mul (Js.div (sh_averageHours sh) 4) 100)%Q)
        by (apply JsFacts.percent_nonneg; [exact Hsh|discriminate]).
      unfold Js.min. destruct (Qle_bool _ 100) eqn:B.
      + apply Qle_bool_iff in B. split; assumption.
      + split; lra.
    - unfold score_in_range. simpl. split; [lia|]. split; [lra|].
      change (inject_Z 0) with 0%Q. lra. }
  destruct (0 <? length sp)%nat eqn:Len.
  - apply Nat.ltb_lt in Len.
    destruct (mean_of_percentages (map sp_taskCompletionRate sp)) as [M0 M1].
    { apply Forall_forall. intros p Hp. apply in_map_iff in Hp as (s & <- & Hs).
      revert s Hs. now apply Forall_forall. }
    { now rewrite length_map. }
    unfold Js.len in M0, M1. rewrite length_map in M0, M1.
    fold (Js.len sp) in M0, M1.
    destruct A2 as (A & B & C). unfold score_in_range. cbn [fst snd] in *.
    split; [lia|]. apply add_range; try assumption. lia.
  - destruct A2 as (A & B & C). unfold score_in_range. split; [lia|now split].
Qed.

(** On 7 January at noon, user 1 of the study example has studied 2.9 hours
    a day on average, completed two tasks of three, and all of the tasks of
    one subject and half of those of the other: the score is the rounded
    mean of 72.5, 67 and 75. *)
Example productivityScore_of_study_example :
  match fst (calculateEducationProgress (jan1 + day 6 + 43200000)
               (jan1 + day 6 + 43200040) 1 30 None (healthy educationTables)) with
  | Resolved educationData =>
      (option_map sh_averageHours (ed_studyHours educationData),
       option_map tc_overallCompletionRate (ed_taskCompletion educationData),
       option_map (map sp_taskCompletionRate) (ed_subjectProgress educationData),
       calculateOverallProductivityScore educationData)
  | Rejected _ => (None, None, None, 0)
  end = (Some (Js.fl (29 # 10)), Some 67, Some [100; 50], 72).
Proof. vm_compute. reflexivity. Qed.

(** The theorem for user 1 on the store of the study example with its
    curriculum, read on 7 January at noon. *)
Lemma productivityScore_of_progress_range_witness :
  Forall (fun r => 0 <= hours r)%Q (study_logs educationTables) /\
  exists educationData,
    calculateEducationProgress (jan1 + day 6 + 43200000) (jan1 + day 6 + 43200040)
      1 30 None (healthy educationTables) =
      (Resolved educationData, healthy educationTables) /\
    0 <= calculateOverallProductivityScore educationData <= 100.
Proof.
  assert (H : Forall (fun r => 0 <= hours r)%Q (study_logs educationTables))
    by (repeat constructor; discriminate).
  split; [exact H|].
  exact (productivityScore_of_progress_range (jan1 + day 6 + 43200000)
           (jan1 + day 6 + 43200040) 1 30 None educationTables H).
Defined.

(** ** InsightEngine: the stages and the result *)

Lemma push_correlation_shape (PI : Insight -> Prop) (PR : Recommendation -> Prop)
  (c : option Correlation) (acc : CrossDomain) (n : nat) :
  option_holds (fun c => PI (cor_insight c) /\ option_holds PR (cor_recommendation c)) c ->
  (length (cd_recommendations acc) <= length (cd_insights acc) <= n)%nat /\
  Forall PI (cd_insights acc) /\ Forall PR (cd_recommendations acc) ->
  let r := push_correlation c acc in
  (length (cd_recommendations r) <= length (cd_insights r) <= S n)%nat /\
  Forall PI (cd_insights r) /\ Forall PR (cd_recommendations r).
Proof.
  intros Hc (L & FI & FR). destruct c as [c|]; cbv zeta; cbn [push_correlation].
  - destruct Hc as [Hi Hr]. cbn [cd_insights cd_recommendations].
    destruct (cor_recommendation c) as [rec|]; rewrite ?length_app; cbn [length].
    + split; [lia|]. split; apply Forall_app; split; auto.
    + split; [lia|]. split; [|exact FR]. apply Forall_app; split; auto.
  - split; [lia|]. split; assumption.
Qed.

(** X19: the cross-domain stage returns at most three insights and never
    more recommendations than insights. Each insight is a correlation
    stamped with the clock reading, a warning or a positive one, and
    actionable exactly when it is a warning; each recommendation is an
    actionable correlation of high or medium priority. *)
Theorem generateCrossDomainInsights_shape (now : Z) (healthData : HealthData)
  (educationData : EducationData) :
  let r := generateCrossDomainInsights now healthData educationData in
  (length (cd_recommendations r) <= length (cd_insights r) <= 3)%nat /\
  Forall (fun i => i_type i = "correlation" /\ i_timestamp i = now /\
                   (i_severity i = warning \/ i_severity i = positive) /\
                   (i_actionable i = true <-> i_severity i = warning))
         (cd_insights r) /\
  Forall (fun c => r_type c = "correlation" /\ r_actionable c = true /\
                   (r_priority c = high \/ r_priority c = medium))
         (cd_recommendations r).
Proof.
  cbv zeta. unfold generateCrossDomainInsights.
  set (PI := fun i => i_type i = "correlation" /\ i_timestamp i = now /\
                      (i_severity i = warning \/ i_severity i = positive) /\
                      (i_actionable i = true <-> i_severity i = warning)).
  set (PR := fun c => r_type c = "correlation" /\ r_actionable c = true /\
                      (r_priority c = high \/ r_priority c = medium)).
  assert (T : forall a b x y,
             option_holds (fun c => PI (cor_insight c) /\
                                    option_holds PR (cor_recommendation c))
               (analyzeHealthStudyCorrelation now a b x y)).
  { intros a b x y. destruct a, b; simpl; auto;
      (split; [|repeat split; auto]); repeat split; auto; discriminate. }
  assert (W : option_holds (fun c => PI (cor_insight c) /\
                                     option_holds PR (cor_recommendation c))
                (analyzeOverallWellnessProductivity now healthData educationData)).
  { unfold analyzeOverallWellnessProductivity.
    destruct (_ && _); [|destruct (_ && _)]; simpl; auto;
      (split; [|repeat split; auto]); repeat split; auto; discriminate. }
  assert (B : (length (@nil Recommendation) <= length (@nil Insight) <= 0)%nat /\
              Forall PI [] /\ Forall PR []) by (simpl; auto).
  destruct (negb _ || negb _); [simpl; split; [lia|]; split; constructor|].
  apply push_correlation_shape; [exact W|].
  assert (S1 : forall acc n,
             (length (cd_recommendations acc) <= length (cd_insights acc) <= n)%nat /\
             Forall PI (cd_insights acc) /\ Forall PR (cd_recommendations acc) ->
             (length (cd_recommendations acc) <= length (cd_insights acc) <= S n)%nat /\
             Forall PI (cd_insights acc) /\ Forall PR (cd_recommendations acc)).
  { intros acc n (L & F). split; [lia|exact F]. }
  destruct (hd_exercise healthData) as [x|], (ed_studyHours educationData) as [s|];
    destruct (hd_waterIntake healthData) as [w|];
    repeat first [ apply push_correlation_shape; [apply T|]
                 | apply S1 ];
    exact B.
Qed.

Lemma answers_countDataPoints (userId startDate : Z) (requestedMetrics : list string) :
  forall total, answers (countDataPoints userId startDate requestedMetrics total).
Proof.
  induction requestedMetrics as [|metric rest IH]; intros total; simpl.
  - answer.
  - destruct (summary_column metric); [|apply IH]. answer.
Qed.

Lemma answers_aggregateHealthData (now later userId days : Z)
  (metrics : option (list string)) :
  answers (aggregateHealthData now later userId days metrics).
Proof.
  pose proof answers_countDataPoints as C.
  unfold aggregateHealthData, when_requested, getWaterIntakeAnalytics,
    getExerciseAnalytics, getPeriodAnalytics, getConstipationAnalytics,
    getKriyaAnalytics, getTypingAnalytics, getHealthSummary,
    calculateConsistencyRate, getPreviousPeriodComparison, calculateGoalProgress.
  answer.
Qed.

Lemma answers_calculateEducationProgress (now later userId days : Z)
  (subjectCodes : option (list string)) :
  answers (calculateEducationProgress now later userId days subjectCodes).
Proof.
  unfold calculateEducationProgress, getSubjectProgress, getStudyHoursAnalytics,
    getTaskCompletionAnalytics, getUnitProgress, getStudyPatternAnalysis,
    getEducationSummary, query_unread, getPreviousPeriodComparison,
    calculateGoalProgress, calculateStudyConsistencyPatterns.
  answer.
Qed.

Lemma filter_length_perm {A : Type} (p : A -> bool) (l l' : list A) :
  Permutation l l' -> length (filter p l) = length (filter p l').
Proof.
  induction 1 as [|x l l' _ IH|x y l|l l' l'' _ IH1 _ IH2]; simpl.
  - reflexivity.
  - destruct (p x); simpl; now rewrite IH.
  - destruct (p x), (p y); reflexivity.
  - now rewrite IH1.
Qed.

(** X20: the result of [generateInsights] on a store that answers, for any
    per-domain analyzers. Its insights are those of the health stage, the
    education stage and the cross-domain stage, none lost and none added,
    in the order of the ranker, and likewise its recommendations;
    totalInsights is the number of insights of the three stages,
    actionableRecommendations is the number of their actionable
    recommendations, the milestones are those of the two per-domain stages
    in that order, and generatedAt is the last clock reading. *)
Theorem generateInsights_result (this : DomainAnalyzers) (clock : Readings) (userId : Z)
  (t : Tables) :
  let now := stamp clock in
  exists result healthData educationData,
    generateInsights this clock userId (healthy t) = (Resolved result, healthy t) /\
    aggregateHealthData (health_start clock) (health_later clock) userId 30 None
      (healthy t) = (Resolved healthData, healthy t) /\
    calculateEducationProgress (education_start clock) (education_later clock)
      userId 30 None (healthy t) = (Resolved educationData, healthy t) /\
    let health := generateHealthInsights this now healthData in
    let education := generateEducationInsights this now educationData in
    let crossDomain := generateCrossDomainInsights now healthData educationData in
    let allInsights :=
      an_insights health ++ an_insights education ++ cd_insights crossDomain in
    let allRecommendations :=
      an_recommendations health ++ an_recommendations education ++
      cd_recommendations crossDomain in
    RankSpec.stable_sort_of RankSpec.insightKey allInsights (insights result) /\
    RankSpec.stable_sort_of RankSpec.recommendationKey allRecommendations
      (recommendations result) /\
    totalInsights result = Z.of_nat (length allInsights) /\
    actionableRecommendations result =
      Z.of_nat (length (filter (fun r => r_actionable r) allRecommendations)) /\
    actionableRecommendations result <= Z.of_nat (length (recommendations result)) /\
    milestones result = an_milestones health ++ an_milestones education /\
    generatedAt result = now.
Proof.
  intros now.
  destruct (answers_aggregateHealthData (health_start clock) (health_later clock)
              userId 30 None t) as [h Eh].
  destruct (answers_calculateEducationProgress (education_start clock)
              (education_later clock) userId 30 None t) as [e Ee].
  unfold generateInsights. fold now.
  rewrite (bind_resolved _ _ _ _ _ Eh), (bind_resolved _ _ _ _ _ Ee).
  eexists _, h, e. split; [reflexivity|]. split; [exact Eh|]. split; [exact Ee|].
  cbv zeta.
  cbn [insights recommendations totalInsights actionableRecommendations milestones
       generatedAt].
  set (allInsights := _ ++ _ ++ cd_insights _).
  set (allRecommendations := _ ++ _ ++ cd_recommendations _).
  pose proof (sort_by_key compareInsights RankSpec.insightKey compareInsights_key
                allInsights) as SI.
  pose proof (sort_by_key compareRecommendations RankSpec.recommendationKey
                compareRecommendations_key allRecommendations) as SR.
  fold (sortInsightsBySeverity allInsights) in SI.
  fold (prioritizeRecommendations allRecommendations) in SR.
  split; [exact SI|]. split; [exact SR|].
  destruct SI as (PI & _), SR as (PR & _).
  split; [now rewrite (Permutation_length PI)|].
  split; [now rewrite (filter_length_perm _ _ _ PR)|].
  split; [|split; reflexivity].
  apply inj_le. clear. induction (prioritizeRecommendations _) as [|r l IH]; simpl; [lia|].
  destruct (r_actionable r); simpl; lia.
Qed.

(** ** GoalTracker: notifications of achieved goals *)

(** One turn of the loop appends the notification of the goal and at most
    one milestone. *)
Lemma notify_appends (now userId : Z) (acc : list Notification) (goal : AchievedGoal) :
  exists n ms,
    notify now userId acc goal = acc ++ n :: ms /\
    is_achievement n = true /\ n_goalId n = Some (g_id (ag_goal goal)) /\
    n_userId n = userId /\ n_createdAt n = now /\ n_priority n = high /\
    (length ms <= 1)%nat /\
    Forall (fun m => is_achievement m = false /\ n_userId m = userId /\
                     n_createdAt m = now /\ n_priority m = medium) ms.
Proof.
  unfold notify.
  destruct (String.eqb_spec (g_type (ag_goal goal)) "health") as [H|H].
  - rewrite H. cbn [String.eqb Ascii.eqb Bool.eqb andb].
    destruct (String.eqb (g_metric (ag_goal goal)) "water_intake" &&
              (ag_achievedValue goal >=? 2000)).
    + eexists _, [_]. rewrite <- app_assoc. split; [reflexivity|].
      repeat split; auto.
    + eexists _, []. split; [reflexivity|]. repeat split; auto.
  - cbn [andb].
    destruct (String.eqb (g_type (ag_goal goal)) "education" &&
              String.eqb (g_metric (ag_goal goal)) "study_hours" &&
              (ag_achievedValue goal >=? 4)).
    + eexists _, [_]. rewrite <- app_assoc. split; [reflexivity|].
      repeat split; auto.
    + eexists _, []. split; [reflexivity|]. repeat split; auto.
Qed.

Lemma notifications_from (now userId : Z) (achievedGoals : list AchievedGoal) :
  forall acc,
    let ns := fold_left (notify now userId) achievedGoals acc in
    map n_goalId (filter is_achievement ns) =
      map n_goalId (filter is_achievement acc) ++
      map (fun a => Some (g_id (ag_goal a))) achievedGoals /\
    (length acc + length achievedGoals <= length ns
     <= length acc + 2 * length achievedGoals)%nat /\
    (Forall (fun n => n_userId n = userId /\ n_createdAt n = now /\
                      n_priority n = if is_achievement n then high else medium) acc ->
     Forall (fun n => n_userId n = userId /\ n_createdAt n = now /\
                      n_priority n = if is_achievement n then high else medium) ns).
Proof.
  induction achievedGoals as [|goal rest IH]; intros acc; cbv zeta.
  - simpl. rewrite app_nil_r. split; [reflexivity|]. split; [lia|auto].
  - cbn [fold_left].
    destruct (notify_appends now userId acc goal)
      as (n & ms & E & A & G & U & C & P & L & F).
    destruct (IH (notify now userId acc goal)) as (I1 & I2 & I3).
    rewrite E in *. split; [|split].
    + rewrite I1. rewrite filter_app. cbn [filter]. rewrite A.
      assert (N : filter is_achievement ms = []).
      { apply filter_none. intros m Hm.
        rewrite Forall_forall in F. now apply F. }
      rewrite N, map_app. cbn [map]. rewrite G, <- app_assoc. reflexivity.
    + rewrite length_app in I2. cbn [length] in *. lia.
    + intros Facc. apply I3. apply Forall_app. split; [exact Facc|].
      constructor.
      * rewrite A. auto.
      * eapply Forall_impl; [|exact F]. intros m (M1 & M2 & M3 & M4).
        rewrite M1. auto.
Qed.

(** X21: the notifications of a list of achieved goals hold exactly one
    goal_achievement for each goal, in the order of the goals and with the
    id of its goal; together with the milestones there are at most two
    notifications for a goal; every notification is addressed to the user
    and stamped with the clock reading, the achievements with high and the
    milestones with medium priority. *)
Theorem generateAchievementNotifications_one_each (now userId : Z)
  (achievedGoals : list AchievedGoal) :
  let notifications := generateAchievementNotifications now userId achievedGoals in
  map n_goalId (filter is_achievement notifications) =
    map (fun a => Some (g_id (ag_goal a))) achievedGoals /\
  (length achievedGoals <= length notifications <= 2 * length achievedGoals)%nat /\
  Forall (fun n => n_userId n = userId /\ n_createdAt n = now /\
                   n_priority n = if is_achievement n then high else medium)
         notifications.
Proof.
  cbv zeta. unfold generateAchievementNotifications.
  destruct (notifications_from now userId achievedGoals []) as (M & L & F).
  split; [exact M|]. split; [exact L|]. apply F. constructor.
Qed.

(** X22: the controller of the achievement check always answers. Either no
    query was rejected: the status is 200, the body carries the goals that
    the service returned, their number as count and one goal_achievement
    notification for each of them, in order; or one query was rejected: the
    status is 500 and the body is the failure, whatever had been written
    before the rejection. *)
Theorem checkGoalAchievements_controller_outcomes (now userId : Z) (db : Db) :
  let outcome := checkGoalAchievements_controller now userId db in
  (exists body,
      fst outcome = Resolved {| res_status := 200; res_body := Success body |} /\
      rejected (snd outcome) = rejected db /\
      checkGoalAchievements now userId db =
        (Resolved (ac_achievedGoals body), snd outcome) /\
      ac_count body = Z.of_nat (length (ac_achievedGoals body)) /\
      map n_goalId (filter is_achievement (ac_notifications body)) =
        map (fun a => Some (g_id (ag_goal a))) (ac_achievedGoals body)) \/
  (fst outcome =
     Resolved {| res_status := 500;
                 res_body := Failure "Failed to check goal achievements" |} /\
   fst (checkGoalAchievements now userId db) = Rejected queryError /\
   rejected (snd outcome) = S (rejected db)).
Proof.
  cbv zeta. unfold checkGoalAchievements_controller, try_catch, bind.
  destruct (propagates_checkGoalAchievements now userId db) as [(a & E & _ & R)|[E R]];
    destruct (checkGoalAchievements now userId db) as [[achieved|e] db1];
    cbn [fst snd] in *; try discriminate.
  - left. eexists. split; [reflexivity|]. split; [exact R|].
    cbn [ac_achievedGoals ac_count ac_notifications].
    split; [reflexivity|]. split; [reflexivity|].
    unfold generateAchievementNotifications.
    now destruct (notifications_from now userId achieved []) as (M & _).
  - right. injection E as ->. auto.
Qed.

(** ** GoalTracker: the report of all goals and the history *)

Lemma calculateDetailedGoalProgress_range (now userId : Z) (goal : GoalRow) (t : Tables) :
  nonnegative_logs t ->
  exists dp,
    calculateDetailedGoalProgress now userId goal (healthy t) = (Resolved dp, healthy t) /\
    0 <= dp_progress dp <= 100.
Proof.
  intros NN.
  destruct (getGoalTrend_healthy now userId (g_metric goal) (g_type goal) t) as [tr Etr].
  unfold calculateDetailedGoalProgress.
  rewrite (bind_resolved _ _ _ _ _ (getCurrentMetricValue_metricValue now userId t goal)).
  rewrite (bind_resolved _ _ _ _ _ Etr).
  eexists. split; [reflexivity|]. cbn [dp_progress].
  pose proof (metricValue_nonneg now userId t goal NN) as C.
  apply inject_Z_nonneg in C.
  destruct (Js.gt (Js.parseFloat (g_target goal)) 0) eqn:G; [|lia].
  apply gt_zero_inv in G.
  assert (R : 0 <= Js.round (Js.mul (Js.div (Js.num (metricValue now userId t goal))
                                        (Js.parseFloat (g_target goal))) 100)).
  { apply round_nonneg, JsFacts.percent_nonneg; [exact C|lra]. }
  lia.
Qed.

Lemma processGoalProgress_loop_healthy (now userId : Z) (t : Tables) (rows : list GoalRow) :
  nonnegative_logs t ->
  forall goals,
    exists more,
      processGoalProgress_loop now userId rows goals (healthy t) =
        (Resolved (goals ++ more), healthy t) /\
      map gw_goal more = rows /\
      Forall (fun g => 0 <= dp_progress (gw_progress g) <= 100) more.
Proof.
  intros NN. induction rows as [|goal rest IH]; intros goals.
  - exists []. rewrite app_nil_r. repeat split. constructor.
  - cbn [processGoalProgress_loop].
    destruct (calculateDetailedGoalProgress_range now userId goal t NN) as (dp & E & B).
    rewrite (bind_resolved _ _ _ _ _ E).
    destruct (IH (goals ++ [{| gw_goal := goal; gw_progress := dp |}]))
      as (more & E' & M & F).
    exists ({| gw_goal := goal; gw_progress := dp |} :: more).
    rewrite E', <- app_assoc. split; [reflexivity|]. split.
    + cbn [map gw_goal]. now rewrite M.
    + constructor; [exact B|exact F].
Qed.

Lemma sum_progress_range (goals : list GoalWithProgress) :
  Forall (fun g => 0 <= dp_progress (gw_progress g) <= 100) goals ->
  forall a,
    a <= fold_left (fun sum g => sum + dp_progress (gw_progress g)) goals a
      <= a + 100 * Z.of_nat (length goals).
Proof.
  induction 1 as [|g l Hg _ IH]; intros a; cbn [fold_left length]; [lia|].
  specialize (IH (a + dp_progress (gw_progress g))). lia.
Qed.

Lemma filter_length_le {A : Type} (p : A -> bool) (l : list A) :
  (length (filter p l) <= length l)%nat.
Proof. induction l as [|x l IH]; simpl; [lia|]. destruct (p x); simpl; lia. Qed.

Lemma filter_disjoint_length {A : Type} (p q : A -> bool) (l : list A) :
  (forall x, p x = true -> q x = false) ->
  (length (filter p l) + length (filter q l) <= length l)%nat.
Proof.
  intros D. induction l as [|x l IH]; simpl; [lia|].
  destruct (p x) eqn:P; [rewrite (D x P)|destruct (q x)]; simpl; lia.
Qed.

(** X23: the report of [processGoalProgress] on a store that answers and
    whose logged quantities are not negative. It lists the goals of the
    user, each exactly once, newest first; total is their number; the
    active and the completed goals together, and the goals on track, are at
    most that many; the progress of every goal and the average progress lie
    between 0 and 100; nothing is written. *)
Theorem processGoalProgress_report (now userId : Z) (t : Tables) :
  nonnegative_logs t ->
  exists report,
    processGoalProgress now userId (healthy t) = (Resolved report, healthy t) /\
    map gw_goal (gr_goals report) =
      order_by_desc g_created_at
        (filter (fun g => g_user_id g =? userId) (user_goals t)) /\
    let s := gr_summary report in
    su_total s =
      Z.of_nat (length (filter (fun g => g_user_id g =? userId) (user_goals t))) /\
    0 <= su_active s /\ 0 <= su_completed s /\
    su_active s + su_completed s <= su_total s /\
    0 <= su_onTrack s <= su_total s /\
    Forall (fun g => 0 <= dp_progress (gw_progress g) <= 100) (gr_goals report) /\
    0 <= su_averageProgress s <= 100.
Proof.
  intros NN. unfold processGoalProgress.
  rewrite (bind_resolved _ _ _ _ _ (select_healthy _ t)).
  set (rows := order_by_desc g_created_at _).
  destruct (processGoalProgress_loop_healthy now userId t rows NN [])
    as (goals & E & M & F).
  cbn [app] in E. rewrite (bind_resolved _ _ _ _ _ E).
  eexists. split; [reflexivity|]. cbn [gr_goals gr_summary]. split; [exact M|].
  cbv zeta. cbn [su_total su_active su_completed su_onTrack su_averageProgress].
  assert (L : length goals =
              length (filter (fun g => g_user_id g =? userId) (user_goals t))).
  { rewrite <- (length_map gw_goal), M. unfold rows, order_by_desc.
    symmetry. apply Permutation_length, sort_perm. }
  split; [now rewrite L|]. split; [lia|]. split; [lia|]. split.
  - rewrite <- Nat2Z.inj_add. apply inj_le. apply filter_disjoint_length.
    intros g. now destruct (g_status (gw_goal g)).
  - split; [split; [lia|apply inj_le, filter_length_le]|]. split; [exact F|].
    destruct (0 <? length goals)%nat eqn:P; [|lia].
    apply Nat.ltb_lt in P.
    pose proof (sum_progress_range goals F 0) as [S0 S1].
    set (total := fold_left _ goals 0) in *.
    assert (PQ : (0 < Js.len goals)%Q).
    { unfold Js.len. change 0%Q with (inject_Z 0). rewrite <- Zlt_Qlt. lia. }
    split.
    + apply round_nonneg, div_nonneg; [now apply inject_Z_nonneg|lra].
    + apply JsFacts.round_le. change (inject_Z 100) with 100%Q.
      assert (D : (Js.num total / Js.len goals <= 100)%Q).
      { apply Qle_shift_div_r; [exact PQ|]. unfold Js.num, Js.len.
        change 100%Q with (inject_Z 100). rewrite <- inject_Z_mult, <- Zle_Qle. lia. }
      lra.
Qed.

(** The theorem for user 1 on the store of the water example. *)
Lemma processGoalProgress_report_witness :
  nonnegative_logs waterTables /\
  exists report,
    processGoalProgress (day 19005) 1 (healthy waterTables) =
      (Resolved report, healthy waterTables) /\
    0 <= su_averageProgress (gr_summary report) <= 100.
Proof.
  split; [exact waterTables_nonnegative|].
  destruct (processGoalProgress_report (day 19005) 1 waterTables waterTables_nonnegative)
    as (report & E & _ & _ & _ & _ & _ & _ & _ & A).
  exists report. split; [exact E|exact A].
Defined.

Lemma ceil_nonneg (x : Q) : (0 <= x)%Q -> 0 <= Js.ceil x.
Proof.
  intros H. unfold Js.ceil, Qceiling.
  assert (F : Qfloor (- x) <= 0).
  { apply Z.lt_succ_r. rewrite Zlt_Qlt.
    apply Qle_lt_trans with (- x)%Q; [apply Qfloor_le|].
    change (inject_Z (Z.succ 0)) with 1%Q. lra. }
  lia.
Qed.

Lemma sum_days_nonneg (rows : list (Z * Z)) :
  Forall (fun '(createdAt, achievedAt) => createdAt <= achievedAt) rows ->
  forall a, 0 <= a ->
    0 <= fold_left (fun sum '(createdAt, achievedAt) =>
                      sum + Js.ceil (Js.num (achievedAt - createdAt) / Js.num msPerDay))
           rows a.
Proof.
  induction 1 as [|[c d] l H _ IH]; intros a Ha; cbn [fold_left]; [exact Ha|].
  apply IH.
  assert (0 <= Js.ceil (Js.num (d - c) / Js.num msPerDay)); [|lia].
  apply ceil_nonneg, div_nonneg; apply inject_Z_nonneg; [lia|].
  pose proof msPerDay_pos. lia.
Qed.

Lemma calculateAverageTimeToCompletion_healthy (userId : Z) (t : Tables) :
  (forall ug ga, In ug (user_goals t) -> In ga (goal_achievements t) ->
                 a_goal_id ga = g_id ug -> g_created_at ug <= achieved_at ga) ->
  exists avg,
    calculateAverageTimeToCompletion userId (healthy t) = (Resolved avg, healthy t) /\
    0 <= avg.
Proof.
  intros Dated. unfold calculateAverageTimeToCompletion.
  rewrite (bind_resolved _ _ _ _ _ (select_healthy _ t)).
  set (joined := flat_map _ _).
  assert (J : Forall (fun '(createdAt, achievedAt) => createdAt <= achievedAt) joined).
  { apply Forall_forall. intros [c d] H. unfold joined in H.
    apply in_flat_map in H as (ug & Hug & H).
    apply in_map_iff in H as (ga & Heq & Hga). injection Heq as <- <-.
    apply filter_In in Hug as [Hug _]. apply filter_In in Hga as [Hga Hid].
    apply Z.eqb_eq in Hid. now apply Dated. }
  destruct joined as [|j joined'] eqn:Ej.
  - exists 0. split; [reflexivity|lia].
  - eexists. split; [reflexivity|].
    apply round_nonneg, div_nonneg; [|apply len_nonneg].
    apply inject_Z_nonneg, sum_days_nonneg; [exact J|lia].
Qed.

(** X24: the completion statistics on a store that answers. In each of the
    three groups the completed goals are among the goals counted and the
    rate is a percentage; the health and the education goals together are
    at most all goals; the recent achievements are those of the user from
    the last 30 days; and the average time to completion is not negative
    when no achievement is dated before the creation of its goal. *)
Theorem calculateHistoricalCompletionRate_stats (now userId : Z) (t : Tables) :
  (forall ug ga, In ug (user_goals t) -> In ga (goal_achievements t) ->
                 a_goal_id ga = g_id ug -> g_created_at ug <= achieved_at ga) ->
  exists stats,
    calculateHistoricalCompletionRate now userId (healthy t) =
      (Resolved stats, healthy t) /\
    Forall (fun c => 0 <= cr_completed c <= cr_total c /\
                     0 <= cr_completionRate c <= 100)
      [cs_overall stats; cs_health stats; cs_education stats] /\
    cr_total (cs_health stats) + cr_total (cs_education stats)
      <= cr_total (cs_overall stats) /\
    cr_total (cs_overall stats) =
      Z.of_nat (length (filter (fun g => g_user_id g =? userId) (user_goals t))) /\
    Forall (fun r => a_user_id (ra_achievement r) = userId /\
                     minusDays now 30 <= achieved_at (ra_achievement r))
      (cs_recentAchievements stats) /\
    0 <= cs_averageTimeToCompletion stats.
Proof.
  intros Dated. unfold calculateHistoricalCompletionRate.
  destruct (calculateAverageTimeToCompletion_healthy userId t Dated) as (avg & Ea & Ha).
  rewrite (bind_resolved _ _ _ _ _ (select_healthy _ t)).
  rewrite (bind_resolved _ _ _ _ _ (select_healthy _ t)).
  rewrite (bind_resolved _ _ _ _ _ Ea).
  set (allGoals := filter (fun g => g_user_id g =? userId) (user_goals t)).
  eexists. split; [reflexivity|].
  cbn [cs_overall cs_health cs_education cs_recentAchievements cs_averageTimeToCompletion].
  split; [|split; [|split; [reflexivity|split; [|exact Ha]]]].
  - repeat constructor; cbn [cr_completed cr_total cr_completionRate];
      try lia; try (apply inj_le, filter_length_le);
      apply rate_range; (split; [lia|apply inj_le, filter_length_le]).
  - cbn [cr_total]. rewrite <- Nat2Z.inj_add. apply inj_le.
    apply filter_disjoint_length. intros g H.
    apply String.eqb_eq in H. rewrite H. reflexivity.
  - apply Forall_forall. intros r Hr.
    apply (Permutation_in _ (Permutation_sym (sort_perm _ _))) in Hr.
    apply in_flat_map in Hr as (ga & Hga & Hr).
    apply in_map_iff in Hr as (ug & <- & _). cbn [ra_achievement].
    apply filter_In in Hga as [_ Hga]. apply andb_true_iff in Hga as [U D].
    apply Z.eqb_eq in U. apply Z.leb_le in D. auto.
Qed.

Example calculateHistoricalCompletionRate_after_achievement :
  match fst (calculateHistoricalCompletionRate (day 19005) 1 (healthy achievedTables)) with
  | Resolved stats =>
      (cs_overall stats, cs_health stats, cs_education stats,
       map (fun r => a_goal_id (ra_achievement r)) (cs_recentAchievements stats),
       cs_averageTimeToCompletion stats)
  | Rejected _ =>
      ({| cr_total := 0; cr_completed := 0; cr_completionRate := 0 |},
       {| cr_total := 0; cr_completed := 0; cr_completionRate := 0 |},
       {| cr_total := 0; cr_completed := 0; cr_completionRate := 0 |}, [], 0)
  end =
  ({| cr_total := 2; cr_completed := 1; cr_completionRate := 50 |},
   {| cr_total := 2; cr_completed := 1; cr_completionRate := 50 |},
   {| cr_total := 0; cr_completed := 0; cr_completionRate := 0 |}, [1], 5).
Proof. vm_compute. reflexivity. Qed.

(** The theorem for user 1 on the store in which the first goal is
    completed, with its achievement dated after its creation. *)
Lemma calculateHistoricalCompletionRate_stats_witness :
  (forall ug ga, In ug (user_goals achievedTables) ->
                 In ga (goal_achievements achievedTables) ->
                 a_goal_id ga = g_id ug -> g_created_at ug <= achieved_at ga) /\
  exists stats,
    calculateHistoricalCompletionRate (day 19005) 1 (healthy achievedTables) =
      (Resolved stats, healthy achievedTables) /\
    cr_total (cs_overall stats) = 2 /\
    0 <= cs_averageTimeToCompletion stats.
Proof.
  assert (D : forall ug ga, In ug (user_goals achievedTables) ->
                            In ga (goal_achievements achievedTables) ->
                            a_goal_id ga = g_id ug -> g_created_at ug <= achieved_at ga).
  { intros ug ga Hu Hg I. simpl in Hu, Hg.
    destruct Hg as [<-|[]]. destruct Hu as [<-|[<-|[]]].
    - vm_compute. discriminate.
    - discriminate I. }
  split; [exact D|].
  destruct (calculateHistoricalCompletionRate_stats (day 19005) 1 achievedTables D)
    as (stats & E & _ & _ & T & _ & A).
  exists stats. split; [exact E|]. split; [exact T|exact A].
Defined.

(** ** PeriodAggregator: the weekly breakdown *)

Lemma weekKey_sunday (date : Z) :
  getDay (weekKey date) = 0 /\ startOfDay (weekKey date) = weekKey date /\
  weekKey date <= date < weekKey date + 7 * msPerDay.
Proof.
  pose proof msPerDay_pos as P.
  unfold weekKey, minusDays. rewrite startOfDay_idempotent.
  rewrite startOfDay_multiple. unfold getDay at 1.
  set (g := getDay date).
  assert (G : 0 <= g < 7) by (apply Z.mod_pos_bound; lia).
  assert (Q : (date - g * msPerDay) / msPerDay = date / msPerDay - g).
  { replace (date - g * msPerDay) with (date + (- g) * msPerDay) by lia.
    rewrite Z.div_add by lia. lia. }
  rewrite Q, (Z.mul_comm msPerDay), Z.div_mul by lia.
  pose proof (Z.mod_pos_bound date msPerDay P) as R.
  pose proof (Z.div_mod date msPerDay ltac:(lia)) as D.
  split; [|split; [reflexivity|nia]].
  unfold g, getDay.
  replace (date / msPerDay - (date / msPerDay + 4) mod 7 + 4)
    with ((date / msPerDay + 4) - (date / msPerDay + 4) mod 7) by lia.
  rewrite Zminus_mod, Z.mod_mod, Z.sub_diag by lia. reflexivity.
Qed.

Lemma add_to_week_keys (key : Z) (value : Q) (weeks : list WeekBucket) :
  forall k, In k (map wk_weekStart (add_to_week key value weeks)) <->
            k = key \/ In k (map wk_weekStart weeks).
Proof.
  induction weeks as [|w rest IH]; intros k; cbn [add_to_week].
  - simpl. intuition.
  - destruct (Z.eqb_spec (wk_weekStart w) key) as [E|N]; cbn [map In wk_weekStart].
    + intuition congruence.
    + rewrite IH. intuition.
Qed.

Lemma add_to_week_inv (d : Z) (value : Q) (seen : list (Z * Q)) (weeks : list WeekBucket) :
  weeks_inv seen weeks ->
  weeks_inv (seen ++ [(d, value)]) (add_to_week (weekKey d) value weeks).
Proof.
  intros [K V B E]. constructor.
  - clear V B E. induction weeks as [|w rest IH]; cbn [add_to_week].
    + repeat constructor. intros [].
    + cbn [map] in K. apply NoDup_cons_iff in K as [K1 K2].
      destruct (Z.eqb_spec (wk_weekStart w) (weekKey d)) as [Eq|N]; cbn [map wk_weekStart].
      * now constructor.
      * constructor; [|now apply IH].
        rewrite add_to_week_keys. intros [H|H]; [congruence|contradiction].
  - rewrite map_app. cbn [map snd].
    apply perm_trans with (flat_map wk_values weeks ++ [value]);
      [|now apply Permutation_app_tail].
    clear K V B E. induction weeks as [|w rest IH]; cbn [add_to_week].
    + reflexivity.
    + destruct (wk_weekStart w =? weekKey d); cbn [flat_map wk_values].
      * rewrite <- !app_assoc. apply Permutation_app_head, Permutation_app_comm.
      * rewrite <- app_assoc. now apply Permutation_app_head.
  - clear K V E. induction B as [|w rest (Hk & Hc & H1 & Ht) Brest IH]; cbn [add_to_week].
    + constructor; [|constructor]. cbn. split; [now exists d|].
      split; [reflexivity|]. split; [lia|reflexivity].
    + destruct (wk_weekStart w =? weekKey d).
      * constructor; [|exact Brest]. cbn [wk_weekStart wk_values wk_count wk_total].
        split; [exact Hk|]. rewrite length_app. cbn [length].
        split; [lia|]. split; [lia|].
        unfold Js.sum. rewrite fold_left_app. cbn [fold_left].
        now rewrite Ht.
      * constructor; [|exact IH]. auto.
  - intros d' v' H. apply in_app_iff in H as [H|H].
    + destruct (E d' v' H) as (w & Hw & Hk & Hv). clear K V B E H.
      induction weeks as [|w0 rest IH]; [destruct Hw|]. cbn [add_to_week].
      destruct Hw as [<-|Hw].
      * destruct (wk_weekStart w0 =? weekKey d).
        -- eexists. split; [now left|]. cbn [wk_weekStart wk_values].
           split; [exact Hk|]. apply in_app_iff. now left.
        -- exists w0. split; [now left|auto].
      * destruct (wk_weekStart w0 =? weekKey d).
        -- exists w. split; [now right|auto].
        -- destruct (IH Hw) as (w' & Hw' & R). exists w'. split; [now right|exact R].
    + destruct H as [H|[]]. injection H as <- <-. clear K V B E.
      induction weeks as [|w0 rest IH]; cbn [add_to_week].
      * eexists. split; [now left|]. cbn. auto.
      * destruct (Z.eqb_spec (wk_weekStart w0) (weekKey d)) as [Eq|N].
        -- eexists. split; [now left|]. cbn [wk_weekStart wk_values].
           split; [exact Eq|]. apply in_app_iff. right. now left.
        -- destruct IH as (w' & Hw' & R). exists w'. split; [now right|exact R].
Qed.

Lemma weeks_fold_inv (dailyData : list (Z * Q)) :
  forall seen weeks,
    weeks_inv seen weeks ->
    weeks_inv (seen ++ dailyData)
      (fold_left (fun weeks entry => add_to_week (weekKey (fst entry)) (snd entry) weeks)
         dailyData weeks).
Proof.
  induction dailyData as [|[d v] rest IH]; intros seen weeks I.
  - now rewrite app_nil_r.
  - cbn [fold_left fst snd].
    replace (seen ++ (d, v) :: rest) with ((seen ++ [(d, v)]) ++ rest)
      by now rewrite <- app_assoc.
    apply IH. now apply add_to_week_inv.
Qed.

(** X25: the weekly breakdown. The entries are distributed over the weeks
    without loss: the values of the weeks are those of the entries, and each
    entry lies in the week that holds its value, from its start to seven
    days later. Every week starts on the midnight of a Sunday, the weeks
    come in strictly ascending order of their start, and each counts at
    least one value, with the sum of its values as total and the rounded
    mean as average. *)
Theorem groupDataByWeek_weeks (dailyData : list (Z * Q)) :
  let weeks := groupDataByWeek dailyData in
  Permutation (flat_map (fun w => wk_values (week w)) weeks) (map snd dailyData) /\
  StronglySorted (fun a b => wk_weekStart (week a) < wk_weekStart (week b)) weeks /\
  Forall (fun w => getDay (wk_weekStart (week w)) = 0 /\
                   startOfDay (wk_weekStart (week w)) = wk_weekStart (week w) /\
                   wk_count (week w) = Z.of_nat (length (wk_values (week w))) /\
                   1 <= wk_count (week w) /\
                   wk_total (week w) = Js.sum (wk_values (week w)) /\
                   wk_average w =
                     Js.round (Js.div (wk_total (week w)) (Js.num (wk_count (week w)))))
         weeks /\
  forall d v, In (d, v) dailyData ->
    exists w, In w weeks /\
              wk_weekStart (week w) <= d < wk_weekStart (week w) + 7 * msPerDay /\
              In v (wk_values (week w)).
Proof.
  cbv zeta. unfold groupDataByWeek.
  set (buckets := fold_left _ dailyData []).
  assert (I : weeks_inv dailyData buckets).
  { apply (weeks_fold_inv dailyData [] []). constructor; simpl; auto.
    - constructor.
    - intros d v []. }
  destruct I as [K V B E].
  set (averaged := map _ buckets).
  set (compareFn := fun a b : Week => wk_weekStart (week a) - wk_weekStart (week b)).
  pose proof (sort_perm compareFn averaged) as P.
  assert (W : map week averaged = buckets).
  { unfold averaged. rewrite map_map. cbn [week]. apply map_id. }
  split; [|split; [|split]].
  - eapply perm_trans; [|exact V].
    rewrite <- W, (flat_map_concat_map wk_values), map_map, <- flat_map_concat_map.
    apply Permutation_flat_map, Permutation_sym, P.
  - assert (S : StronglySorted (fun a b => compareFn a b <= 0)
                  (JsArray.sort compareFn averaged)).
    { apply sort_sorted; unfold compareFn; intros; lia. }
    assert (N : NoDup (map (fun w => wk_weekStart (week w))
                         (JsArray.sort compareFn averaged))).
    { eapply Permutation_NoDup; [apply Permutation_map, P|].
      rewrite <- (map_map week wk_weekStart), W. exact K. }
    revert S N. generalize (JsArray.sort compareFn averaged).
    induction 1 as [|x l S IH F]; intros N; constructor.
    + apply IH. cbn [map] in N. now apply NoDup_cons_iff in N.
    + cbn [map] in N. apply NoDup_cons_iff in N as [N1 _].
      apply Forall_forall. intros y Hy.
      rewrite Forall_forall in F. specialize (F y Hy). unfold compareFn in F.
      assert (wk_weekStart (week x) <> wk_weekStart (week y)); [|lia].
      intros Eq. apply N1. rewrite Eq.
      now apply (in_map (fun w => wk_weekStart (week w))).
  - eapply Permutation_Forall; [exact P|].
    unfold averaged. apply Forall_forall. intros w Hw.
    apply in_map_iff in Hw as (b & <- & Hb). cbn [week wk_average].
    rewrite Forall_forall in B. destruct (B b Hb) as ((d & Hd) & Hc & H1 & Ht).
    destruct (weekKey_sunday d) as (S1 & S2 & _). rewrite Hd. auto 10.
  - intros d v H. destruct (E d v H) as (b & Hb & Hk & Hv).
    exists {| week := b;
              wk_average := Js.round (Js.div (wk_total b) (Js.num (wk_count b))) |}.
    split.
    + apply (Permutation_in _ P). unfold averaged.
      apply in_map_iff. now exists b.
    + cbn [week]. rewrite Hk. split; [apply weekKey_sunday|exact Hv].
Qed.

(** ** Routes of the profile *)

(** The streak update writes the streaks only, and always resolves. *)
Lemma updateUserStreak_frame (now userId : Z) (activityType : string) (date : Z)
  (isCompleted : bool) (db : Db) :
  exists result,
    fst (updateUserStreak now userId activityType date isCompleted db) = Resolved result /\
    without_streaks (tables (snd (updateUserStreak now userId activityType date
                                    isCompleted db))) =
    without_streaks (tables db).
Proof.
  unfold updateUserStreak, try_catch, bind.
  destruct (select_cases (fun t => user_streaks t !! (userId, activityType)) db)
    as [E|E]; rewrite E; [|eexists; split; reflexivity].
  destruct isCompleted.
  - run_execute; eexists; split; reflexivity.
  - destruct (user_streaks (tables db) !! (userId, activityType)) as [r|] eqn:L;
      [|eexists; split; reflexivity].
    destruct (last_activity_date r) as [last|]; [|eexists; split; reflexivity].
    match goal with |- context [if ?b then _ else _] => destruct b end;
      [|eexists; split; reflexivity].
    run_execute; eexists; split; reflexivity.
Qed.

Lemma upsert_water_valid (userId date amount_ml : Z) (t : Tables) :
  0 < amount_ml -> water_valid t ->
  water_valid (snd (upsert_water userId date amount_ml t)).
Proof.
  intros A [N F]. unfold upsert_water, water_valid. cbn [snd with_water water_intake].
  set (conflicts := fun r : WaterRow =>
         (w_user_id r =? userId) && (w_date r =? startOfDay date)).
  set (row := {| w_user_id := userId; w_date := startOfDay date; amount_ml := amount_ml |}).
  assert (C : forall r, conflicts r = true ->
                        (w_user_id r, w_date r) = (userId, startOfDay date)).
  { intros r H. unfold conflicts in H. apply andb_true_iff in H as [U D].
    apply Z.eqb_eq in U, D. now rewrite U, D. }
  destruct (existsb conflicts (water_intake t)) eqn:X.
  - split.
    + rewrite map_map.
      erewrite map_ext; [exact N|]. intros r. cbv beta.
      specialize (C r). unfold conflicts in C.
      destruct ((w_user_id r =? userId) && (w_date r =? startOfDay date));
        [now rewrite C|reflexivity].
    + apply Forall_forall. intros r Hr. apply in_map_iff in Hr as (r0 & <- & Hr0).
      destruct ((w_user_id r0 =? userId) && (w_date r0 =? startOfDay date)).
      * cbn. split; [exact A|apply startOfDay_idempotent].
      * rewrite Forall_forall in F. now apply F.
  - split.
    + rewrite map_app. cbn [map].
      apply NoDup_app; [exact N|repeat constructor; intros []|].
      intros k Hk [<-|[]]. apply in_map_iff in Hk as (r & Hk & Hr).
      assert (Cr : conflicts r = true).
      { unfold conflicts. cbn in Hk. injection Hk as -> ->. now rewrite !Z.eqb_refl. }
      assert (T : existsb conflicts (water_intake t) = true)
        by (apply existsb_exists; eauto).
      congruence.
    + apply Forall_app. split; [exact F|]. constructor; [|constructor].
      cbn. split; [exact A|apply startOfDay_idempotent].
Qed.

Lemma upsert_water_stores (userId date amount_ml : Z) (t : Tables) :
  In (fst (upsert_water userId date amount_ml t))
     (water_intake (snd (upsert_water userId date amount_ml t))).
Proof.
  unfold upsert_water. cbn [fst snd with_water water_intake].
  set (conflicts := fun r : WaterRow =>
         (w_user_id r =? userId) && (w_date r =? startOfDay date)).
  destruct (existsb conflicts (water_intake t)) eqn:X.
  - apply existsb_exists in X as (r & Hr & Cr).
    apply in_map_iff. exists r. unfold conflicts in Cr. now rewrite Cr.
  - apply in_app_iff. right. now left.
Qed.

Lemma water_of_without_streaks (t t' : Tables) :
  without_streaks t' = without_streaks t -> water_intake t' = water_intake t.
Proof. intros H. now apply (f_equal water_intake) in H. Qed.

(** X26: the answers of the route of the water entries, whatever the store
    does. A request without date or amount, or with an amount that is not
    positive, is answered 400 and asks the store nothing. Otherwise the
    answer is 201 with the entry written, which is then in the table,
    exactly when the upsert is not rejected, whether or not the update of
    the streak succeeds; when the upsert is rejected the answer is 500 and
    no table has changed. *)
Theorem addWaterIntake_responses (now userId : Z) (body : WaterRequest) (db : Db) :
  let outcome := addWaterIntake now userId body db in
  let bad_request :=
    {| rr_status := 400;
       rr_body := body_error "Date and valid amount (ml) are required" |} in
  match wr_date body, wr_amount_ml body with
  | Some date, Some amount_ml =>
      if amount_ml <=? 0 then outcome = (Resolved bad_request, db)
      else
        match faults db with
        | true :: _ =>
            fst outcome =
              Resolved {| rr_status := 500;
                          rr_body := body_error "Failed to add water intake" |} /\
            tables (snd outcome) = tables db
        | _ =>
            let entry := {| w_user_id := userId; w_date := startOfDay date;
                            amount_ml := amount_ml |} in
            fst outcome =
              Resolved {| rr_status := 201;
                          rr_body := body_ok "Water intake updated successfully" entry |} /\
            In entry (water_intake (tables (snd outcome)))
        end
  | _, _ => outcome = (Resolved bad_request, db)
  end.
Proof.
  cbv zeta. unfold addWaterIntake.
  destruct (wr_date body) as [date|], (wr_amount_ml body) as [amount|];
    try reflexivity.
  destruct (amount <=? 0); [reflexivity|].
  unfold try_catch, bind, pool_query.
  destruct (faults db) as [|[|] fs]; [|split; reflexivity|].
  - cbn [upsert_water].
    match goal with |- context [updateUserStreak ?n ?u ?a ?d ?c ?x] =>
      destruct (updateUserStreak_frame n u a d c x) as (res & E & F);
      destruct (updateUserStreak n u a d c x) as [[r|e] db1] end;
      cbn [fst snd] in *; [|discriminate E].
    split; [reflexivity|]. unfold ret. cbn [snd].
    rewrite (water_of_without_streaks _ _ F). cbn [tables].
    apply (upsert_water_stores userId date amount (tables db)).
  - cbn [upsert_water].
    match goal with |- context [updateUserStreak ?n ?u ?a ?d ?c ?x] =>
      destruct (updateUserStreak_frame n u a d c x) as (res & E & F);
      destruct (updateUserStreak n u a d c x) as [[r|e] db1] end;
      cbn [fst snd] in *; [|discriminate E].
    split; [reflexivity|]. unfold ret. cbn [snd].
    rewrite (water_of_without_streaks _ _ F). cbn [tables].
    apply (upsert_water_stores userId date amount (tables db)).
Qed.

(** X27: the route keeps the table of the water entries well formed,
    whatever the request and whichever queries fail: there remains one row
    for a user and a day, every row is dated at midnight and no amount is
    zero or negative. *)
Theorem addWaterIntake_keeps_water_valid (now userId : Z) (body : WaterRequest) (db : Db) :
  water_valid (tables db) ->
  water_valid (tables (snd (addWaterIntake now userId body db))).
Proof.
  intros V. unfold addWaterIntake.
  destruct (wr_date body) as [date|], (wr_amount_ml body) as [amount|];
    try exact V.
  destruct (Z.leb_spec amount 0) as [_|A]; [exact V|].
  unfold try_catch, bind, pool_query.
  assert (W : forall fs,
             water_valid
               (tables (snd (let (a, t) := upsert_water userId date amount (tables db) in
                  match
                    (let (o, db') :=
                       updateUserStreak now userId "water" date true
                         {| tables := t; faults := fs; rejected := rejected db |} in
                     match o with
                     | Resolved _ =>
                         (Resolved {| rr_status := 201;
                                      rr_body := body_ok "Water intake updated successfully" a |},
                          db')
                     | Rejected e => (Rejected e, db')
                     end)
                  with
                  | (Resolved a0, db') => (Resolved a0, db')
                  | (Rejected e, db') =>
                      (Resolved {| rr_status := 500;
                                   rr_body := body_error "Failed to add water intake" |}, db')
                  end)))).
  { intros fs.
    pose proof (upsert_water_valid userId date amount (tables db) A V) as U.
    destruct (upsert_water userId date amount (tables db)) as [a t]. cbn [snd] in U.
    match goal with |- context [updateUserStreak ?n ?u ?ac ?d ?c ?x] =>
      destruct (updateUserStreak_frame n u ac d c x) as (res & E & F);
      destruct (updateUserStreak n u ac d c x) as [[r|e] db1] end;
      cbn [fst snd tables] in *; [|discriminate E].
    destruct U as [N Fa]. unfold water_valid.
    now rewrite (water_of_without_streaks _ _ F). }
  destruct (faults db) as [|[|] fs]; [apply (W [])|exact V|apply (W fs)].
Qed.

(** The theorem for a second entry of user 1 on 13 January 2022 in the
    store of the water example, with the update of the streak failing. *)
Lemma addWaterIntake_keeps_water_valid_witness :
  let db := {| tables := waterTables; faults := [false; true]; rejected := 0 |} in
  let body := {| wr_date := Some (day 19004 + 3600000); wr_amount_ml := Some 2500 |} in
  water_valid (tables db) /\
  water_valid (tables (snd (addWaterIntake (day 19005) 1 body db))).
Proof.
  intros db body.
  assert (V : water_valid (tables db)).
  { split.
    - repeat constructor; simpl; intuition discriminate.
    - repeat constructor. }
  split; [exact V|]. exact (addWaterIntake_keeps_water_valid (day 19005) 1 body db V).
Defined.

Lemma updateUserStreak_first (now userId : Z) (activityType : string) (date : Z)
  (t : Tables) :
  user_streaks t !! (userId, activityType) = None ->
  updateUserStreak now userId activityType date true (healthy t) =
  (Resolved (Success {| sd_currentStreak := 1; sd_longestStreak := 1;
                        sd_lastActivityDate := Some date |}),
   healthy (write_streak now (userId, activityType) 1 1 date t)).
Proof.
  intros N. unfold updateUserStreak, try_catch, bind.
  rewrite select_healthy. cbv beta iota. rewrite N. cbv beta iota.
  change (1 >? 0) with true. cbv beta iota.
  now rewrite execute_healthy.
Qed.

(** X28: from the entry to the streak. On a store that answers, after a
    valid water entry has been answered 201, the route of the streaks
    answers 200 for the water streak of that user, dated with the day of
    the entry and with a current streak that does not exceed the longest;
    for a user without a water streak before, both are 1. An activity type
    other than typing, kriya, water and exercise is answered 400 without
    asking the store. *)
Theorem water_entry_then_streak (now userId date amount_ml : Z) (t : Tables) :
  0 < amount_ml ->
  let body := {| wr_date := Some date; wr_amount_ml := Some amount_ml |} in
  let after := snd (addWaterIntake now userId body (healthy t)) in
  (exists c l,
      fst (getUserStreakData userId "water" after) =
        Resolved {| rr_status := 200;
                    rr_body := body_ok "Streak data retrieved successfully"
                                 {| sd_currentStreak := c; sd_longestStreak := l;
                                    sd_lastActivityDate := Some (startOfDay date) |} |} /\
      c <= l /\
      (user_streaks t !! (userId, "water") = None -> c = 1 /\ l = 1)) /\
  forall activityType db,
    ~ In activityType ["typing"; "kriya"; "water"; "exercise"] ->
    getUserStreakData userId activityType db =
      (Resolved {| rr_status := 400; rr_body := body_error "Invalid activity type" |}, db).
Proof.
  intros A. cbv zeta. split.
  - unfold addWaterIntake. cbn [wr_date wr_amount_ml].
    assert (P : (amount_ml <=? 0) = false) by (apply Z.leb_gt; exact A).
    rewrite P. unfold try_catch at 1.
    rewrite (bind_resolved _ _ _ _ _ (pool_query_healthy _ t)).
    set (t1 := snd (upsert_water userId date amount_ml t)).
    destruct (updateUserStreak_completed now userId "water" date t1) as (c & l & CL & E).
    rewrite (bind_resolved _ _ _ _ _ E). unfold ret. cbn [snd].
    exists c, l. split; [|split; [exact CL|]].
    + unfold getUserStreakData, try_catch at 1.
      cbn [existsb String.eqb Ascii.eqb Bool.eqb orb negb].
      unfold getUserStreak, try_catch, bind. rewrite select_healthy.
      unfold write_streak. cbn [tables user_streaks set_user_streaks].
      rewrite lookup_insert_eq. reflexivity.
    + intros N.
      assert (N1 : user_streaks t1 !! (userId, "water") = None) by exact N.
      rewrite (updateUserStreak_first now userId "water" date t1 N1) in E.
      injection E as <- <-. split; reflexivity.
  - intros activityType db N. unfold getUserStreakData, try_catch.
    assert (E : existsb (String.eqb activityType) ["typing"; "kriya"; "water"; "exercise"]
                = false).
    { destruct (existsb _ _) eqn:X; [|reflexivity]. exfalso. apply N.
      apply existsb_exists in X as (x & Hx & Ex). apply String.eqb_eq in Ex. now subst. }
    rewrite E. reflexivity.
Qed.

(** The theorem for a first water entry of user 1, of 2 litres. *)
Lemma water_entry_then_streak_witness :
  0 < 2000 /\
  exists c l,
    fst (getUserStreakData 1 "water"
           (snd (addWaterIntake (day 19005) 1
                   {| wr_date := Some (day 19005); wr_amount_ml := Some 2000 |}
                   (healthy emptyTables)))) =
      Resolved {| rr_status := 200;
                  rr_body := body_ok "Streak data retrieved successfully"
                               {| sd_currentStreak := c; sd_longestStreak := l;
                                  sd_lastActivityDate := Some (startOfDay (day 19005)) |} |} /\
    c <= l.
Proof.
  split; [lia|].
  destruct (proj1 (water_entry_then_streak (day 19005) 1 (day 19005) 2000 emptyTables
                     ltac:(lia))) as (c & l & E & L & _).
  exists c, l. split; [exact E|exact L].
Defined.

(** ** InsightEngine: the analyzer of the water intake *)

Lemma ge_threshold (a k : Z) (q : Q) :
  (q == inject_Z k)%Q -> Js.ge (Js.num a) q = (k <=? a).
Proof.
  intros E. unfold Js.ge, Js.num.
  destruct (Z.leb_spec k a) as [L|L].
  - apply Qle_bool_iff. rewrite E. now rewrite <- Zle_Qle.
  - destruct (Qle_bool q (inject_Z a)) eqn:B; [|reflexivity].
    apply Qle_bool_iff in B. rewrite E in B. rewrite <- Zle_Qle in B. lia.
Qed.

(** X29: what the analyzer of the water intake finds. It returns at most
    two insights, three recommendations and two milestones, all of the
    category water_intake, the insights and the milestones stamped with the
    clock reading.
    There is a critical insight exactly when the average is below 1400 ml,
    and the hydration milestone exactly when it is at least 2000 ml, so
    never both; every actionable insight comes with a recommendation of
    high priority, and the advice to track more consistently is given
    exactly when fewer than 20 days were tracked. *)
Theorem analyzeWaterIntakePatterns_findings (now : Z) (waterData : WaterIntakeAnalytics) :
  let a := Service.analyzeWaterIntakePatterns now waterData in
  (length (an_insights a) <= 2 /\ length (an_recommendations a) <= 3 /\
   length (an_milestones a) <= 2)%nat /\
  (existsb is_critical (an_insights a) = true <-> wi_average waterData < 1400) /\
  (existsb (fun m => String.eqb (m_type m) "achievement") (an_milestones a) = true
   <-> 2000 <= wi_average waterData) /\
  length (filter (fun i => i_actionable i) (an_insights a)) =
    length (filter (fun r => match r_priority r with high => true | _ => false end)
              (an_recommendations a)) /\
  (existsb (fun r => match r_priority r with medium => true | _ => false end)
     (an_recommendations a) = true <-> wi_daysTracked waterData < 20) /\
  Forall (fun i => i_category i = "water_intake" /\ i_timestamp i = now) (an_insights a) /\
  Forall (fun r => r_category r = "water_intake" /\ r_actionable r = true)
    (an_recommendations a) /\
  Forall (fun m => m_category m = "water_intake" /\ m_timestamp m = now)
    (an_milestones a).
Proof.
  cbv zeta. unfold Service.analyzeWaterIntakePatterns.
  rewrite (ge_threshold (wi_average waterData) 1400) by reflexivity.
  rewrite (ge_threshold (wi_average waterData) 2000) by reflexivity.
  assert (T : String.eqb "goal_achievement" "achievement" = false) by reflexivity.
  destruct (match wi_trend waterData with increasing => true | _ => false end
            && (wi_trendPercentage waterData >? 15)),
    (match wi_trend waterData with decreasing => true | _ => false end
     && (wi_trendPercentage waterData <? -15)),
    (Z.leb_spec 1400 (wi_average waterData)),
    (Z.leb_spec 2000 (wi_average waterData)),
    (Z.ltb_spec (wi_daysTracked waterData) 20);
    try lia;
    destruct (wi_goalProgress waterData) as [gp|]; try destruct (gp_status gp);
    cbn [negb no_analysis push_insight push_recommendation push_milestone
         an_insights an_recommendations an_milestones app length
         existsb filter is_critical i_severity i_actionable r_priority m_type orb
         Service.waterImproved Service.waterDecreased Service.hourlyReminders
         Service.waterBelowRecommended Service.increaseGradually Service.hydrationMet
         Service.trackConsistently Service.waterGoalAchieved];
    rewrite ?T; cbn [orb];
    (split; [lia|]);
    (split; [split; [try discriminate; try lia; auto|auto; try lia]|]);
    (split; [split; [try discriminate; try lia; auto|auto; try lia]|]);
    (split; [reflexivity|]);
    (split; [split; [try discriminate; try lia; auto|auto; try lia]|]);
    (split; [repeat constructor|]);
    split; repeat constructor.
Qed.

Lemma getWaterIntakeAnalytics_no_entries (now userId startDate : Z) (t : Tables) :
  noWaterEntries userId startDate t ->
  exists w,
    getWaterIntakeAnalytics now userId startDate (healthy t) = (Resolved w, healthy t) /\
    wi_average w = 0 /\ wi_daysTracked w = 0 /\ wi_trend w = insufficient_data.
Proof.
  intros N. unfold getWaterIntakeAnalytics.
  rewrite (bind_resolved _ _ _ _ _ (select_healthy _ t)).
  rewrite (filter_none _ (water_intake t)).
  - cbn [order_by_asc JsArray.sort map length Nat.ltb Nat.leb].
    destruct (answers_getPreviousPeriodComparison now userId water_amounts startDate t)
      as [p Ep].
    rewrite (bind_resolved _ _ _ _ _ Ep).
    destruct (answers_calculateGoalProgress userId "water_intake" (Js.num 0) t) as [g Eg].
    rewrite (bind_resolved _ _ _ _ _ Eg).
    eexists. split; [reflexivity|]. repeat split.
  - intros r Hr. destruct (w_user_id r =? userId) eqn:U; [|reflexivity].
    apply Z.eqb_eq in U. specialize (N r Hr U). simpl.
    unfold on_or_after. apply Z.leb_gt. exact N.
Qed.

Lemma push_analysis_keeps {A : Type} (x : option A) (analyze : A -> Analysis)
  (milestones : bool) (acc : Analysis) (i : Insight) (r : Recommendation) :
  (In i (an_insights acc) -> In i (an_insights (push_analysis x analyze milestones acc))) /\
  (In r (an_recommendations acc) ->
   In r (an_recommendations (push_analysis x analyze milestones acc))).
Proof.
  destruct x as [a|]; cbn [push_analysis an_insights an_recommendations]; [|auto].
  split; intros H; apply in_app_iff; now left.
Qed.

(** X30: a user without any water entry in the last 30 days is told that
    the intake is critically low. On a store that answers, the health data
    of such a user carries a water sub-object with average 0 over 0 days,
    for which the analyzer of the service returns the critical insight on
    an intake of 0 ml and the advice to track more consistently; both are
    in the result of the health stage of any engine that uses this
    analyzer. *)
Theorem no_water_entries_critical (this : DomainAnalyzers) (now later userId : Z)
  (t : Tables) :
  noWaterEntries userId (minusDays now 30) t ->
  analyzeWaterIntakePatterns this = Service.analyzeWaterIntakePatterns ->
  exists healthData waterData,
    aggregateHealthData now later userId 30 None (healthy t) =
      (Resolved healthData, healthy t) /\
    hd_waterIntake healthData = Some waterData /\
    wi_average waterData = 0 /\ wi_daysTracked waterData = 0 /\
    let health := generateHealthInsights this now healthData in
    In (Service.waterBelowRecommended now 0) (an_insights health) /\
    In Service.increaseGradually (an_recommendations health) /\
    In Service.trackConsistently (an_recommendations health).
Proof.
  intros N W.
  destruct (getWaterIntakeAnalytics_no_entries later userId (minusDays now 30) t N)
    as (w & Ew & Avg & Days & Trend).
  pose proof answers_calculateGoalProgress as G.
  pose proof answers_getPreviousPeriodComparison as P.
  set (startDate := minusDays now 30) in *.
  destruct (when_requested_healthy allHealthMetrics "exercise"
              (getExerciseAnalytics later userId startDate) t) as (e & Ee & _);
    [unfold getExerciseAnalytics; answer|].
  destruct (when_requested_healthy allHealthMetrics "period"
              (getPeriodAnalytics userId startDate) t) as (p & Ep & _);
    [unfold getPeriodAnalytics; answer|].
  destruct (when_requested_healthy allHealthMetrics "constipation"
              (getConstipationAnalytics later userId startDate) t) as (c & Ec & _);
    [unfold getConstipationAnalytics; answer|].
  destruct (when_requested_healthy allHealthMetrics "kriya"
              (getKriyaAnalytics later userId startDate) t) as (k & Ek & _);
    [unfold getKriyaAnalytics, calculateConsistencyRate; answer|].
  destruct (when_requested_healthy allHealthMetrics "typing"
              (getTypingAnalytics later userId startDate) t) as (y & Ey & _);
    [unfold getTypingAnalytics; answer|].
  destruct (getHealthSummary_healthy later userId startDate allHealthMetrics t)
    as (s & Es & _).
  assert (Eww : when_requested allHealthMetrics "water"
                  (getWaterIntakeAnalytics later userId startDate) (healthy t)
                = (Resolved (Some w), healthy t)).
  { unfold when_requested. cbn [allHealthMetrics existsb String.eqb Ascii.eqb Bool.eqb orb].
    now rewrite (bind_resolved _ _ _ _ _ Ew). }
  unfold aggregateHealthData. fold startDate.
  rewrite (bind_resolved _ _ _ _ _ Eww), (bind_resolved _ _ _ _ _ Ee),
    (bind_resolved _ _ _ _ _ Ep), (bind_resolved _ _ _ _ _ Ec),
    (bind_resolved _ _ _ _ _ Ek), (bind_resolved _ _ _ _ _ Ey),
    (bind_resolved _ _ _ _ _ Es).
  eexists _, w. split; [reflexivity|]. cbn [hd_waterIntake].
  split; [reflexivity|]. split; [exact Avg|]. split; [exact Days|].
  cbv zeta. unfold generateHealthInsights.
  cbn [hd_waterIntake hd_exercise hd_constipation hd_kriya hd_typing].
  assert (F : In (Service.waterBelowRecommended now 0)
                 (an_insights (Service.analyzeWaterIntakePatterns now w)) /\
              In Service.increaseGradually
                 (an_recommendations (Service.analyzeWaterIntakePatterns now w)) /\
              In Service.trackConsistently
                 (an_recommendations (Service.analyzeWaterIntakePatterns now w))).
  { unfold Service.analyzeWaterIntakePatterns. rewrite Avg, Days, Trend.
    rewrite (ge_threshold 0 1400) by reflexivity.
    cbn [andb Z.leb Z.ltb Z.compare negb no_analysis push_insight push_recommendation].
    destruct (wi_goalProgress w) as [gp|]; try destruct (gp_status gp);
      unfold push_milestone, push_recommendation, push_insight, no_analysis;
      cbn [an_insights an_recommendations app In]; auto 6. }
  destruct F as (F1 & F2 & F3).
  set (acc0 := push_analysis (Some w) (analyzeWaterIntakePatterns this now) true no_analysis).
  assert (A0 : In (Service.waterBelowRecommended now 0) (an_insights acc0) /\
               In Service.increaseGradually (an_recommendations acc0) /\
               In Service.trackConsistently (an_recommendations acc0)).
  { unfold acc0. rewrite W.
    cbn [push_analysis an_insights an_recommendations no_analysis app]. auto. }
  assert (K : forall (A : Type) (x : option A) (analyze : A -> Analysis) (m : bool) acc,
             In (Service.waterBelowRecommended now 0) (an_insights acc) /\
             In Service.increaseGradually (an_recommendations acc) /\
             In Service.trackConsistently (an_recommendations acc) ->
             In (Service.waterBelowRecommended now 0)
                (an_insights (push_analysis x analyze m acc)) /\
             In Service.increaseGradually
                (an_recommendations (push_analysis x analyze m acc)) /\
             In Service.trackConsistently
                (an_recommendations (push_analysis x analyze m acc))).
  { intros A x analyze m acc (H1 & H2 & H3).
    split; [|split].
    - now apply (push_analysis_keeps x analyze m acc _ Service.trackConsistently).
    - now apply (push_analysis_keeps x analyze m acc (Service.waterBelowRecommended now 0)).
    - now apply (push_analysis_keeps x analyze m acc (Service.waterBelowRecommended now 0)). }
  do 4 apply K. exact A0.
Qed.

(** The theorem for user 1 of the water example on 13 February 2022 at
    noon, more than 30 days after the last of the four entries, with the
    analyzer of the service and analyzers that return nothing for the other
    metrics. *)
Lemma no_water_entries_critical_witness :
  let this :=
    {| analyzeWaterIntakePatterns := Service.analyzeWaterIntakePatterns;
       analyzeExercisePatterns := fun _ _ => no_analysis;
       analyzeConstipationPatterns := fun _ _ => no_analysis;
       analyzeKriyaPatterns := fun _ _ => no_analysis;
       analyzeTypingPatterns := fun _ _ => no_analysis;
       analyzeStudyHoursPatterns := fun _ _ => no_analysis;
       analyzeSubjectProgressPatterns := fun _ _ => no_analysis;
       analyzeTaskCompletionPatterns := fun _ _ => no_analysis;
       analyzeStudyPatternEfficiency := fun _ _ => no_analysis |} in
  let now := day 19036 + 43200000 in
  noWaterEntries 1 (minusDays now 30) waterTables /\
  analyzeWaterIntakePatterns this = Service.analyzeWaterIntakePatterns /\
  exists healthData waterData,
    aggregateHealthData now (now + 40) 1 30 None (healthy waterTables) =
      (Resolved healthData, healthy waterTables) /\
    hd_waterIntake healthData = Some waterData /\
    wi_average waterData = 0.
Proof.
  intros this now.
  assert (N : noWaterEntries 1 (minusDays now 30) waterTables).
  { intros r Hr U. simpl in Hr.
    repeat (destruct Hr as [<-|Hr]; [vm_compute; reflexivity|]). contradiction. }
  split; [exact N|]. split; [reflexivity|].
  destruct (no_water_entries_critical this now (now + 40) 1 waterTables N eq_refl)
    as (h & w & E & Hw & A & _).
  exists h, w. auto.
Defined.
